(** * Liberty Rider integration: share links, poll cycle and entity readers

    A shallow embedding of [sensor.py], [config_flow.py] and [const.py].

    The snapshot handed to the readers is whatever JSON the service
    returned under [data.ride], so values are modelled untyped, as the
    interpreter sees them: [None], booleans, unbounded integers, binary64
    floats, strings, lists and string-keyed dictionaries.  Exceptions are
    explicit: every operation returns either a value or the exception
    it raises, and [try]/[except] blocks are written with the list of
    classes they catch.  Calls to the logger have no effect on any result
    and are left out. *)

From Stdlib Require Import ZArith Floats String Ascii List Bool Lia.
From stdpp Require Import gmap strings.

Set Warnings "-inexact-float,-register-all".
Open Scope Z_scope.

#[local] Arguments String.append !s1 s2 / : simpl nomatch.

(** ** Values *)

Inductive pyval :=
| PNone
| PBool (b : bool)
| PInt (z : Z)
| PFloat (f : float)
| PStr (s : string)
| PList (l : list pyval)
| PDict (d : gmap string pyval)
| PDatetime (iso : string).
(** [PDatetime iso] is the [datetime] object that
    [datetime.fromisoformat iso] builds; it never occurs in JSON. *)

(** ** Exceptions

    Only subclasses of [Exception] are modelled (task cancellation is a
    [BaseException] and is not).  [UpdateFailed] records the ingredients
    of its formatted message instead of the formatted text. *)

Inductive exn :=
| KeyError
| IndexError
| TypeError
| AttributeError
| ValueError (msg : string)
| OverflowError
| ZeroDivisionError
| LibraryError (name : string)
| UpdateFailed (why : message)
with message :=
| MsgStatus (status : Z) (error_text : string)
| MsgGraphQL (errors : pyval)
| MsgNoRide
| MsgCommunicating (err : exn).

Inductive res (A : Type) :=
| Ret (a : A)
| Raise (e : exn).
Arguments Ret {A} a.
Arguments Raise {A} e.

#[global] Instance res_ret : MRet res := fun A a => Ret a.

#[global] Instance res_bind : MBind res := fun A B k c =>
  match c with
  | Ret a => k a
  | Raise e => Raise e
  end.

#[global] Instance res_fmap : FMap res := fun A B f c =>
  match c with
  | Ret a => Ret (f a)
  | Raise e => Raise e
  end.

(** [try: body except classes: handler].  [catches e] says whether [e]
    is an instance of one of the listed classes. *)
Definition try_except {A} (body : res A) (catches : exn -> bool)
    (handler : exn -> res A) : res A :=
  match body with
  | Ret a => Ret a
  | Raise e => if catches e then handler e else Raise e
  end.

(** [except Exception] *)
Definition any_exception (e : exn) : bool := true.

(** ** Numbers *)

Definition Z2SF (z : Z) : spec_float :=
  match z with
  | Z0 => S754_zero false
  | Zpos p => S754_finite false p 0
  | Zneg p => S754_finite true p 0
  end.

(** [float(n)] for an integer: the nearest binary64 value, ties to even;
    [OverflowError] when it is out of range. *)
Definition float_of_Z (z : Z) : res float :=
  let f := SF2Prim (binary_normalize prec emax z 0 false) in
  if is_infinity f then Raise OverflowError else Ret f.

(** [a / b] on two integers: the correctly rounded quotient. *)
Definition int_truediv (a b : Z) : res float :=
  if b =? 0 then Raise ZeroDivisionError
  else
    let f := SF2Prim (SFdiv prec emax (Z2SF a) (Z2SF b)) in
    if is_infinity f then Raise OverflowError else Ret f.

(** [int(x)] on a float truncates towards zero. *)
Definition float_trunc (f : float) : res Z :=
  match Prim2SF f with
  | S754_zero _ => Ret 0
  | S754_finite s m e =>
      Ret (if s then - Z.shiftl (Zpos m) e else Z.shiftl (Zpos m) e)
  | S754_infinity _ => Raise OverflowError
  | S754_nan => Raise (ValueError "cannot convert float NaN to integer")
  end.

(** The mathematical floor of a finite float. *)
Definition float_floor (f : float) : option Z :=
  match Prim2SF f with
  | S754_zero _ => Some 0
  | S754_finite s m e => Some (Z.shiftl (if s then Zneg m else Zpos m) e)
  | _ => None
  end.

(** Nearest integer to [n / d], ties to even ([d > 0]). *)
Definition div_half_even (n d : Z) : Z :=
  let q := n / d in
  let r := n mod d in
  match 2 * r ?= d with
  | Lt => q
  | Gt => q + 1
  | Eq => if Z.even q then q else q + 1
  end.

(** [round(x, ndigits)] on a float, [0 <= ndigits]: the exact value is
    rounded half-even to that many decimals and the decimal result is
    converted back to the nearest float.  Zeros, infinities and NaN round
    to themselves. *)
Definition round_float (f : float) (ndigits : Z) : float :=
  match Prim2SF f with
  | S754_finite s m e =>
      let p := 10 ^ ndigits in
      let n :=
        if 0 <=? e then Zpos m * p * 2 ^ e
        else div_half_even (Zpos m * p) (2 ^ (- e)) in
      match n with
      | Zpos k => SF2Prim (SFdiv prec emax (S754_finite s k 0) (Z2SF p))
      | _ => if s then PrimFloat.neg_zero else PrimFloat.zero
      end
  | _ => f
  end.

(** [timedelta(minutes=n)] for an integer [n], kept as its number of
    minutes.  The whole days of a [timedelta], [n // 1440] here, lie
    within 999999999 on either side; beyond, the constructor raises
    [OverflowError]. *)
Definition timedelta_minutes (n : Z) : res Z :=
  if (- 999999999 <=? n / 1440) && (n / 1440 <=? 999999999) then Ret n
  else Raise OverflowError.

(** ** Strings *)

Definition is_upper (c : ascii) : bool :=
  ((65 <=? nat_of_ascii c) && (nat_of_ascii c <=? 90))%nat.

Definition is_lower (c : ascii) : bool :=
  ((97 <=? nat_of_ascii c) && (nat_of_ascii c <=? 122))%nat.

Definition is_digit (c : ascii) : bool :=
  ((48 <=? nat_of_ascii c) && (nat_of_ascii c <=? 57))%nat.

Definition lower_char (c : ascii) : ascii :=
  if is_upper c then ascii_of_nat (nat_of_ascii c + 32) else c.

(** [s.lower()].  Strings are byte strings here; letters outside ASCII
    are left as they are. *)
Fixpoint lower (s : string) : string :=
  match s with
  | EmptyString => EmptyString
  | String c rest => String (lower_char c) (lower rest)
  end.

(** [s.startswith(p)] *)
Fixpoint startswith (s p : string) {struct p} : bool :=
  match p, s with
  | EmptyString, _ => true
  | String a p', String b s' => Ascii.eqb a b && startswith s' p'
  | String _ _, EmptyString => false
  end.

(** [sub in s] *)
Fixpoint contains (s sub : string) : bool :=
  startswith s sub ||
  match s with
  | EmptyString => false
  | String _ rest => contains rest sub
  end.

(** [c in s] for one character *)
Fixpoint has_char (c : ascii) (s : string) : bool :=
  match s with
  | EmptyString => false
  | String a rest => Ascii.eqb a c || has_char c rest
  end.

(** [s.replace(c, by)] for a one-character pattern *)
Fixpoint replace_char (c : ascii) (by_ : string) (s : string) : string :=
  match s with
  | EmptyString => EmptyString
  | String a rest =>
      if Ascii.eqb a c then by_ +:+ replace_char c by_ rest
      else String a (replace_char c by_ rest)
  end.

(** [s[:n]] and [s[n:]] for [0 <= n] *)
Fixpoint str_take (n : nat) (s : string) : string :=
  match n, s with
  | S n', String c rest => String c (str_take n' rest)
  | _, _ => EmptyString
  end.

Fixpoint str_drop (n : nat) (s : string) : string :=
  match n, s with
  | S n', String _ rest => str_drop n' rest
  | _, _ => s
  end.

(** [s.find(c)]: the first index of [c], [None] for [-1] *)
Fixpoint find_char (c : ascii) (s : string) : option nat :=
  match s with
  | EmptyString => None
  | String a rest =>
      if Ascii.eqb a c then Some O else S <$> find_char c rest
  end.

(** [s.find(c, start)] *)
Definition find_char_from (c : ascii) (start : nat) (s : string) : option nat :=
  (fun i => (start + i)%nat) <$> find_char c (str_drop start s).

(** [s.rfind(c)]: the last index of [c] *)
Fixpoint rfind_char (c : ascii) (s : string) : option nat :=
  match s with
  | EmptyString => None
  | String a rest =>
      match rfind_char c rest with
      | Some i => Some (S i)
      | None => if Ascii.eqb a c then Some O else None
      end
  end.

(** [s.split(c, 1)] when [c] occurs in [s]; [(s, "")] otherwise *)
Definition split_once (c : ascii) (s : string) : string * string :=
  match find_char c s with
  | Some i => (str_take i s, str_drop (S i) s)
  | None => (s, EmptyString)
  end.

Fixpoint str_last (s : string) : option ascii :=
  match s with
  | EmptyString => None
  | String c EmptyString => Some c
  | String _ rest => str_last rest
  end.

(** [s * n] and [l * n]: nothing is left when [n <= 0] *)
Definition str_repeat (s : string) (n : Z) : string :=
  Nat.iter (Z.to_nat n) (fun acc => s +:+ acc) EmptyString.

Definition list_repeat {A} (l : list A) (n : Z) : list A :=
  Nat.iter (Z.to_nat n) (fun acc => l ++ acc) [].

(** ** Built-ins whose algorithm is not reproduced

    Three library routines are consulted only on text that no property
    below depends on; they are taken as given.  [float_of_text s] is
    [float(s)] on a string, [None] standing for [ValueError];
    [fromisoformat_accepts s] says whether [datetime.fromisoformat(s)]
    returns; [netloc_refused h] says whether the URL parser raises
    [ValueError] on a network location [h] that holds a bracketed host or
    a character outside ASCII. *)

Class Builtins := {
  float_of_text : string -> option float;
  fromisoformat_accepts : string -> bool;
  netloc_refused : string -> bool
}.

(** ** Operations on values *)

Definition is_none (v : pyval) : bool :=
  match v with PNone => true | _ => false end.

(** [bool(v)] *)
Definition truthy (v : pyval) : bool :=
  match v with
  | PNone => false
  | PBool b => b
  | PInt z => negb (z =? 0)
  | PFloat f => negb (is_zero f)
  | PStr s => negb (String.eqb s EmptyString)
  | PList l => match l with [] => false | _ => true end
  | PDict d => negb (Nat.eqb (size d) 0)
  | PDatetime _ => true
  end.

(** [v == s] for a string literal [s] *)
Definition py_eq_str (v : pyval) (s : string) : bool :=
  match v with PStr t => String.eqb t s | _ => false end.

(** [v.get(k, default)]: only dictionaries have the method *)
Definition dict_get (v : pyval) (k : string) (dflt : pyval) : res pyval :=
  match v with
  | PDict d => Ret (default dflt (d !! k))
  | _ => Raise AttributeError
  end.

(** [v[k]] for a string key *)
Definition getitem (v : pyval) (k : string) : res pyval :=
  match v with
  | PDict d =>
      match d !! k with
      | Some x => Ret x
      | None => Raise KeyError
      end
  | _ => Raise TypeError
  end.

(** [v[-1]].  The keys of a JSON object are strings, so [-1] is never
    one of them. *)
Definition getitem_last (v : pyval) : res pyval :=
  match v with
  | PList l =>
      match last l with
      | Some x => Ret x
      | None => Raise IndexError
      end
  | PStr s =>
      match str_last s with
      | Some c => Ret (PStr (String c EmptyString))
      | None => Raise IndexError
      end
  | PDict _ => Raise KeyError
  | _ => Raise TypeError
  end.

(** [k in v] for a string literal [k] *)
Definition py_contains (v : pyval) (k : string) : res bool :=
  match v with
  | PDict d => Ret (bool_decide (is_Some (d !! k)))
  | PList l => Ret (existsb (fun x => py_eq_str x k) l)
  | PStr s => Ret (contains s k)
  | _ => Raise TypeError
  end.

(** [v.lower()] and [v.replace(c, by)]: string methods *)
Definition py_lower (v : pyval) : res string :=
  match v with
  | PStr s => Ret (lower s)
  | _ => Raise AttributeError
  end.

Definition py_replace (v : pyval) (c : ascii) (by_ : string) : res string :=
  match v with
  | PStr s => Ret (replace_char c by_ s)
  | _ => Raise AttributeError
  end.

Section Conversions.
Context `{Builtins}.

(** [float(v)] *)
Definition py_float (v : pyval) : res float :=
  match v with
  | PBool b => Ret (if b then PrimFloat.one else PrimFloat.zero)
  | PInt z => float_of_Z z
  | PFloat f => Ret f
  | PStr s =>
      match float_of_text s with
      | Some f => Ret f
      | None => Raise (ValueError "could not convert string to float")
      end
  | _ => Raise TypeError
  end.

(** [datetime.fromisoformat(s)] *)
Definition fromisoformat (s : string) : res pyval :=
  if fromisoformat_accepts s then Ret (PDatetime s)
  else Raise (ValueError "Invalid isoformat string").
End Conversions.

(** [v / n] for an integer literal [n]: true division, always a float *)
Definition py_truediv (v : pyval) (n : Z) : res float :=
  match v with
  | PBool b => int_truediv (Z.b2z b) n
  | PInt z => int_truediv z n
  | PFloat f =>
      d ← float_of_Z n;
      if is_zero d then Raise ZeroDivisionError else Ret (PrimFloat.div f d)
  | _ => Raise TypeError
  end.

(** [v * n] for an integer literal [n] *)
Definition py_mul (v : pyval) (n : Z) : res pyval :=
  match v with
  | PBool b => Ret (PInt (Z.b2z b * n))
  | PInt z => Ret (PInt (z * n))
  | PFloat f => d ← float_of_Z n; Ret (PFloat (PrimFloat.mul f d))
  | PStr s => Ret (PStr (str_repeat s n))
  | PList l => Ret (PList (list_repeat l n))
  | _ => Raise TypeError
  end.

(** [round(v, ndigits)] for [0 <= ndigits]: an integer rounds to itself *)
Definition py_round (v : pyval) (ndigits : Z) : res pyval :=
  match v with
  | PBool b => Ret (PInt (Z.b2z b))
  | PInt z => Ret (PInt z)
  | PFloat f => Ret (PFloat (round_float f ndigits))
  | _ => Raise TypeError
  end.

(** ** URL parsing

    The part of [urllib.parse] that [urlparse(url).path] runs through, as
    in CPython 3.12. *)

Module urllib.

Record ParseResult := {
  scheme : string;
  netloc : string;
  path : string;
  params : string;
  query : string;
  fragment : string
}.

(** Leading C0 control characters and spaces are stripped. *)
Fixpoint lstrip_c0 (url : string) : string :=
  match url with
  | String c rest =>
      if (nat_of_ascii c <=? 32)%nat then lstrip_c0 rest else url
  | EmptyString => EmptyString
  end.

(** Tab, carriage return and line feed are removed wherever they are. *)
Definition unsafe_byte (c : ascii) : bool :=
  (Nat.eqb (nat_of_ascii c) 9 || Nat.eqb (nat_of_ascii c) 10
   || Nat.eqb (nat_of_ascii c) 13)%nat.

Fixpoint remove_unsafe (url : string) : string :=
  match url with
  | EmptyString => EmptyString
  | String c rest =>
      if unsafe_byte c then remove_unsafe rest
      else String c (remove_unsafe rest)
  end.

Definition scheme_char (c : ascii) : bool :=
  is_lower c || is_upper c || is_digit c
  || Ascii.eqb c "+" || Ascii.eqb c "-" || Ascii.eqb c ".".

Fixpoint all_scheme_chars (s : string) : bool :=
  match s with
  | EmptyString => true
  | String c rest => scheme_char c && all_scheme_chars rest
  end.

(** The text before the first colon is the scheme when it is not empty,
    starts with a letter and holds scheme characters only. *)
Definition split_scheme (url : string) : string * string :=
  match find_char ":" url, url with
  | Some (S i), String c0 _ =>
      if (is_lower c0 || is_upper c0) && all_scheme_chars (str_take (S i) url)
      then (lower (str_take (S i) url), str_drop (S (S i)) url)
      else (EmptyString, url)
  | _, _ => (EmptyString, url)
  end.

(** [_splitnetloc(url, start)]: the network location ends at the first
    of [/], [?] and [#]. *)
Definition _splitnetloc (url : string) (start : nat) : string * string :=
  let delim :=
    fold_left
      (fun delim c =>
         match find_char_from c start url with
         | Some wdelim => Nat.min delim wdelim
         | None => delim
         end)
      ["/"; "?"; "#"]%char (String.length url) in
  (str_drop start (str_take delim url), str_drop delim url).

Fixpoint is_ascii (s : string) : bool :=
  match s with
  | EmptyString => true
  | String c rest => (nat_of_ascii c <? 128)%nat && is_ascii rest
  end.

Section Parse.
Context `{Builtins}.

(** The checks on the network location.  A bracket without its
    partner is always an error; a bracketed host and a location
    outside ASCII are validated by the library (the text of that
    second message is not reproduced). *)
Definition check_netloc (netloc : string) : res unit :=
  let lb := has_char "[" netloc in
  let rb := has_char "]" netloc in
  if (lb && negb rb) || (rb && negb lb) then
    Raise (ValueError "Invalid IPv6 URL")
  else if ((lb && rb) || negb (is_ascii netloc)) && netloc_refused netloc
  then Raise (ValueError "invalid network location")
  else Ret tt.

Definition urlsplit (url : string)
    : res (string * string * string * string * string) :=
  let url := remove_unsafe (lstrip_c0 url) in
  let '(scheme, url) := split_scheme url in
  let '(netloc, url) :=
    if startswith url "//" then _splitnetloc url 2 else (EmptyString, url) in
  _ ← check_netloc netloc;
  let '(url, fragment) := split_once "#" url in
  let '(url, query) := split_once "?" url in
  Ret (scheme, netloc, url, query, fragment).

Definition uses_params : list string :=
  [""; "ftp"; "hdl"; "prospero"; "http"; "imap"; "https"; "shttp"; "rtsp";
   "rtspu"; "sip"; "sips"; "mms"; "sftp"; "tel"]%string.

(** [_splitparams(url)]: the parameters are what follows the first
    semicolon of the last path segment. *)
Definition _splitparams (url : string) : string * string :=
  let i :=
    match rfind_char "/" url with
    | Some j => find_char_from ";" j url
    | None => find_char ";" url
    end in
  match i with
  | Some i => (str_take i url, str_drop (S i) url)
  | None => (url, EmptyString)
  end.

Definition urlparse (url : string) : res ParseResult :=
  '(scheme, netloc, url, query, fragment) ← urlsplit url;
  let '(url, params) :=
    if existsb (String.eqb scheme) uses_params && has_char ";" url
    then _splitparams url
    else (url, EmptyString) in
  Ret {| scheme := scheme; netloc := netloc; path := url;
         params := params; query := query; fragment := fragment |}.
End Parse.

End urllib.

(** ** Regular expression [/a/([^/]+)]

    [re.search] returns the leftmost match; the group is greedy. *)

(** The longest prefix without a slash *)
Fixpoint segment (s : string) : string :=
  match s with
  | EmptyString => EmptyString
  | String c rest =>
      if Ascii.eqb c "/" then EmptyString else String c (segment rest)
  end.

(** [re.search(r'/a/([^/]+)', s)], giving [group(1)] of the match *)
Fixpoint re_search_a (s : string) : option string :=
  match s with
  | EmptyString => None
  | String c rest =>
      if startswith s "/a/" && negb (String.eqb (segment (str_drop 3 s)) EmptyString)
      then Some (segment (str_drop 3 s))
      else re_search_a rest
  end.

(** ** [const.py] *)

Module const.
Definition DOMAIN : string := "liberty_rider".
Definition BASE_URL : string := "https://rider.live".
Definition API_URL : string := "https://api.liberty-rider.com/graphql".
Definition CONF_SHARE_URL : string := "share_url".
Definition CONF_LANGUAGE : string := "language".
Definition CONF_SCAN_INTERVAL : string := "scan_interval".
Definition DEFAULT_SCAN_INTERVAL : Z := 5.
Definition MIN_SCAN_INTERVAL : Z := 1.
Definition MAX_SCAN_INTERVAL : Z := 60.
End const.

(** The entry data that the configuration step stores and the coordinator
    reads back.  [scan_interval] is [None] when the key is absent. *)
Record ConfigEntryData := {
  entry_share_url : string;
  entry_language : string;
  entry_scan_interval : option Z
}.

(** ** [config_flow.py] *)

Module config_flow.

Inductive FlowResult :=
| CreateEntry (title : string) (data : ConfigEntryData)
| ShowForm (step_id : string) (errors : gmap string string).

(** [LibertyRiderConfigFlow.async_step_user].  The form schema has
    already made [user_input] a URL string, a language and an integer
    interval. *)
Definition async_step_user (user_input : option ConfigEntryData) : FlowResult :=
  let errors : gmap string string := ∅ in
  match user_input with
  | Some input =>
      let share_url := entry_share_url input in
      if negb (startswith share_url const.BASE_URL) then
        ShowForm "user" (<["base" := "invalid_url"]> errors)
      else
        match re_search_a share_url with
        | None => ShowForm "user" (<["base" := "invalid_url_format"]> errors)
        | Some _ =>
            CreateEntry "Liberty Rider"
              {| entry_share_url := share_url;
                 entry_language := entry_language input;
                 entry_scan_interval := entry_scan_interval input |}
        end
  | None => ShowForm "user" errors
  end.

End config_flow.

(** ** [sensor.py]: the coordinator *)

(** What the network does during one poll: the request raises (connection
    error, or the ten second timeout around the whole operation), or a
    response arrives with its status, and reading its body as text or as
    JSON returns or raises. *)
Inductive Exchange :=
| PostRaises (e : exn)
| Responded (status : Z) (text : res string) (json : res pyval).

Module LibertyRiderCoordinator.

Record t := {
  share_url : string;
  share_id : string;
  update_interval : Z;          (* minutes *)
  data : pyval;
  last_update_success : bool
}.

Section Methods.
Context `{Builtins}.

(** [__init__].  The interval is made a [timedelta] on the way to the
    base class, before the URL is looked at.  The base class starts with
    no data and [last_update_success = True]. *)
Definition __init__ (config_entry : ConfigEntryData) : res t :=
  let scan_interval :=
    default const.DEFAULT_SCAN_INTERVAL (entry_scan_interval config_entry) in
  scan_interval ← timedelta_minutes scan_interval;
  let share_url := entry_share_url config_entry in
  let share_url :=
    if startswith share_url "@" then str_drop 1 share_url else share_url in
  parsed_url ← urllib.urlparse share_url;
  let clean_path := urllib.path parsed_url in
  match re_search_a clean_path with
  | None => Raise (ValueError "Invalid share URL format")
  | Some group1 =>
      Ret {| share_url := share_url;
             share_id := group1;
             update_interval := scan_interval;
             data := PNone;
             last_update_success := true |}
  end.
End Methods.

(** [_async_update_data] *)
Definition _async_update_data (self : t) (net : Exchange) : res pyval :=
  try_except
    (match net with
     | PostRaises e => Raise e
     | Responded status text json =>
         if negb (status =? 200) then
           error_text ← text;
           Raise (UpdateFailed (MsgStatus status error_text))
         else
           data ← json;
           has_errors ← py_contains data "errors";
           if has_errors : bool then
             errors ← getitem data "errors";
             Raise (UpdateFailed (MsgGraphQL errors))
           else
             inner ← dict_get data "data" (PDict ∅);
             ride ← dict_get inner "ride" PNone;
             if negb (truthy ride) then Raise (UpdateFailed MsgNoRide)
             else
               inner ← getitem data "data";
               getitem inner "ride"
     end)
    any_exception
    (fun err => Raise (UpdateFailed (MsgCommunicating err))).

(** Modelled from the spec: the refresh wrapper that the coordinator
    inherits from the host framework's [DataUpdateCoordinator], which is
    not part of the repository.  Section 3 (PollOutcome): a returned
    snapshot replaces the cached one and marks availability true; a
    failure keeps the cached snapshot and the identity and flips
    availability to false. *)
Definition refresh (self : t) (net : Exchange) : t :=
  match _async_update_data self net with
  | Ret snapshot =>
      {| share_url := share_url self;
         share_id := share_id self;
         update_interval := update_interval self;
         data := snapshot;
         last_update_success := true |}
  | Raise _ =>
      {| share_url := share_url self;
         share_id := share_id self;
         update_interval := update_interval self;
         data := data self;
         last_update_success := false |}
  end.

End LibertyRiderCoordinator.

(** ** [sensor.py]: the sensors *)

(** Unit constants of the host framework *)
Definition PERCENTAGE : string := "%".
Definition KILOMETERS : string := "km".
Definition MINUTES : string := "min".

Record SensorEntityDescription := {
  key : string;
  name : string;
  native_unit_of_measurement : option string;
  device_class : option string
}.

Definition SENSOR_TYPES : list (string * SensorEntityDescription) :=
  [ ("status",
     {| key := "status"; name := "entity.sensor.status.name";
        native_unit_of_measurement := None; device_class := None |});
    ("battery",
     {| key := "battery"; name := "entity.sensor.battery.name";
        native_unit_of_measurement := Some PERCENTAGE;
        device_class := Some "battery" |});
    ("distance",
     {| key := "distance"; name := "entity.sensor.distance.name";
        native_unit_of_measurement := Some KILOMETERS;
        device_class := Some "distance" |});
    ("duration",
     {| key := "duration"; name := "entity.sensor.duration.name";
        native_unit_of_measurement := Some MINUTES;
        device_class := Some "duration" |});
    ("pause_duration",
     {| key := "pause_duration"; name := "entity.sensor.pause_duration.name";
        native_unit_of_measurement := Some MINUTES;
        device_class := Some "duration" |});
    ("start_time",
     {| key := "start_time"; name := "entity.sensor.start_time.name";
        native_unit_of_measurement := None;
        device_class := Some "timestamp" |}) ]%string.

Module LibertyRiderSensor.

Record t := {
  coordinator : LibertyRiderCoordinator.t;
  entity_description : SensorEntityDescription
}.

Definition available (self : t) : bool :=
  LibertyRiderCoordinator.last_update_success (coordinator self).

Section Methods.
Context `{Builtins}.

(** The [try] block of [state]; falling off its end returns [None]. *)
Definition state_body (self : t) : res pyval :=
  let data := LibertyRiderCoordinator.data (coordinator self) in
  let k := key (entity_description self) in
  if String.eqb k "status" then
    state ← dict_get data "state" PNone;
    if is_none state then Ret PNone
    else
      lowered ← py_lower state;
      Ret (PStr ("entity.sensor.status.state." +:+ lowered))
  else if String.eqb k "battery" then
    battery_level ← dict_get data "currentBatteryLevel" PNone;
    if is_none battery_level then Ret PNone
    else PFloat <$> py_float battery_level
  else if String.eqb k "distance" then
    distance ← dict_get data "distance" PNone;
    if is_none distance then Ret PNone
    else
      meters ← py_float distance;
      PFloat <$> py_truediv (PFloat meters) 1000
  else if String.eqb k "duration" then
    duration ← dict_get data "duration" PNone;
    if is_none duration then Ret PNone
    else
      minutes ← py_truediv duration 60;
      PInt <$> float_trunc minutes
  else if String.eqb k "pause_duration" then
    pause_duration ← dict_get data "pauseDuration" PNone;
    if is_none pause_duration then Ret PNone
    else
      minutes ← py_truediv pause_duration 60;
      PInt <$> float_trunc minutes
  else if String.eqb k "start_time" then
    start_time ← dict_get data "startTime" PNone;
    if is_none start_time then Ret PNone
    else
      text ← py_replace start_time "Z" "+00:00";
      fromisoformat text
  else Ret PNone.

(** [state] *)
Definition state (self : t) : res pyval :=
  if negb (truthy (LibertyRiderCoordinator.data (coordinator self)))
  then Ret PNone
  else try_except (state_body self) any_exception (fun _ => Ret PNone).
End Methods.

End LibertyRiderSensor.

(** ** [sensor.py]: the GPS tracker *)

Module LibertyRiderGPSTracker.

Record t := { coordinator : LibertyRiderCoordinator.t }.

Definition available (self : t) : bool :=
  LibertyRiderCoordinator.last_update_success (coordinator self).

(** [except (KeyError, TypeError, AttributeError, ValueError)] *)
Definition lookup_errors (e : exn) : bool :=
  match e with
  | KeyError | TypeError | AttributeError | ValueError _ => true
  | _ => false
  end.

(** A step of the body that may [return]: [Some v] is [return v],
    [None] goes on with the next statement. *)
Definition or_continue (step : res (option pyval)) (rest : res pyval)
    : res pyval :=
  r ← step;
  match r with
  | Some v => Ret v
  | None => rest
  end.

Definition attribute_prefix : string := "entity.sensor.status.state.".

Section Methods.
Context `{Builtins}.

(** The [try] block shared, up to the coordinate's name, by
    [latitude] and [longitude]. *)
Definition coordinate_body (axis : string) (data : pyval) : res pyval :=
  state ← dict_get data "state" PNone;
  or_continue
    (if py_eq_str state "RIDE_ACTIVE" then
       current_location ← dict_get data "currentLocation" PNone;
       if truthy current_location then
         present ← dict_get current_location axis PNone;
         if truthy present then
           raw ← getitem current_location axis;
           Some <$> (PFloat <$> py_float raw)
         else Ret None
       else Ret None
     else Ret None)
    (or_continue
       (if py_eq_str state "RIDE_PAUSED" || py_eq_str state "RIDE_STOPPED"
        then
          pauses ← dict_get data "pauses" (PList []);
          if truthy pauses then
            last_pause ← getitem_last pauses;
            location ← dict_get last_pause "lastLocation" (PDict ∅);
            if truthy location then
              present ← dict_get location axis PNone;
              if truthy present then
                raw ← getitem location axis;
                Some <$> (PFloat <$> py_float raw)
              else Ret None
            else Ret None
          else Ret None
        else Ret None)
       (Ret PNone)).

Definition coordinate (axis : string) (self : t) : res pyval :=
  let data := LibertyRiderCoordinator.data (coordinator self) in
  if negb (truthy data) then Ret PNone
  else try_except (coordinate_body axis data) lookup_errors
         (fun _ => Ret PNone).

(** [latitude] and [longitude] *)
Definition latitude (self : t) : res pyval := coordinate "latitude" self.
Definition longitude (self : t) : res pyval := coordinate "longitude" self.
End Methods.

(** The [try] block of [extra_state_attributes] *)
Definition attributes_body (data : pyval) : res (gmap string pyval) :=
  let attributes : gmap string pyval := ∅ in
  state ← dict_get data "state" PNone;
  attributes ←
    (if truthy state then
       raw ← getitem data "state";
       lowered ← py_lower raw;
       Ret (<["ride_status" := PStr (attribute_prefix +:+ lowered)]> attributes)
     else Ret attributes);
  distance ← dict_get data "distance" PNone;
  attributes ←
    (if truthy distance then
       raw ← getitem data "distance";
       km ← py_truediv raw 1000;
       Ret (<["distance_km" := PFloat (round_float km 2)]> attributes)
     else Ret attributes);
  duration ← dict_get data "duration" PNone;
  attributes ←
    (if truthy duration then
       raw ← getitem data "duration";
       minutes ← py_truediv raw 60;
       Ret (<["duration_minutes" := PFloat (round_float minutes 1)]> attributes)
     else Ret attributes);
  battery ← dict_get data "currentBatteryLevel" PNone;
  attributes ←
    (if truthy battery then
       raw ← getitem data "currentBatteryLevel";
       scaled ← py_mul raw 100;
       rounded ← py_round scaled 1;
       Ret (<["battery_level" := rounded]> attributes)
     else Ret attributes);
  Ret attributes.

(** [extra_state_attributes] *)
Definition extra_state_attributes (self : t) : res (gmap string pyval) :=
  let data := LibertyRiderCoordinator.data (coordinator self) in
  if negb (truthy data) then Ret ∅
  else try_except (attributes_body data) any_exception (fun _ => Ret ∅).

End LibertyRiderGPSTracker.

(** ** [sensor.py]: construction of the entities *)

(** [f"{v}"] inserts a string as it is.  The text of any other value is
    the interpreter's [str(v)], taken as given. *)
Class Formatting := { format_other : pyval -> string }.

Definition format_value `{Formatting} (v : pyval) : string :=
  match v with
  | PStr s => s
  | _ => format_other v
  end.

(** State constant of the host framework *)
Definition STATE_NOT_HOME : string := "not_home".

(** The lookup that opens both constructors:
    [user_firstname = ""], replaced by [user.get('firstName', '')] when
    the coordinator has data and the data has a truthy [user]. *)
Definition user_firstname (data : pyval) : res pyval :=
  if truthy data then
    user ← dict_get data "user" PNone;
    if truthy user then
      user ← getitem data "user";
      dict_get user "firstName" (PStr "")
    else Ret (PStr "")
  else Ret (PStr "").

Record DeviceInfo := {
  identifiers : list (string * string);
  device_name : string;
  manufacturer : string;
  model : string
}.

(** [device_info], written twice in the source with the same body *)
Definition device_info `{Formatting} (coordinator : LibertyRiderCoordinator.t)
    : res (option DeviceInfo) :=
  let data := LibertyRiderCoordinator.data coordinator in
  if negb (truthy data) then Ret None
  else
    present ← dict_get data "user" PNone;
    if negb (truthy present) then Ret None
    else
      user ← getitem data "user";
      firstname ← dict_get user "firstName" (PStr "");
      Ret (Some
             {| identifiers :=
                  [(const.DOMAIN, LibertyRiderCoordinator.share_id coordinator)];
                device_name := "Liberty Rider - " +:+ format_value firstname;
                manufacturer := "Liberty Rider";
                model := "Liberty Rider" |}).

Module SensorEntity.

(** A sensor with the two attributes its constructor computes *)
Record t := {
  entity : LibertyRiderSensor.t;
  _attr_unique_id : string;
  _attr_name : string
}.

(** [LibertyRiderSensor.__init__] *)
Definition __init__ `{Formatting} (coordinator : LibertyRiderCoordinator.t)
    (description : SensorEntityDescription) : res t :=
  firstname ← user_firstname (LibertyRiderCoordinator.data coordinator);
  Ret {| entity :=
           {| LibertyRiderSensor.coordinator := coordinator;
              LibertyRiderSensor.entity_description := description |};
         _attr_unique_id :=
           "liberty_rider_" +:+ key description +:+ "_"
           +:+ format_value firstname;
         _attr_name :=
           "Liberty Rider " +:+ name description +:+ " - "
           +:+ format_value firstname |}.

(** [LibertyRiderSensor.device_info] *)
Definition device_info `{Formatting} (self : t) : res (option DeviceInfo) :=
  device_info (LibertyRiderSensor.coordinator (entity self)).

End SensorEntity.

Module TrackerEntity.

Record t := {
  entity : LibertyRiderGPSTracker.t;
  _attr_unique_id : string;
  _attr_name : string;
  _attr_icon : string
}.

(** [LibertyRiderGPSTracker.__init__] *)
Definition __init__ `{Formatting} (coordinator : LibertyRiderCoordinator.t)
    : res t :=
  firstname ← user_firstname (LibertyRiderCoordinator.data coordinator);
  Ret {| entity := {| LibertyRiderGPSTracker.coordinator := coordinator |};
         _attr_unique_id :=
           "liberty_rider_" +:+ format_value firstname +:+ "_gps";
         _attr_name := "Liberty Rider GPS - " +:+ format_value firstname;
         _attr_icon := "mdi:map-marker" |}.

(** [LibertyRiderGPSTracker.device_info] *)
Definition device_info `{Formatting} (self : t) : res (option DeviceInfo) :=
  device_info (LibertyRiderGPSTracker.coordinator (entity self)).

(** [LibertyRiderGPSTracker.state]: no [try] block here *)
Definition state (self : LibertyRiderGPSTracker.t) : res string :=
  let data :=
    LibertyRiderCoordinator.data (LibertyRiderGPSTracker.coordinator self) in
  if negb (truthy data) then Ret STATE_NOT_HOME
  else
    state ← dict_get data "state" PNone;
    if truthy state then
      lowered ← py_lower state;
      Ret (LibertyRiderGPSTracker.attribute_prefix +:+ lowered)
    else Ret STATE_NOT_HOME.

(** [location_accuracy], in metres *)
Definition location_accuracy (self : LibertyRiderGPSTracker.t) : Z := 10.

End TrackerEntity.

(** ** [sensor.py]: platform setup *)

Inductive Entity :=
| ASensor (sensor : SensorEntity.t)
| ATracker (tracker : TrackerEntity.t).

Definition entity_unique_id (e : Entity) : string :=
  match e with
  | ASensor sensor => SensorEntity._attr_unique_id sensor
  | ATracker tracker => TrackerEntity._attr_unique_id tracker
  end.

Definition entity_coordinator (e : Entity) : LibertyRiderCoordinator.t :=
  match e with
  | ASensor sensor =>
      LibertyRiderSensor.coordinator (SensorEntity.entity sensor)
  | ATracker tracker =>
      LibertyRiderGPSTracker.coordinator (TrackerEntity.entity tracker)
  end.

(** [for x in xs: acc.append(f(x))], stopping at the first exception *)
Fixpoint map_res {A B} (f : A -> res B) (xs : list A) : res (list B) :=
  match xs with
  | [] => Ret []
  | x :: rest => y ← f x; ys ← map_res f rest; Ret (y :: ys)
  end.

Module platform.

(** The first refresh that the host framework runs on a new coordinator:
    one poll, and [ConfigEntryNotReady] when it fails. *)
Definition async_config_entry_first_refresh (self : LibertyRiderCoordinator.t)
    (net : Exchange) : res LibertyRiderCoordinator.t :=
  let refreshed := LibertyRiderCoordinator.refresh self net in
  if LibertyRiderCoordinator.last_update_success refreshed then Ret refreshed
  else Raise (LibraryError "ConfigEntryNotReady").

(** [async_setup_entry] of [sensor.py], giving the list handed to
    [async_add_entities].  [net] is what the network does during the
    first poll. *)
Definition async_setup_entry `{Builtins} `{Formatting}
    (config_entry : ConfigEntryData) (net : Exchange) : res (list Entity) :=
  coordinator ←
    try_except
      (coordinator ← LibertyRiderCoordinator.__init__ config_entry;
       async_config_entry_first_refresh coordinator net)
      any_exception
      (fun err => Raise (LibraryError "ConfigEntryNotReady"));
  sensors ←
    map_res (fun kd => SensorEntity.__init__ coordinator (snd kd)) SENSOR_TYPES;
  tracker ← TrackerEntity.__init__ coordinator;
  Ret ((ASensor <$> sensors) ++ [ATracker tracker]).

End platform.

(** ** [__init__.py]: the registry of configured entries *)

Module integration.

Record ConfigEntry := {
  entry_id : string;
  data : ConfigEntryData
}.

(** [async_setup_entry].  [hass_data] is [hass.data], from a domain to
    the entries registered under it; [forward] is the outcome of
    forwarding the setup to the platforms.  The registry is written before
    the platforms are set up, so it is returned in either case. *)
Definition async_setup_entry
    (hass_data : gmap string (gmap string ConfigEntryData))
    (entry : ConfigEntry) (forward : res unit)
    : gmap string (gmap string ConfigEntryData) * res bool :=
  let hass_data :=
    match hass_data !! const.DOMAIN with
    | Some _ => hass_data
    | None => <[const.DOMAIN := ∅]> hass_data
    end in
  let entries := default ∅ (hass_data !! const.DOMAIN) in
  let hass_data :=
    <[const.DOMAIN := <[entry_id entry := data entry]> entries]> hass_data in
  (hass_data, _ ← forward; Ret true).

(** [async_unload_entry].  [unload_ok] is what unloading the platforms
    answered.  [pop] has no default: a missing key is a [KeyError]. *)
Definition async_unload_entry
    (hass_data : gmap string (gmap string ConfigEntryData))
    (entry : ConfigEntry) (unload_ok : bool)
    : res (gmap string (gmap string ConfigEntryData) * bool) :=
  if unload_ok then
    match hass_data !! const.DOMAIN with
    | None => Raise KeyError
    | Some entries =>
        match entries !! entry_id entry with
        | None => Raise KeyError
        | Some _ =>
            Ret (<[const.DOMAIN := delete (entry_id entry) entries]> hass_data,
                 unload_ok)
        end
    end
  else Ret (hass_data, unload_ok).

End integration.

(** * Vocabulary of the properties *)

(** ** The poll cycle *)

(** The ride object of a response body, when [data.ride] is there. *)
Definition ride_of (body : pyval) : option pyval :=
  match body with
  | PDict top =>
      match top !! "data" with
      | Some (PDict inner) => inner !! "ride"
      | _ => None
      end
  | _ => None
  end.

(** The failure conditions of one poll. *)
Inductive poll_failure : Exchange -> Prop :=
| failure_status status text json :
    ~ (200 <= status < 300) ->
    poll_failure (Responded status text json)
| failure_errors status text top errors :
    top !! "errors" = Some errors ->
    poll_failure (Responded status text (Ret (PDict top)))
| failure_no_ride status text body :
    (forall ride, ride_of body = Some ride -> truthy ride = false) ->
    poll_failure (Responded status text (Ret body))
| failure_post e :
    poll_failure (PostRaises e)
| failure_json status text e :
    poll_failure (Responded status text (Raise e)).

(** ** The tracker's coordinates *)

Section Reports.
Context `{Builtins}.

(** What one accessor reports for its own coordinate [axis] of a
    location object [loc]: the coordinate's float value when it is
    present and truthy, [None] when it is absent or falsy.  The other
    coordinate plays no part. *)
Definition reports (axis : string) (loc : gmap string pyval)
    (result : res pyval) : Prop :=
  match loc !! axis with
  | Some v =>
      if truthy v
      then forall f, py_float v = Ret f -> result = Ret (PFloat f)
      else result = Ret PNone
  | None => result = Ret PNone
  end.

End Reports.

(** The object that the accessors read out of the last pause: its
    [lastLocation] when the pause is an object and the field is one, the
    empty object when the field is missing, and nothing when the pause is
    no object or the field is no object ([null], a number, a text, a
    list). *)
Definition last_location (last_pause : pyval) : option (gmap string pyval) :=
  match last_pause with
  | PDict pause =>
      match pause !! "lastLocation" with
      | None => Some ∅
      | Some (PDict loc) => Some loc
      | Some _ => None
      end
  | _ => None
  end.

(** ** Share links *)

(** A tail that is empty or opens a new path segment *)
Definition opens_segment (s : string) : bool :=
  match s with
  | EmptyString => true
  | String c _ => Ascii.eqb c "/"
  end.

(** Every character of [s] satisfies [p]. *)
Fixpoint all_chars (p : ascii -> bool) (s : string) : bool :=
  match s with
  | EmptyString => true
  | String c rest => p c && all_chars p rest
  end.

(** A character that can stand inside one path segment of a share link
    and reaches the parsed path unchanged: not a slash, not the start of
    a query or of a fragment, and not one of the bytes the parser
    removes. *)
Definition segment_char (c : ascii) : bool :=
  negb (Ascii.eqb c "/" || Ascii.eqb c "?" || Ascii.eqb c "#"
        || urllib.unsafe_byte c).

(** A token character: a segment character other than the semicolon,
    which starts the parameters of the last segment. *)
Definition token_char (c : ascii) : bool :=
  segment_char c && negb (Ascii.eqb c ";").

(** What may follow the token: nothing, further path segments, a query
    or a fragment. *)
Definition link_rest (s : string) : bool :=
  match s with
  | EmptyString => true
  | String c _ => Ascii.eqb c "/" || Ascii.eqb c "?" || Ascii.eqb c "#"
  end.

(** The interval of an entry, five minutes unless it is configured. *)
Definition scan_interval_of (config_entry : ConfigEntryData) : Z :=
  default const.DEFAULT_SCAN_INTERVAL (entry_scan_interval config_entry).

(** The intervals, in minutes, that [timedelta] takes: those of less
    than a thousand million days on either side. *)
Definition timedelta_fits (n : Z) : Prop :=
  - 1439999998560 <= n < 1440000000000.


(** ** Exceptions *)

(** [may_raise P c]: every exception that [c] raises satisfies [P]. *)
Definition may_raise {A} (P : exn -> Prop) (c : res A) : Prop :=
  forall e, c = Raise e -> P e.

(** What the [try] block of a coordinate accessor can raise: a class its
    handler lists, or [OverflowError]. *)
Definition coordinate_error (e : exn) : Prop :=
  LibertyRiderGPSTracker.lookup_errors e = true \/ e = OverflowError.

(** ** Sequences of polls *)

(** The coordinator after the polls [nets], in order. *)
Definition poll_all (self : LibertyRiderCoordinator.t) (nets : list Exchange)
    : LibertyRiderCoordinator.t :=
  fold_left LibertyRiderCoordinator.refresh nets self.

(** The snapshot a poll returns, if it returns. *)
Definition polled (self : LibertyRiderCoordinator.t) (net : Exchange)
    : option pyval :=
  match LibertyRiderCoordinator._async_update_data self net with
  | Ret snapshot => Some snapshot
  | Raise _ => None
  end.

(** The snapshot of the last poll of [nets] that returned one. *)
Definition last_snapshot (self : LibertyRiderCoordinator.t)
    (nets : list Exchange) : option pyval :=
  last (omap (polled self) nets).

(** ** Fields behind the sensors *)

(** The key of the snapshot that the sensor registered under [k] reads. *)
Definition sensor_field (k : string) : string :=
  if String.eqb k "status" then "state"
  else if String.eqb k "battery" then "currentBatteryLevel"
  else if String.eqb k "distance" then "distance"
  else if String.eqb k "duration" then "duration"
  else if String.eqb k "pause_duration" then "pauseDuration"
  else if String.eqb k "start_time" then "startTime"
  else "".

(** ** Entities of a configured entry *)

(** The key of the description behind a sensor; the tracker has none. *)
Definition entity_key (e : Entity) : option string :=
  match e with
  | ASensor sensor =>
      Some (key (LibertyRiderSensor.entity_description
                   (SensorEntity.entity sensor)))
  | ATracker _ => None
  end.

(** The sensor and the tracker built over [coordinator] when the first
    name formats as [firstname]. *)
Definition sensor_named (coordinator : LibertyRiderCoordinator.t)
    (description : SensorEntityDescription) (firstname : string)
    : SensorEntity.t :=
  {| SensorEntity.entity :=
       {| LibertyRiderSensor.coordinator := coordinator;
          LibertyRiderSensor.entity_description := description |};
     SensorEntity._attr_unique_id :=
       "liberty_rider_" +:+ key description +:+ "_" +:+ firstname;
     SensorEntity._attr_name :=
       "Liberty Rider " +:+ name description +:+ " - " +:+ firstname |}.

Definition tracker_named (coordinator : LibertyRiderCoordinator.t)
    (firstname : string) : TrackerEntity.t :=
  {| TrackerEntity.entity :=
       {| LibertyRiderGPSTracker.coordinator := coordinator |};
     TrackerEntity._attr_unique_id := "liberty_rider_" +:+ firstname +:+ "_gps";
     TrackerEntity._attr_name := "Liberty Rider GPS - " +:+ firstname;
     TrackerEntity._attr_icon := "mdi:map-marker" |}.

Definition ConfigEntryNotReady : exn := LibraryError "ConfigEntryNotReady".

(** ** The registry *)

(** The data registered for the entry [id] under the domain of the
    integration, if any. *)
Definition entry_data_of (hass_data : gmap string (gmap string ConfigEntryData))
    (id : string) : option ConfigEntryData :=
  entries ← hass_data !! const.DOMAIN; entries !! id.

(** ** Kinds of values *)

Definition is_string (v : pyval) : bool :=
  match v with PStr _ => true | _ => false end.

(** [bool], [int] and [float]: the values that [/] and [round] take *)
Definition is_number (v : pyval) : bool :=
  match v with PBool _ | PInt _ | PFloat _ => true | _ => false end.

Definition is_dict (v : pyval) : bool :=
  match v with PDict _ => true | _ => false end.

(** ** Attributes of the tracker *)

(** [m] with [k] bound to the value of [o], if there is one. *)
Definition put (k : string) (o : option pyval) (m : gmap string pyval)
    : gmap string pyval :=
  match o with
  | Some v => <[k := v]> m
  | None => m
  end.

(** One guarded assignment [if field: attributes[k] = compute(field)]:
    the value assigned, [None] when the guard is false or when the
    computation raises. *)
Definition attempt (field : pyval) (compute : res pyval) : option pyval :=
  if truthy field then
    match compute with
    | Ret v => Some v
    | Raise _ => None
    end
  else None.

(** The guarded assignment does not raise. *)
Definition completes (field : pyval) (compute : res pyval) : Prop :=
  truthy field = true -> exists v, compute = Ret v.

(** The four computations of [extra_state_attributes], on the fields of
    a snapshot. *)
Definition ride_status_of (snap : gmap string pyval) : res pyval :=
  lowered ← py_lower (default PNone (snap !! "state"));
  Ret (PStr (LibertyRiderGPSTracker.attribute_prefix +:+ lowered)).

Definition distance_km_of (snap : gmap string pyval) : res pyval :=
  q ← py_truediv (default PNone (snap !! "distance")) 1000;
  Ret (PFloat (round_float q 2)).

Definition duration_minutes_of (snap : gmap string pyval) : res pyval :=
  q ← py_truediv (default PNone (snap !! "duration")) 60;
  Ret (PFloat (round_float q 1)).

Definition battery_level_of (snap : gmap string pyval) : res pyval :=
  scaled ← py_mul (default PNone (snap !! "currentBatteryLevel")) 100;
  py_round scaled 1.

(** ** Example data

    The examples run on concrete snapshots and links.  None of them
    carries text in a numeric or time field, a bracketed host or a host
    outside ASCII, so the three built-ins left open are never consulted;
    the lemmas named [_any_builtins] say so, and [plain_builtins], which
    refuses everything, stands in for them in the closed statements. *)

Definition plain_builtins : Builtins :=
  {| float_of_text := fun _ => None;
     fromisoformat_accepts := fun _ => false;
     netloc_refused := fun _ => true |}.

Definition entry_for (url : string) : ConfigEntryData :=
  {| entry_share_url := url;
     entry_language := "fr";
     entry_scan_interval := Some 5 |}.


(** A coordinator that holds the snapshot [snapshot] after a successful
    poll. *)
Definition coordinator_with (snapshot : pyval) : LibertyRiderCoordinator.t :=
  {| LibertyRiderCoordinator.share_url := "https://rider.live/fr/a/TOKEN";
     LibertyRiderCoordinator.share_id := "TOKEN";
     LibertyRiderCoordinator.update_interval := 5;
     LibertyRiderCoordinator.data := snapshot;
     LibertyRiderCoordinator.last_update_success := true |}.

Definition tracker_with (snapshot : pyval) : LibertyRiderGPSTracker.t :=
  {| LibertyRiderGPSTracker.coordinator := coordinator_with snapshot |}.

(** The description registered under [k] in [SENSOR_TYPES] (an empty
    one for a key that is not registered). *)
Definition registered (k : string) : SensorEntityDescription :=
  default {| key := ""; name := ""; native_unit_of_measurement := None;
             device_class := None |}
    (snd <$> List.find (fun kd => String.eqb (fst kd) k) SENSOR_TYPES).

(** The sensor that [async_setup_entry] creates for that description. *)
Definition sensor_with (k : string) (snapshot : pyval) : LibertyRiderSensor.t :=
  {| LibertyRiderSensor.coordinator := coordinator_with snapshot;
     LibertyRiderSensor.entity_description := registered k |}.

Definition location (fields : list (string * pyval)) : pyval :=
  PDict (list_to_map fields).

(** [{"state": "RIDE_ACTIVE", "currentLocation": {"latitude": 48.1,
    "longitude": 2.3}}] *)
Definition riding_snapshot : gmap string pyval :=
  list_to_map
    [ ("state"%string, PStr "RIDE_ACTIVE");
      ("currentLocation"%string,
       location [("latitude"%string, PFloat 48.1);
                 ("longitude"%string, PFloat 2.3)]) ].

(** The same with [longitude] equal to [0]. *)
Definition riding_on_meridian : gmap string pyval :=
  list_to_map
    [ ("state"%string, PStr "RIDE_ACTIVE");
      ("currentLocation"%string,
       location [("latitude"%string, PFloat 48.1);
                 ("longitude"%string, PInt 0)]) ].

(** [{"state": "RIDE_STOPPED", "pauses": [{"lastLocation": {"latitude": 1,
    "longitude": 1}}, {"lastLocation": {"latitude": 2, "longitude": 2}}]}] *)
Definition stopped_snapshot : gmap string pyval :=
  list_to_map
    [ ("state"%string, PStr "RIDE_STOPPED");
      ("pauses"%string,
       PList
         [ PDict {[ "lastLocation"%string :=
                      location [("latitude"%string, PInt 1);
                                ("longitude"%string, PInt 1)] ]};
           PDict {[ "lastLocation"%string :=
                      location [("latitude"%string, PInt 2);
                                ("longitude"%string, PInt 2)] ]} ]) ].

(** The same, the last pause having lost its [longitude]. *)
Definition stopped_half_located : gmap string pyval :=
  list_to_map
    [ ("state"%string, PStr "RIDE_STOPPED");
      ("pauses"%string,
       PList
         [ PDict {[ "lastLocation"%string :=
                      location [("latitude"%string, PInt 1);
                                ("longitude"%string, PInt 1)] ]};
           PDict {[ "lastLocation"%string :=
                      location [("latitude"%string, PInt 2)] ]} ]) ].

(** The same, the last pause having a [lastLocation] of [null]. *)
Definition stopped_unlocated : gmap string pyval :=
  list_to_map
    [ ("state"%string, PStr "RIDE_STOPPED");
      ("pauses"%string,
       PList
         [ PDict {[ "lastLocation"%string :=
                      location [("latitude"%string, PInt 1);
                                ("longitude"%string, PInt 1)] ]};
           PDict {[ "lastLocation"%string := PNone ]} ]) ].

(** A snapshot with every numeric field of the spec's examples. *)
Definition measured_snapshot (battery : pyval) : gmap string pyval :=
  list_to_map
    [ ("state"%string, PStr "RIDE_ACTIVE");
      ("distance"%string, PInt 12345);
      ("duration"%string, PInt 125);
      ("pauseDuration"%string, PInt 59);
      ("currentBatteryLevel"%string, battery) ].

(** A ride whose two durations are both [seconds]. *)
Definition timed_snapshot (seconds : pyval) : gmap string pyval :=
  list_to_map
    [ ("state"%string, PStr "RIDE_ACTIVE");
      ("duration"%string, seconds);
      ("pauseDuration"%string, seconds) ].

(** A latitude that no float can hold: the integer [10 ^ 400]. *)
Definition overflowing_snapshot : gmap string pyval :=
  list_to_map
    [ ("state"%string, PStr "RIDE_ACTIVE");
      ("currentLocation"%string,
       location [("latitude"%string, PInt (10 ^ 400));
                 ("longitude"%string, PFloat 2.3)]) ].

(** ** Example data of the further properties

    Two of these snapshots carry text where the examples above have
    none: a start time, which is read through [utc_builtins], and a
    distance, which the attributes divide without consulting any
    built-in. *)

(** Formatting stands in for [str] in the closed statements: [None]
    and the booleans print as in Python, and the examples format nothing
    else but strings. *)
Definition plain_formatting : Formatting :=
  {| format_other := fun v =>
       match v with
       | PBool true => "True"
       | PBool false => "False"
       | _ => "None"
       end |}.

(** Built-ins whose timestamp parser accepts one text. *)
Definition utc_builtins : Builtins :=
  {| float_of_text := fun _ => None;
     fromisoformat_accepts := String.eqb "2024-05-01T10:00:00+00:00";
     netloc_refused := fun _ => true |}.

(** [{"state": "RIDE_ACTIVE", "distance": 12345, "duration": 125,
    "currentBatteryLevel": 0.85, "startTime": "2024-05-01T10:00:00Z",
    "user": {"firstName": "Ana"}}] *)
Definition rider_snapshot : gmap string pyval :=
  list_to_map
    [ ("state"%string, PStr "RIDE_ACTIVE");
      ("distance"%string, PInt 12345);
      ("duration"%string, PInt 125);
      ("currentBatteryLevel"%string, PFloat 0.85);
      ("startTime"%string, PStr "2024-05-01T10:00:00Z");
      ("user"%string, PDict {[ "firstName"%string := PStr "Ana" ]}) ].

(** A ride that has not moved yet:
    [{"state": "RIDE_ACTIVE", "distance": 0}] *)
Definition starting_snapshot : gmap string pyval :=
  list_to_map
    [ ("state"%string, PStr "RIDE_ACTIVE"); ("distance"%string, PInt 0) ].

(** A distance sent as text:
    [{"state": "RIDE_ACTIVE", "distance": "12345"}] *)
Definition textual_snapshot : gmap string pyval :=
  list_to_map
    [ ("state"%string, PStr "RIDE_ACTIVE"); ("distance"%string, PStr "12345") ].

(** [{"state": "", "distance": 12345}] and [{"state": 7}] *)
Definition stateless_snapshot : gmap string pyval :=
  list_to_map
    [ ("state"%string, PStr ""); ("distance"%string, PInt 12345) ].

Definition numbered_snapshot : gmap string pyval :=
  {[ "state"%string := PInt 7 ]}.

(** An active ride without a current location, after one located pause *)
Definition resumed_snapshot : gmap string pyval :=
  list_to_map
    [ ("state"%string, PStr "RIDE_ACTIVE");
      ("pauses"%string,
       PList
         [ PDict {[ "lastLocation"%string :=
                      location [("latitude"%string, PInt 1);
                                ("longitude"%string, PInt 1)] ]} ]) ].

(** The response [{"data": {"ride": ride}}] under status 200 *)
Definition answer_with (ride : pyval) : Exchange :=
  Responded 200 (Ret EmptyString)
    (Ret (PDict {[ "data"%string := PDict {[ "ride"%string := ride ]} ]})).

(** The entities of a rider named [Ana], over the coordinator that holds
    [rider_snapshot]. *)
Definition rider_entities : list Entity :=
  (ASensor <$>
     map (fun kd =>
            sensor_named (coordinator_with (PDict rider_snapshot)) (snd kd) "Ana")
       SENSOR_TYPES)
  ++ [ATracker (tracker_named (coordinator_with (PDict rider_snapshot)) "Ana")].

Definition first_entry : integration.ConfigEntry :=
  {| integration.entry_id := "entry-1";
     integration.data := entry_for "https://rider.live/fr/a/TOKEN" |}.

(** * Properties *)

(** ** Basic facts about values and exceptions *)

Lemma truthy_dict_lookup (d : gmap string pyval) k v :
  d !! k = Some v -> truthy (PDict d) = true.
Proof.
  intros Hk. simpl.
  destruct (Nat.eqb_spec (size d) 0) as [Hz | Hnz]; [|reflexivity].
  apply map_size_empty_iff in Hz. subst d.
  rewrite lookup_empty in Hk. discriminate.
Qed.

Lemma try_except_any {A} (body : res A) (handler : exn -> res A) :
  try_except body any_exception handler =
  match body with Ret a => Ret a | Raise e => handler e end.
Proof. destruct body; reflexivity. Qed.

Lemma bind_Ret {A B} (a : A) (k : A -> res B) : (Ret a ≫= k) = k a.
Proof. reflexivity. Qed.

Lemma dict_get_lookup (d : gmap string pyval) k dflt :
  dict_get (PDict d) k dflt = Ret (default dflt (d !! k)).
Proof. reflexivity. Qed.

(** One [x = d.get(k, dflt)] statement whose lookup is known. *)
Ltac step_get Hlookup :=
  match type of Hlookup with
  | ?d !! ?k = _ =>
      rewrite (dict_get_lookup d k), Hlookup; cbn [default from_option id];
      rewrite bind_Ret; cbv beta
  end.

(** ** The poll cycle *)

(** A poll either returns or raises [UpdateFailed], nothing else: the
    outer handler rewraps every exception of the block. *)
Lemma update_outcome self net :
  (exists snapshot, LibertyRiderCoordinator._async_update_data self net = Ret snapshot)
  \/ (exists err,
        LibertyRiderCoordinator._async_update_data self net
        = Raise (UpdateFailed (MsgCommunicating err))).
Proof.
  unfold LibertyRiderCoordinator._async_update_data.
  rewrite try_except_any.
  match goal with |- context [match ?b with Ret _ => _ | Raise _ => _ end] =>
    destruct b as [v | e] end.
  - left. eauto.
  - right. eauto.
Qed.

(** A poll returns a snapshot only on the success path: status 200, a
    JSON object without [errors], and a truthy [data.ride], which is the
    snapshot returned. *)
Lemma update_success_inv self net snapshot :
  LibertyRiderCoordinator._async_update_data self net = Ret snapshot ->
  exists text top,
    net = Responded 200 text (Ret (PDict top))
    /\ top !! "errors" = None
    /\ ride_of (PDict top) = Some snapshot
    /\ truthy snapshot = true.
Proof.
  unfold LibertyRiderCoordinator._async_update_data.
  rewrite try_except_any.
  destruct net as [e | status text json]; [discriminate|].
  destruct (Z.eqb_spec status 200) as [-> | Hne]; simpl.
  2:{ destruct text; simpl; discriminate. }
  destruct json as [body | e]; simpl; [|discriminate].
  destruct body as [| | | | s | l | top |]; simpl; try discriminate.
  - destruct (contains s "errors"); simpl; discriminate.
  - destruct (existsb _ l); simpl; discriminate.
  - case_bool_decide as Hsome; simpl.
    { destruct Hsome as [errs ->]. simpl. discriminate. }
    assert (Herr : top !! "errors" = None).
    { destruct (top !! "errors"); [exfalso; eauto | reflexivity]. }
    destruct (top !! "data") as [inner|] eqn:Hdata; simpl.
    + destruct inner as [| | | | | | inner |]; simpl; try discriminate.
      destruct (inner !! "ride") as [ride|] eqn:Hride; simpl; [|discriminate].
      destruct (truthy ride) eqn:Htruthy; simpl; [|discriminate].
      intros [= <-]. exists text, top. rewrite Hdata. auto.
    + rewrite lookup_empty. simpl. discriminate.
Qed.

(** C1. Every failure condition of a poll (a non-2xx status, a top-level
    [errors] field, no ride object under [data.ride], an exception raised
    by the request or by reading the body) makes [_async_update_data]
    raise [UpdateFailed], never return a snapshot; the refresh then keeps
    the cached snapshot and the identity unchanged and turns
    [last_update_success] to false. *)
Theorem poll_failure_is_reported self net :
  poll_failure net ->
  (exists err,
     LibertyRiderCoordinator._async_update_data self net
     = Raise (UpdateFailed (MsgCommunicating err)))
  /\ (forall snapshot,
        LibertyRiderCoordinator._async_update_data self net <> Ret snapshot)
  /\ LibertyRiderCoordinator.data (LibertyRiderCoordinator.refresh self net)
     = LibertyRiderCoordinator.data self
  /\ LibertyRiderCoordinator.share_id (LibertyRiderCoordinator.refresh self net)
     = LibertyRiderCoordinator.share_id self
  /\ LibertyRiderCoordinator.last_update_success
       (LibertyRiderCoordinator.refresh self net) = false.
Proof.
  intros Hfail.
  assert (Hno : forall snapshot,
    LibertyRiderCoordinator._async_update_data self net <> Ret snapshot).
  { intros snapshot Hret.
    apply update_success_inv in Hret as (text & top & -> & Herr & Hride & Htruthy).
    inversion Hfail as [st tx js Hst | st tx tp errs Herrs | st tx bd Hnone | |];
      subst.
    - apply Hst. lia.
    - congruence.
    - specialize (Hnone _ Hride). congruence. }
  destruct (update_outcome self net) as [[snapshot Hret] | [err Herr]].
  { destruct (Hno _ Hret). }
  split; [eauto|]. split; [exact Hno|].
  unfold LibertyRiderCoordinator.refresh. rewrite Herr. auto.
Qed.

(** ** The tracker's coordinates *)

Section TrackerLocation.
Context `{Builtins}.

Lemma reports_value axis (loc : gmap string pyval) result v f :
  loc !! axis = Some v ->
  truthy v = true ->
  py_float v = Ret f ->
  reports axis loc result ->
  result = Ret (PFloat f).
Proof.
  unfold reports. intros -> -> Hf Hrep. exact (Hrep f Hf).
Qed.

Lemma read_axis (loc : gmap string pyval) axis :
  (if truthy (PDict loc) then
     present ← dict_get (PDict loc) axis PNone;
     if truthy present then
       raw ← getitem (PDict loc) axis;
       Some <$> (PFloat <$> py_float raw)
     else Ret None
   else Ret None)
  = match loc !! axis with
    | Some v =>
        if truthy v then Some <$> (PFloat <$> py_float v) else Ret None
    | None => Ret None
    end.
Proof.
  destruct (loc !! axis) as [v|] eqn:Hv.
  - rewrite (truthy_dict_lookup _ _ _ Hv).
    unfold dict_get, getitem. rewrite Hv. simpl.
    destruct (truthy v); reflexivity.
  - destruct (truthy (PDict loc)); [|reflexivity].
    unfold dict_get. rewrite Hv. reflexivity.
Qed.

Lemma coordinate_active self (snap loc : gmap string pyval) axis :
  LibertyRiderCoordinator.data (LibertyRiderGPSTracker.coordinator self)
    = PDict snap ->
  snap !! "state" = Some (PStr "RIDE_ACTIVE") ->
  snap !! "currentLocation" = Some (PDict loc) ->
  reports axis loc (LibertyRiderGPSTracker.coordinate axis self).
Proof.
  intros Hdata Hstate Hloc.
  unfold LibertyRiderGPSTracker.coordinate. rewrite Hdata.
  rewrite (truthy_dict_lookup _ _ _ Hstate). cbn [negb].
  unfold LibertyRiderGPSTracker.coordinate_body.
  step_get Hstate.
  change (py_eq_str (PStr "RIDE_ACTIVE") "RIDE_ACTIVE") with true. cbn iota.
  step_get Hloc.
  rewrite read_axis.
  unfold reports.
  destruct (loc !! axis) as [v|]; [|reflexivity].
  destruct (truthy v); [|reflexivity].
  intros f Hf. rewrite Hf. reflexivity.
Qed.

(** C2 (as amended). With [state = RIDE_ACTIVE] and a [currentLocation]
    object, each accessor reports its own coordinate when that
    coordinate is present and truthy, and [None] when it is absent or
    falsy (such as 0), whatever the other coordinate is: with both
    present and truthy the pair is reported; with one of them missing
    the other is still returned. *)
Theorem active_location_per_coordinate self (snap loc : gmap string pyval) :
  LibertyRiderCoordinator.data (LibertyRiderGPSTracker.coordinator self)
    = PDict snap ->
  snap !! "state" = Some (PStr "RIDE_ACTIVE") ->
  snap !! "currentLocation" = Some (PDict loc) ->
  reports "latitude" loc (LibertyRiderGPSTracker.latitude self)
  /\ reports "longitude" loc (LibertyRiderGPSTracker.longitude self).
Proof.
  intros Hdata Hstate Hloc.
  split; eapply coordinate_active; eassumption.
Qed.

Lemma coordinate_paused self (snap : gmap string pyval) earlier last_pause
    st axis :
  LibertyRiderCoordinator.data (LibertyRiderGPSTracker.coordinator self)
    = PDict snap ->
  snap !! "state" = Some (PStr st) ->
  st = "RIDE_PAUSED"%string \/ st = "RIDE_STOPPED"%string ->
  snap !! "pauses" = Some (PList (earlier ++ [last_pause])) ->
  match last_location last_pause with
  | Some loc => reports axis loc (LibertyRiderGPSTracker.coordinate axis self)
  | None => LibertyRiderGPSTracker.coordinate axis self = Ret PNone
  end.
Proof.
  intros Hdata Hstate Hst Hpauses.
  unfold LibertyRiderGPSTracker.coordinate. rewrite Hdata.
  rewrite (truthy_dict_lookup _ _ _ Hstate). cbn [negb].
  unfold LibertyRiderGPSTracker.coordinate_body.
  step_get Hstate.
  assert (Hactive : py_eq_str (PStr st) "RIDE_ACTIVE" = false)
    by (destruct Hst; subst st; reflexivity).
  assert (Hpaused : py_eq_str (PStr st) "RIDE_PAUSED"
                    || py_eq_str (PStr st) "RIDE_STOPPED" = true)
    by (destruct Hst; subst st; reflexivity).
  rewrite Hactive, Hpaused. cbn iota.
  unfold LibertyRiderGPSTracker.or_continue at 1. rewrite bind_Ret.
  cbv beta iota.
  step_get Hpauses.
  assert (Htruthy : truthy (PList (earlier ++ [last_pause])) = true)
    by (destruct earlier; reflexivity).
  rewrite Htruthy. cbn iota.
  unfold getitem_last. rewrite last_snoc. rewrite bind_Ret. cbv beta.
  destruct last_pause as [| | | | | | pause |]; try reflexivity.
  rewrite dict_get_lookup, bind_Ret. cbv beta.
  unfold last_location.
  destruct (pause !! "lastLocation") as [location|];
    cbn [default from_option id].
  - destruct location as [| | | | | | loc |];
      try (match goal with
           | |- context [if truthy ?v then _ else _] => destruct (truthy v)
           end; reflexivity).
    rewrite read_axis. unfold reports.
    destruct (loc !! axis) as [v|]; [|reflexivity].
    destruct (truthy v); [|reflexivity].
    intros f Hf. rewrite Hf. reflexivity.
  - rewrite read_axis. unfold reports. rewrite lookup_empty. reflexivity.
Qed.

(** C3 (as amended). With [state] [RIDE_PAUSED] or [RIDE_STOPPED] and a
    non-empty [pauses] list (the spec's pauseHistory), each accessor
    reads the last element only, whatever the earlier elements hold.
    When the last element is an object whose [lastLocation] is an object
    (or is missing), each accessor reports its own coordinate when that
    coordinate is present and truthy, [None] otherwise, independently of
    the other coordinate.  When the last element is no object, or its
    [lastLocation] is no object ([null] for one), both accessors report
    [None]: there is no going back to an earlier pause. *)
Theorem paused_location_from_last_pause self (snap : gmap string pyval)
    earlier last_pause st :
  LibertyRiderCoordinator.data (LibertyRiderGPSTracker.coordinator self)
    = PDict snap ->
  snap !! "state" = Some (PStr st) ->
  st = "RIDE_PAUSED"%string \/ st = "RIDE_STOPPED"%string ->
  snap !! "pauses" = Some (PList (earlier ++ [last_pause])) ->
  match last_location last_pause with
  | Some loc =>
      reports "latitude" loc (LibertyRiderGPSTracker.latitude self)
      /\ reports "longitude" loc (LibertyRiderGPSTracker.longitude self)
  | None =>
      LibertyRiderGPSTracker.latitude self = Ret PNone
      /\ LibertyRiderGPSTracker.longitude self = Ret PNone
  end.
Proof.
  intros Hdata Hstate Hst Hpauses.
  pose proof (coordinate_paused self snap earlier last_pause st "latitude"
                Hdata Hstate Hst Hpauses) as Hlat.
  pose proof (coordinate_paused self snap earlier last_pause st "longitude"
                Hdata Hstate Hst Hpauses) as Hlon.
  destruct (last_location last_pause); split; assumption.
Qed.

End TrackerLocation.

(** ** Unit conversions of the sensors *)

Lemma float_of_Z_100 : float_of_Z 100 = Ret 100%float.
Proof. vm_compute. reflexivity. Qed.



Lemma py_mul_float_100 f :
  py_mul (PFloat f) 100 = Ret (PFloat (PrimFloat.mul f 100)).
Proof. unfold py_mul. rewrite float_of_Z_100. reflexivity. Qed.

(** *** Whole minutes of an integer number of seconds

    [s / 60] on an integer [s] is the quotient rounded to binary64, and
    [int] truncates it.  Below [60 * 2 ^ 48] seconds the rounding never
    reaches the next integer: the quotient is below [2 ^ 48], where
    floats are at most [1 / 32] apart, and its fractional part is at most
    [59 / 60].  The lemmas follow [SFdiv] through its rounding. *)

Lemma digits2_pos_bounds p :
  2 ^ (Zpos (digits2_pos p) - 1) <= Zpos p < 2 ^ Zpos (digits2_pos p).
Proof.
  induction p as [p IH | p IH |]; cbn [digits2_pos];
    [rewrite Pos2Z.inj_succ; change (Zpos p~1) with (2 * Zpos p + 1)
    |rewrite Pos2Z.inj_succ; change (Zpos p~0) with (2 * Zpos p)
    |cbn; lia].
  all: set (d := Zpos (digits2_pos p)) in *.
  all: assert (Hd : 0 < d) by (unfold d; lia).
  all: assert (Hpow : 2 ^ d = 2 * 2 ^ (d - 1))
         by (rewrite <- Z.pow_succ_r by lia; f_equal; lia).
  all: replace (Z.succ d - 1) with d by lia.
  all: rewrite Z.pow_succ_r by lia.
  all: lia.
Qed.

Lemma Zdigits2_unique n d :
  0 < d -> 2 ^ (d - 1) <= n < 2 ^ d -> Zdigits2 n = d.
Proof.
  intros Hd Hn.
  assert (Hpos : 0 < n).
  { assert (0 < 2 ^ (d - 1)) by (apply Z.pow_pos_nonneg; lia). lia. }
  destruct n as [|p|p]; try lia.
  cbn [Zdigits2].
  pose proof (digits2_pos_bounds p) as Hp.
  destruct (Z.lt_trichotomy (Zpos (digits2_pos p)) d) as [Hlt | [Heq | Hgt]].
  - assert (2 ^ Zpos (digits2_pos p) <= 2 ^ (d - 1))
      by (apply Z.pow_le_mono_r; lia).
    lia.
  - exact Heq.
  - assert (2 ^ d <= 2 ^ (Zpos (digits2_pos p) - 1))
      by (apply Z.pow_le_mono_r; lia).
    lia.
Qed.

Lemma shr_1_nonneg m r s :
  0 <= m ->
  shr_1 {| shr_m := m; shr_r := r; shr_s := s |}
  = {| shr_m := m / 2; shr_r := Z.odd m; shr_s := r || s |}.
Proof.
  intros Hm. destruct m as [|[p|p|]|]; try lia; cbn [shr_1].
  - reflexivity.
  - assert (Hhalf : Zpos p~1 / 2 = Zpos p).
    { change (Zpos p~1) with (2 * Zpos p + 1). symmetry.
      apply (Z.div_unique _ _ _ 1); lia. }
    rewrite Hhalf. reflexivity.
  - assert (Hhalf : Zpos p~0 / 2 = Zpos p).
    { change (Zpos p~0) with (2 * Zpos p). symmetry.
      apply (Z.div_unique _ _ _ 0); lia. }
    rewrite Hhalf. reflexivity.
  - reflexivity.
Qed.

Lemma loc_of_shr_record_of_loc m l :
  loc_of_shr_record (shr_record_of_loc m l) = l
  /\ shr_m (shr_record_of_loc m l) = m.
Proof. destruct l as [|[]]; split; reflexivity. Qed.

(** Rounding a mantissa of 53 digits: nothing is shifted out. *)
Lemma binary_round_aux_53 sx q e l :
  Zdigits2 q = 53 ->
  - 1074 <= e <= 971 ->
  0 < round_nearest_even q l ->
  Zdigits2 (round_nearest_even q l) = 53 ->
  binary_round_aux prec emax sx q e l
  = S754_finite sx (Z.to_pos (round_nearest_even q l)) e.
Proof.
  intros Hq He Hpos Hround.
  assert (Hshift : forall n, Zdigits2 n = 53 ->
            fexp prec emax (Zdigits2 n + e) - e = 0).
  { intros n ->. unfold fexp, emin, prec, emax. lia. }
  unfold binary_round_aux, shr_fexp.
  rewrite (Hshift _ Hq). cbn [shr].
  destruct (loc_of_shr_record_of_loc q l) as [-> ->].
  rewrite (Hshift _ Hround). cbn [shr].
  destruct (round_nearest_even q l) as [|m|m]; try lia.
  cbn [shr_record_of_loc shr_m Z.to_pos].
  unfold prec, emax.
  destruct (Z.leb_spec e (1024 - 53)); [reflexivity | lia].
Qed.

(** Rounding a mantissa of 54 digits: the last digit is shifted out. *)
Lemma binary_round_aux_54 sx q e l :
  Zdigits2 q = 54 ->
  0 < q ->
  - 1075 <= e <= 970 ->
  let shifted := shr_1 (shr_record_of_loc q l) in
  let rounded :=
    round_nearest_even (shr_m shifted) (loc_of_shr_record shifted) in
  0 < rounded ->
  Zdigits2 rounded = 53 ->
  binary_round_aux prec emax sx q e l
  = S754_finite sx (Z.to_pos rounded) (e + 1).
Proof.
  intros Hq Hqpos He shifted rounded Hpos Hround.
  unfold binary_round_aux, shr_fexp.
  rewrite Hq.
  replace (fexp prec emax (54 + e) - e) with 1
    by (unfold fexp, emin, prec, emax; lia).
  cbn [shr SpecFloat.iter_pos]. fold shifted. fold rounded.
  rewrite Hround.
  replace (fexp prec emax (53 + (e + 1)) - (e + 1)) with 0
    by (unfold fexp, emin, prec, emax; lia).
  cbn [shr].
  destruct rounded as [|m|m]; try lia.
  cbn [shr_record_of_loc shr_m Z.to_pos].
  unfold prec, emax.
  destruct (Z.leb_spec (e + 1) (1024 - 53)); [reflexivity | lia].
Qed.

(** The quotient of [s * P] by 60 lies in the window of [s / 60]. *)
Lemma quotient_window s P q r :
  0 < P ->
  s * P = 60 * q + r ->
  0 <= r < 60 ->
  (s / 60) * P <= q
  /\ 60 * q + r <= 60 * ((s / 60) * P) + 59 * P.
Proof.
  intros HP Hqr Hr.
  pose proof (Z.div_mod s 60 ltac:(lia)) as Hs.
  pose proof (Z.mod_pos_bound s 60 ltac:(lia)) as Ht.
  set (K := s / 60) in *. set (t := s mod 60) in *.
  assert (Hprod : s * P = 60 * (K * P) + t * P) by (rewrite Hs at 1; ring).
  assert (HT : 0 <= t * P <= 59 * P).
  { split; [apply Z.mul_nonneg_nonneg; lia|].
    apply Z.mul_le_mono_nonneg_r; lia. }
  lia.
Qed.

Lemma floor_window m H K :
  0 < H -> K * H <= m < (K + 1) * H -> m / H = K.
Proof.
  intros HH Hm. symmetry.
  apply (Z.div_unique m H K (m - K * H)); lia.
Qed.

Lemma round_nearest_even_bounds m l :
  m <= round_nearest_even m l <= m + 1
  /\ (round_nearest_even m l = m + 1 ->
      l = loc_Inexact Eq \/ l = loc_Inexact Gt).
Proof.
  destruct l as [|[]]; cbn [round_nearest_even];
    try destruct (Z.even m); split; try lia; auto; intros; lia.
Qed.

Lemma bounded_53 m e :
  Zdigits2 (Zpos m) = 53 -> - 1074 <= e <= 971 ->
  bounded prec emax m e = true.
Proof.
  intros Hm He. unfold bounded, canonical_mantissa.
  change (Zpos (digits2_pos m)) with (Zdigits2 (Zpos m)). rewrite Hm.
  replace (fexp prec emax (53 + e)) with e
    by (unfold fexp, emin, prec, emax; lia).
  unfold prec, emax.
  rewrite Z.eqb_refl.
  destruct (Z.leb_spec e (1024 - 53)); [reflexivity | lia].
Qed.

Lemma SFdiv_by_60 p :
  Zpos p < 60 * 2 ^ 48 ->
  exists m e,
    SFdiv prec emax (S754_finite false p 0) (S754_finite false 60 0)
    = S754_finite false m e
    /\ bounded prec emax m e = true
    /\ e <= 0
    /\ Zpos m / 2 ^ (- e) = Zpos p / 60.
Proof.
  intros Hs. change (2 ^ 48) with 281474976710656 in Hs.
  pose proof (digits2_pos_bounds p) as Hd.
  set (s := Zpos p) in *.
  set (d := Zpos (digits2_pos p)) in *.
  assert (Hd1 : 1 <= d <= 54).
  { split; [unfold d; lia|].
    destruct (Z_le_gt_dec d 54) as [|Hbig]; [assumption|].
    assert (Hpow : 2 ^ 54 <= 2 ^ (d - 1)) by (apply Z.pow_le_mono_r; lia).
    change (2 ^ 54) with 18014398509481984 in Hpow. lia. }
  unfold SFdiv, SFdiv_core_binary.
  change (Zdigits2 (Zpos p)) with d. change (Zdigits2 60) with 6.
  replace (Z.min (fexp prec emax (d + 0 - (6 + 0))) (0 - 0)) with (d - 59)
    by (unfold fexp, emin, prec, emax; lia).
  replace (0 - 0 - (d - 59)) with (59 - d) by lia.
  set (k := 59 - d).
  assert (Hk : 5 <= k <= 58) by (unfold k; lia).
  assert (Hshift : match k with
                   | Zpos _ => Z.shiftl s k
                   | 0 => s
                   | Zneg _ => 0
                   end = s * 2 ^ k).
  { destruct k; try lia. apply Z.shiftl_mul_pow2. lia. }
  fold s. rewrite Hshift.
  set (P := 2 ^ k).
  assert (HP : 32 <= P).
  { unfold P. change 32 with (2 ^ 5). apply Z.pow_le_mono_r; lia. }
  assert (Hm' : 2 ^ 58 <= s * P < 2 ^ 59).
  { assert (Hlow : 2 ^ (d - 1) * P = 2 ^ 58).
    { unfold P. rewrite <- Z.pow_add_r by lia. f_equal. unfold k. lia. }
    assert (Hhigh : 2 ^ d * P = 2 ^ 59).
    { unfold P. rewrite <- Z.pow_add_r by lia. f_equal. unfold k. lia. }
    rewrite <- Hlow, <- Hhigh. split.
    - apply Z.mul_le_mono_nonneg_r; lia.
    - apply Z.mul_lt_mono_pos_r; lia. }
  change (2 ^ 58) with 288230376151711744 in Hm'.
  change (2 ^ 59) with 576460752303423488 in Hm'.
  pose proof (Z_div_mod (s * P) 60 ltac:(lia)) as Hdiv.
  destruct (Z.div_eucl (s * P) 60) as [q r].
  destruct Hdiv as [Hqr Hr].
  cbn [xorb].
  destruct (quotient_window s P q r ltac:(lia) Hqr Hr) as [Hlow Hhigh].
  set (K := s / 60) in *.
  assert (Hq : 4503599627370496 <= q < 18014398509481984) by lia.
  set (l := new_location 60 r).
  assert (Hl : l = loc_Inexact Eq \/ l = loc_Inexact Gt -> 30 <= r).
  { unfold l, new_location, new_location_even. cbn [Z.even].
    destruct (Z.eqb_spec r 0) as [|Hr0]; [intros [|]; discriminate|].
    destruct (Z.compare_spec (2 * r) 60); intros [|]; try discriminate; lia. }
  clearbody l.
  destruct (Z_lt_ge_dec q 9007199254740992) as [Hsmall | Hbig].
  - destruct (round_nearest_even_bounds q l) as [Hround Hup].
    set (m := round_nearest_even q l) in *.
    assert (Hwin : K * P <= m < (K + 1) * P).
    { split; [lia|].
      destruct (Z.eq_dec m (q + 1)) as [Heq|]; [specialize (Hl (Hup Heq))|];
        lia. }
    assert (Hu : exists u, s * P = 32 * u).
    { exists (s * 2 ^ (k - 5)). unfold P.
      replace k with (5 + (k - 5)) at 1 by lia.
      rewrite Z.pow_add_r by lia. change (2 ^ 5) with 32. ring. }
    destruct Hu as [u Hu].
    assert (Htop : m < 9007199254740992).
    { destruct (Z.eq_dec m (q + 1)) as [Heq|]; [specialize (Hl (Hup Heq))|];
        lia. }
    assert (Hdig : Zdigits2 m = 53).
    { apply Zdigits2_unique; [lia|].
      change (2 ^ (53 - 1)) with 4503599627370496.
      change (2 ^ 53) with 9007199254740992. lia. }
    exists (Z.to_pos m), (d - 59).
    split; [|split; [|split]].
    + apply binary_round_aux_53; try lia; try exact Hdig.
      apply Zdigits2_unique; [lia|].
      change (2 ^ (53 - 1)) with 4503599627370496.
      change (2 ^ 53) with 9007199254740992. lia.
    + apply bounded_53; [rewrite Z2Pos.id by lia; exact Hdig | lia].
    + lia.
    + rewrite Z2Pos.id by lia. replace (- (d - 59)) with k by (unfold k; lia).
      fold P. apply floor_window; lia.
  - assert (Hk6 : 6 <= k).
    { destruct (Z.eq_dec k 5) as [Hk5|]; [|lia].
      exfalso. assert (HP32 : P = 32) by (unfold P; rewrite Hk5; reflexivity).
      rewrite HP32 in Hqr. lia. }
    set (H := 2 ^ (k - 1)).
    assert (HPH : P = 2 * H).
    { unfold P, H. rewrite <- Z.pow_succ_r by lia. f_equal. lia. }
    assert (HH : 32 <= H).
    { unfold H. change 32 with (2 ^ 5). apply Z.pow_le_mono_r; lia. }
    pose (shifted := shr_1 (shr_record_of_loc q l)).
    pose (rounded :=
            round_nearest_even (shr_m shifted) (loc_of_shr_record shifted)).
    assert (Hrounded : q / 2 <= rounded <= q / 2 + 1
                       /\ (rounded = q / 2 + 1 -> Z.odd q = true)).
    { unfold rounded, shifted.
      destruct l as [|[]]; cbn [shr_record_of_loc];
        rewrite shr_1_nonneg by lia;
        cbn [shr_m shr_r shr_s loc_of_shr_record orb];
        destruct (Z.odd q); cbn [orb];
        match goal with
        | |- context [round_nearest_even ?m ?l] =>
            destruct (round_nearest_even_bounds m l) as [Hb Hu]
        end;
        (split; [exact Hb|]); intros Heq; try reflexivity;
        destruct (Hu Heq); discriminate. }
    assert (Hdef : rounded
                   = round_nearest_even (shr_m shifted)
                       (loc_of_shr_record shifted)) by reflexivity.
    clearbody rounded. destruct Hrounded as [Hb Hodd].
    assert (Hhalf : q = 2 * (q / 2) + Z.b2z (Z.odd q))
      by (rewrite <- Z.div2_div; apply Z.div2_odd).
    set (h := q / 2) in *.
    rewrite HPH in Hlow, Hhigh.
    assert (Hwin : K * H <= rounded < (K + 1) * H).
    { destruct (Z.eq_dec rounded (h + 1)) as [Heq|].
      - rewrite (Hodd Heq) in Hhalf. cbn [Z.b2z] in Hhalf. lia.
      - destruct (Z.odd q); cbn [Z.b2z] in Hhalf; lia. }
    assert (Hdig : Zdigits2 rounded = 53).
    { apply Zdigits2_unique; [lia|].
      change (2 ^ (53 - 1)) with 4503599627370496.
      change (2 ^ 53) with 9007199254740992.
      destruct (Z.odd q); cbn [Z.b2z] in Hhalf; lia. }
    assert (Hpos : 0 < rounded)
      by (destruct (Z.odd q); cbn [Z.b2z] in Hhalf; lia).
    exists (Z.to_pos rounded), (d - 59 + 1).
    split; [|split; [|split]].
    + rewrite Hdef in Hpos, Hdig |- *.
      apply (binary_round_aux_54 false q (d - 59) l); try lia.
      * apply Zdigits2_unique; [lia|].
        change (2 ^ (54 - 1)) with 9007199254740992.
        change (2 ^ 54) with 18014398509481984. lia.
      * exact Hpos.
      * exact Hdig.
    + apply bounded_53; [rewrite Z2Pos.id by lia; exact Hdig | lia].
    + lia.
    + rewrite Z2Pos.id by lia.
      replace (- (d - 59 + 1)) with (k - 1) by (unfold k; lia).
      fold H. apply floor_window; lia.
Qed.


Lemma is_infinity_finite sx m e :
  bounded prec emax m e = true ->
  is_infinity (SF2Prim (S754_finite sx m e)) = false.
Proof.
  intros Hb. unfold is_infinity.
  rewrite FloatAxioms.eqb_spec, FloatAxioms.abs_spec, Prim2SF_SF2Prim by exact Hb.
  reflexivity.
Qed.

Lemma int_truediv_60_trunc s :
  0 <= s < 60 * 2 ^ 48 ->
  (int_truediv s 60 ≫= float_trunc) = Ret (s / 60).
Proof.
  intros Hs. destruct s as [|p|p]; [reflexivity| |lia].
  destruct (SFdiv_by_60 p ltac:(lia)) as (m & e & Hdiv & Hb & He & Hval).
  unfold int_truediv. cbn [Z.eqb Z2SF]. rewrite Hdiv.
  rewrite (is_infinity_finite _ _ _ Hb).
  change (float_trunc (SF2Prim (S754_finite false m e)) = Ret (Zpos p / 60)).
  unfold float_trunc. rewrite Prim2SF_SF2Prim by exact Hb.
  rewrite <- Hval. f_equal.
  destruct e as [|e|e]; [|lia|].
  - cbn. rewrite Z.div_1_r. reflexivity.
  - rewrite <- Z.shiftr_opp_r. apply Z.shiftr_div_pow2. lia.
Qed.

Lemma float_of_Z_60 : float_of_Z 60 = Ret 60%float.
Proof. vm_compute. reflexivity. Qed.

Lemma py_truediv_float_60 f :
  py_truediv (PFloat f) 60 = Ret (PrimFloat.div f 60).
Proof. unfold py_truediv. rewrite float_of_Z_60. reflexivity. Qed.

(** Truncation towards zero is the floor wherever the floor is not
    negative. *)
Lemma float_trunc_floor q m :
  float_floor q = Some m -> 0 <= m -> float_trunc q = Ret m.
Proof.
  unfold float_floor, float_trunc.
  destruct (Prim2SF q) as [s | s | | s mant e]; try discriminate.
  - intros [= <-] _. reflexivity.
  - intros [= <-] Hm. destruct s; [|reflexivity].
    apply Z.shiftl_nonneg in Hm. lia.
Qed.

Lemma py_truediv_not_none v n q : py_truediv v n = Ret q -> is_none v = false.
Proof. destruct v; simpl; congruence. Qed.

Lemma py_float_not_none `{Builtins} v f : py_float v = Ret f -> is_none v = false.
Proof. destruct v; simpl; congruence. Qed.

(** The description registered under a key is the one with that key. *)
Lemma sensor_type_key k description :
  In (k, description) SENSOR_TYPES -> key description = k.
Proof.
  unfold SENSOR_TYPES. simpl.
  intros Hin.
  repeat (destruct Hin as [[= <- <-] | Hin]; [reflexivity|]).
  destruct Hin.
Qed.

Lemma sensor_type_unit k description :
  In (k, description) SENSOR_TYPES ->
  native_unit_of_measurement description =
    if String.eqb k "battery" then Some PERCENTAGE
    else if String.eqb k "distance" then Some KILOMETERS
    else if String.eqb k "duration" || String.eqb k "pause_duration"
         then Some MINUTES
    else None.
Proof.
  unfold SENSOR_TYPES. simpl.
  intros Hin.
  repeat (destruct Hin as [[= <- <-] | Hin]; [reflexivity|]).
  destruct Hin.
Qed.

Section SensorStates.
Context `{Builtins}.

(** The state of a sensor over a non-empty snapshot is what its [try]
    block returns, [None] when the block raises. *)
Lemma state_over_snapshot self (snap : gmap string pyval) k v :
  LibertyRiderCoordinator.data (LibertyRiderSensor.coordinator self)
    = PDict snap ->
  snap !! k = Some v ->
  LibertyRiderSensor.state self =
    match LibertyRiderSensor.state_body self with
    | Ret result => Ret result
    | Raise _ => Ret PNone
    end.
Proof.
  intros Hdata Hk. unfold LibertyRiderSensor.state.
  rewrite Hdata, (truthy_dict_lookup _ _ _ Hk). cbn [negb].
  apply try_except_any.
Qed.


(** C8. For every snapshot whose [duration] (respectively
    [pauseDuration]) is an integer [s] of seconds with
    [0 <= s < 60 * 2 ^ 48], the state of the duration (respectively
    pause_duration) sensor is the integer [s / 60]: whole minutes,
    rounded down.  For one whose field is a float [f], the state is the
    floor [m] of the binary64 quotient [f / 60], wherever that floor is
    not negative.  Both are under the minute unit. *)
Theorem duration_state_is_floor_minutes self (snap : gmap string pyval)
    k field :
  (k = "duration"%string /\ field = "duration"%string)
  \/ (k = "pause_duration"%string /\ field = "pauseDuration"%string) ->
  In (k, LibertyRiderSensor.entity_description self) SENSOR_TYPES ->
  LibertyRiderCoordinator.data (LibertyRiderSensor.coordinator self)
    = PDict snap ->
  (forall s,
      snap !! field = Some (PInt s) ->
      0 <= s < 60 * 2 ^ 48 ->
      LibertyRiderSensor.state self = Ret (PInt (s / 60)))
  /\ (forall f m,
        snap !! field = Some (PFloat f) ->
        float_floor (PrimFloat.div f 60) = Some m ->
        0 <= m ->
        LibertyRiderSensor.state self = Ret (PInt m))
  /\ native_unit_of_measurement (LibertyRiderSensor.entity_description self)
     = Some MINUTES.
Proof.
  intros Hk Hin Hdata.
  assert (Hstate : forall seconds result,
             snap !! field = Some seconds ->
             is_none seconds = false ->
             (py_truediv seconds 60 ≫= float_trunc) = Ret result ->
             LibertyRiderSensor.state self = Ret (PInt result)).
  { intros seconds result Hfield Hsome Hminutes.
    rewrite (state_over_snapshot _ _ _ _ Hdata Hfield).
    unfold LibertyRiderSensor.state_body.
    rewrite (sensor_type_key _ _ Hin), Hdata.
    destruct (py_truediv seconds 60) as [q|] eqn:Hdiv; [|discriminate].
    rewrite bind_Ret in Hminutes.
    destruct Hk as [[-> ->] | [-> ->]];
      cbn [String.eqb Ascii.eqb Bool.eqb];
      step_get Hfield;
      rewrite Hsome, Hdiv, bind_Ret; cbv beta;
      rewrite Hminutes; reflexivity. }
  split; [|split].
  - intros s Hfield Hs.
    apply (Hstate (PInt s)); [exact Hfield | reflexivity |].
    apply int_truediv_60_trunc. exact Hs.
  - intros f m Hfield Hfloor Hm.
    apply (Hstate (PFloat f)); [exact Hfield | reflexivity |].
    rewrite py_truediv_float_60, bind_Ret.
    apply float_trunc_floor; assumption.
  - rewrite (sensor_type_unit _ _ Hin).
    destruct Hk as [[-> _] | [-> _]]; reflexivity.
Qed.

End SensorStates.

(** ** The two readers of the battery level *)

Lemma getitem_truthy (snap : gmap string pyval) k :
  truthy (default PNone (snap !! k)) = true ->
  getitem (PDict snap) k = Ret (default PNone (snap !! k)).
Proof.
  unfold getitem. destruct (snap !! k); [reflexivity | discriminate].
Qed.

(** When the [try] block of the attributes completes, the dictionary is
    made of the four guarded assignments, in the order of the source,
    and none of them raised. *)
Lemma attributes_body_inv (snap : gmap string pyval) attrs :
  LibertyRiderGPSTracker.attributes_body (PDict snap) = Ret attrs ->
  attrs =
    put "battery_level"
      (attempt (default PNone (snap !! "currentBatteryLevel"))
         (battery_level_of snap))
      (put "duration_minutes"
         (attempt (default PNone (snap !! "duration"))
            (duration_minutes_of snap))
         (put "distance_km"
            (attempt (default PNone (snap !! "distance"))
               (distance_km_of snap))
            (put "ride_status"
               (attempt (default PNone (snap !! "state"))
                  (ride_status_of snap)) ∅)))
  /\ completes (default PNone (snap !! "state")) (ride_status_of snap)
  /\ completes (default PNone (snap !! "distance")) (distance_km_of snap)
  /\ completes (default PNone (snap !! "duration")) (duration_minutes_of snap)
  /\ completes (default PNone (snap !! "currentBatteryLevel"))
       (battery_level_of snap).
Proof.
  unfold LibertyRiderGPSTracker.attributes_body.
  rewrite !dict_get_lookup, !bind_Ret. cbv beta.
  unfold attempt, completes, ride_status_of, distance_km_of,
    duration_minutes_of, battery_level_of.
  destruct (truthy (default PNone (snap !! "state"))) eqn:Hstate.
  all: try rewrite (getitem_truthy _ _ Hstate), bind_Ret.
  all: try (destruct (py_lower (default PNone (snap !! "state")));
            [|discriminate]).
  all: rewrite !bind_Ret; cbv beta.
  all: destruct (truthy (default PNone (snap !! "distance"))) eqn:Hdistance.
  all: try rewrite (getitem_truthy _ _ Hdistance), bind_Ret.
  all: try (destruct (py_truediv (default PNone (snap !! "distance")) 1000);
            [|discriminate]).
  all: rewrite !bind_Ret; cbv beta.
  all: destruct (truthy (default PNone (snap !! "duration"))) eqn:Hduration.
  all: try rewrite (getitem_truthy _ _ Hduration), bind_Ret.
  all: try (destruct (py_truediv (default PNone (snap !! "duration")) 60);
            [|discriminate]).
  all: rewrite !bind_Ret; cbv beta.
  all: destruct (truthy (default PNone (snap !! "currentBatteryLevel")))
         eqn:Hbattery.
  all: try rewrite (getitem_truthy _ _ Hbattery), bind_Ret.
  all: try (destruct (py_mul (default PNone (snap !! "currentBatteryLevel"))
                        100) as [scaled|]; [|discriminate]).
  all: rewrite ?bind_Ret; cbv beta.
  all: try (destruct (py_round scaled 1); [|discriminate]).
  all: rewrite ?bind_Ret; cbv beta.
  all: intros [= <-]; cbn [put].
  all: repeat split; intros; try discriminate; eauto.
Qed.

Lemma put_lookup k o (m : gmap string pyval) k' :
  put k o m !! k' =
    if decide (k = k') then
      match o with Some v => Some v | None => m !! k' end
    else m !! k'.
Proof.
  destruct o as [v|]; cbn [put].
  - destruct (decide (k = k')) as [-> | Hne].
    + apply lookup_insert_eq.
    + apply lookup_insert_ne, Hne.
  - destruct (decide (k = k')); reflexivity.
Qed.

Lemma attempt_is_Some field compute :
  completes field compute ->
  is_Some (attempt field compute) <-> truthy field = true.
Proof.
  unfold completes, attempt. intros Hcompletes.
  destruct (truthy field).
  - destruct (Hcompletes eq_refl) as [v ->]. split; eauto.
  - split; [intros [? ?]|]; discriminate.
Qed.

(** The four entries of a completed attribute dictionary, and nothing
    else. *)
Lemma attributes_lookup (snap : gmap string pyval) attrs :
  LibertyRiderGPSTracker.attributes_body (PDict snap) = Ret attrs ->
  attrs !! "ride_status"
  = attempt (default PNone (snap !! "state")) (ride_status_of snap)
  /\ attrs !! "distance_km"
     = attempt (default PNone (snap !! "distance")) (distance_km_of snap)
  /\ attrs !! "duration_minutes"
     = attempt (default PNone (snap !! "duration")) (duration_minutes_of snap)
  /\ attrs !! "battery_level"
     = attempt (default PNone (snap !! "currentBatteryLevel"))
         (battery_level_of snap)
  /\ forall k, is_Some (attrs !! k) ->
       In k ["ride_status"; "distance_km"; "duration_minutes";
             "battery_level"]%string.
Proof.
  intros Hbody.
  destruct (attributes_body_inv _ _ Hbody) as (-> & _).
  repeat split.
  1-4: rewrite !put_lookup, lookup_empty; cbn [decide];
       repeat (case_decide; try discriminate; try congruence);
       match goal with |- match ?o with _ => _ end = _ => destruct o end;
       reflexivity.
  intros k. rewrite !put_lookup, lookup_empty. cbn [In].
  repeat (case_decide; [subst k; auto 6|]).
  intros [? ?]. discriminate.
Qed.

(** What [extra_state_attributes] returns over a dictionary: the
    completed [try] block, or nothing. *)
Lemma extra_state_attributes_cases self (snap : gmap string pyval) attrs :
  LibertyRiderCoordinator.data (LibertyRiderGPSTracker.coordinator self)
    = PDict snap ->
  LibertyRiderGPSTracker.extra_state_attributes self = Ret attrs ->
  attrs = ∅
  \/ LibertyRiderGPSTracker.attributes_body (PDict snap) = Ret attrs.
Proof.
  intros Hdata. unfold LibertyRiderGPSTracker.extra_state_attributes.
  rewrite Hdata.
  destruct (truthy (PDict snap)); cbn [negb].
  - rewrite try_except_any.
    destruct (LibertyRiderGPSTracker.attributes_body (PDict snap)).
    + intros [= ->]. right. reflexivity.
    + intros [= <-]. left. reflexivity.
  - intros [= <-]. left. reflexivity.
Qed.

(** The other way round: when none of the four guarded assignments
    raises, the [try] block completes with the dictionary they make. *)
Lemma attributes_body_complete (snap : gmap string pyval) :
  completes (default PNone (snap !! "state")) (ride_status_of snap) ->
  completes (default PNone (snap !! "distance")) (distance_km_of snap) ->
  completes (default PNone (snap !! "duration")) (duration_minutes_of snap) ->
  completes (default PNone (snap !! "currentBatteryLevel"))
    (battery_level_of snap) ->
  LibertyRiderGPSTracker.attributes_body (PDict snap)
  = Ret (put "battery_level"
           (attempt (default PNone (snap !! "currentBatteryLevel"))
              (battery_level_of snap))
           (put "duration_minutes"
              (attempt (default PNone (snap !! "duration"))
                 (duration_minutes_of snap))
              (put "distance_km"
                 (attempt (default PNone (snap !! "distance"))
                    (distance_km_of snap))
                 (put "ride_status"
                    (attempt (default PNone (snap !! "state"))
                       (ride_status_of snap)) ∅)))).
Proof.
  unfold completes, attempt, ride_status_of, distance_km_of,
    duration_minutes_of, battery_level_of.
  intros Hs Hd Hm Hb.
  unfold LibertyRiderGPSTracker.attributes_body.
  rewrite !dict_get_lookup, !bind_Ret. cbv beta.
  destruct (truthy (default PNone (snap !! "state"))) eqn:Hstate.
  all: try rewrite (getitem_truthy _ _ Hstate), bind_Ret.
  all: try (destruct (py_lower (default PNone (snap !! "state")));
            [|destruct (Hs eq_refl) as [? Hx]; discriminate Hx]).
  all: rewrite !bind_Ret; cbv beta.
  all: destruct (truthy (default PNone (snap !! "distance"))) eqn:Hdistance.
  all: try rewrite (getitem_truthy _ _ Hdistance), bind_Ret.
  all: try (destruct (py_truediv (default PNone (snap !! "distance")) 1000);
            [|destruct (Hd eq_refl) as [? Hx]; discriminate Hx]).
  all: rewrite !bind_Ret; cbv beta.
  all: destruct (truthy (default PNone (snap !! "duration"))) eqn:Hduration.
  all: try rewrite (getitem_truthy _ _ Hduration), bind_Ret.
  all: try (destruct (py_truediv (default PNone (snap !! "duration")) 60);
            [|destruct (Hm eq_refl) as [? Hx]; discriminate Hx]).
  all: rewrite !bind_Ret; cbv beta.
  all: destruct (truthy (default PNone (snap !! "currentBatteryLevel")))
         eqn:Hbattery.
  all: try rewrite (getitem_truthy _ _ Hbattery), bind_Ret.
  all: try (destruct (py_mul (default PNone (snap !! "currentBatteryLevel"))
                        100) as [scaled|];
            [|destruct (Hb eq_refl) as [? Hx]; discriminate Hx]).
  all: rewrite ?bind_Ret; cbv beta.
  all: try (destruct (py_round scaled 1) eqn:Hround;
            [|destruct (Hb eq_refl) as [? Hx];
              rewrite bind_Ret, Hround in Hx; discriminate Hx]).
  all: reflexivity.
Qed.

(** For a float [f] the attribute is the float [round(f * 100.0, 1)]. *)
Lemma battery_level_of_float f :
  (py_mul (PFloat f) 100 ≫= fun scaled => py_round scaled 1)
  = Ret (PFloat (round_float (PrimFloat.mul f 100) 1)).
Proof. rewrite py_mul_float_100. reflexivity. Qed.

Section BatteryReaders.
Context `{Builtins}.

(** C6 (as amended). Over one coordinator whose snapshot carries a
    [currentBatteryLevel] [b] with float value [f], the battery sensor's
    state is [f], the raw fraction, under the percent unit.  When the
    [state] of the snapshot is falsy or a string and its [distance] and
    [duration] are falsy or can be divided, the tracker's attributes hold
    [battery_level] equal to [round(b * 100, 1)] for a truthy (non-zero)
    [b], and hold no [battery_level] for a [b] of zero. *)
Theorem battery_reader_conventions sensor tracker (snap : gmap string pyval)
    b f r :
  In ("battery"%string, LibertyRiderSensor.entity_description sensor)
    SENSOR_TYPES ->
  LibertyRiderGPSTracker.coordinator tracker
    = LibertyRiderSensor.coordinator sensor ->
  LibertyRiderCoordinator.data (LibertyRiderSensor.coordinator sensor)
    = PDict snap ->
  snap !! "currentBatteryLevel" = Some b ->
  py_float b = Ret f ->
  (truthy b = true ->
   (py_mul b 100 ≫= fun scaled => py_round scaled 1) = Ret r) ->
  (truthy (default PNone (snap !! "state")) = true ->
   is_string (default PNone (snap !! "state")) = true) ->
  (truthy (default PNone (snap !! "distance")) = true ->
   exists km, py_truediv (default PNone (snap !! "distance")) 1000 = Ret km) ->
  (truthy (default PNone (snap !! "duration")) = true ->
   exists minutes,
     py_truediv (default PNone (snap !! "duration")) 60 = Ret minutes) ->
  LibertyRiderSensor.state sensor = Ret (PFloat f)
  /\ native_unit_of_measurement (LibertyRiderSensor.entity_description sensor)
     = Some PERCENTAGE
  /\ exists attrs,
       LibertyRiderGPSTracker.extra_state_attributes tracker = Ret attrs
       /\ attrs !! "battery_level" = if truthy b then Some r else None.
Proof.
  intros Hin Hsame Hdata Hb Hfloat Hr Hstate Hdistance Hduration.
  split; [|split; [apply (sensor_type_unit _ _ Hin)|]].
  - rewrite (state_over_snapshot _ _ _ _ Hdata Hb).
    unfold LibertyRiderSensor.state_body.
    rewrite (sensor_type_key _ _ Hin), Hdata.
    cbn [String.eqb Ascii.eqb Bool.eqb].
    step_get Hb.
    rewrite (py_float_not_none _ _ Hfloat), Hfloat. reflexivity.
  - unfold LibertyRiderGPSTracker.extra_state_attributes.
    rewrite Hsame, Hdata, (truthy_dict_lookup _ _ _ Hb). cbn [negb].
    rewrite try_except_any.
    rewrite attributes_body_complete.
    + eexists. split; [reflexivity|].
      rewrite put_lookup. cbn [decide].
      case_decide; [|congruence].
      unfold attempt, battery_level_of. rewrite Hb.
      cbn [default from_option id].
      destruct (truthy b).
      * rewrite (Hr eq_refl). reflexivity.
      * rewrite !put_lookup, lookup_empty.
        repeat (case_decide; try discriminate). reflexivity.
    + intros Htruthy. unfold ride_status_of.
      destruct (default PNone (snap !! "state"));
        try discriminate (Hstate Htruthy). eauto.
    + intros Htruthy. unfold distance_km_of.
      destruct (Hdistance Htruthy) as [km ->]. eauto.
    + intros Htruthy. unfold duration_minutes_of.
      destruct (Hduration Htruthy) as [minutes ->]. eauto.
    + intros Htruthy. unfold battery_level_of. rewrite Hb in Htruthy |- *.
      cbn [default from_option id] in Htruthy |- *. eauto.
Qed.

End BatteryReaders.

(** ** Facts about strings *)

Lemma append_assoc a b c : (a +:+ b) +:+ c = a +:+ (b +:+ c).
Proof. induction a as [|x a IH]; simpl; [reflexivity | now rewrite IH]. Qed.

Lemma length_append a b :
  String.length (a +:+ b) = (String.length a + String.length b)%nat.
Proof. induction a as [|x a IH]; simpl; [reflexivity | now rewrite IH]. Qed.

Lemma has_char_append c a b :
  has_char c (a +:+ b) = has_char c a || has_char c b.
Proof.
  induction a as [|x a IH]; simpl; [reflexivity|].
  rewrite IH. apply orb_assoc.
Qed.

Lemma find_char_append c a b :
  has_char c a = false ->
  find_char c (a +:+ b)
  = (fun i => (String.length a + i)%nat) <$> find_char c b.
Proof.
  induction a as [|x a IH]; simpl.
  - intros _. destruct (find_char c b); reflexivity.
  - intros [Hx Ha]%orb_false_elim. rewrite Hx, (IH Ha).
    destruct (find_char c b); reflexivity.
Qed.

Lemma str_drop_append_le j a b :
  (j <= String.length a)%nat -> str_drop j (a +:+ b) = str_drop j a +:+ b.
Proof.
  revert j. induction a as [|x a IH]; intros [|j] Hj; simpl in *;
    try reflexivity; try lia.
  apply IH. lia.
Qed.

Lemma str_drop_append_ge j a b :
  (String.length a <= j)%nat ->
  str_drop j (a +:+ b) = str_drop (j - String.length a) b.
Proof.
  revert j. induction a as [|x a IH]; intros j Hj; simpl in *.
  - now rewrite Nat.sub_0_r.
  - destruct j as [|j]; [lia|]. simpl. apply IH. lia.
Qed.

Lemma str_take_append_ge j a b :
  (String.length a <= j)%nat ->
  str_take j (a +:+ b) = a +:+ str_take (j - String.length a) b.
Proof.
  revert j. induction a as [|x a IH]; intros j Hj; simpl in *.
  - now rewrite Nat.sub_0_r.
  - destruct j as [|j]; [lia|]. simpl. rewrite IH by lia. reflexivity.
Qed.

Lemma has_char_str_drop c j s :
  has_char c s = false -> has_char c (str_drop j s) = false.
Proof.
  revert j. induction s as [|x s IH]; intros [|j]; simpl; auto.
  intros [_ Hs]%orb_false_elim. auto.
Qed.

Lemma length_str_drop j s :
  String.length (str_drop j s) = (String.length s - j)%nat.
Proof.
  revert j. induction s as [|x s IH]; intros [|j]; simpl; auto.
Qed.

Lemma rfind_char_append c a b :
  exists j, rfind_char c (a +:+ String c b) = Some j
            /\ (String.length a <= j)%nat.
Proof.
  induction a as [|x a [j [Hj Hle]]]; simpl.
  - destruct (rfind_char c b) as [i|].
    + exists (S i). split; [reflexivity | lia].
    + rewrite Ascii.eqb_refl. exists O. split; [reflexivity | lia].
  - rewrite Hj. exists (S j). split; [reflexivity | lia].
Qed.

Lemma split_once_append c a b :
  has_char c a = false ->
  split_once c (a +:+ b)
  = (a +:+ fst (split_once c b), snd (split_once c b)).
Proof.
  intros Ha. unfold split_once. rewrite (find_char_append _ _ _ Ha).
  destruct (find_char c b) as [i|]; cbn -[str_drop str_take]; [|reflexivity].
  rewrite str_take_append_ge by lia.
  replace (String.length a + i - String.length a)%nat with i by lia.
  replace (S (String.length a + i)) with (String.length a + S i)%nat by lia.
  rewrite str_drop_append_ge by lia.
  replace (String.length a + S i - String.length a)%nat with (S i) by lia.
  reflexivity.
Qed.

Lemma opens_segment_take k s :
  opens_segment s = true -> opens_segment (str_take k s) = true.
Proof. destruct s, k; simpl; auto. Qed.

Lemma segment_append_tail a b :
  has_char "/" a = false -> opens_segment b = true -> segment (a +:+ b) = a.
Proof.
  induction a as [|x a IH]; cbn -[Ascii.eqb].
  - intros _. destruct b as [|y b]; cbn -[Ascii.eqb]; [reflexivity|].
    intros ->. reflexivity.
  - intros [Hx Ha]%orb_false_elim Hb. rewrite Hx, (IH Ha Hb). reflexivity.
Qed.

Lemma startswith_other_char x s c p :
  Ascii.eqb x c = false -> startswith (String x s) (String c p) = false.
Proof.
  intros Hx. cbn -[Ascii.eqb]. rewrite Ascii.eqb_sym, Hx. reflexivity.
Qed.

Lemma re_search_a_skip a s :
  has_char "/" a = false -> re_search_a (a +:+ s) = re_search_a s.
Proof.
  induction a as [|x a IH]; cbn -[Ascii.eqb startswith]; [reflexivity|].
  intros [Hx Ha]%orb_false_elim.
  rewrite (startswith_other_char _ _ _ _ Hx). cbn [andb]. auto.
Qed.

(** The pattern finds the token that follows [/<lang>/a/] when [lang] is
    one path segment other than [a]. *)
Lemma re_search_a_token lang token tail :
  has_char "/" lang = false ->
  lang <> "a"%string ->
  has_char "/" token = false ->
  token <> EmptyString ->
  opens_segment tail = true ->
  re_search_a ("/" +:+ lang +:+ "/a/" +:+ token +:+ tail) = Some token.
Proof.
  intros Hlang Hna Htoken Hne Htail.
  assert (Hfound : re_search_a ("/a/" +:+ token +:+ tail) = Some token).
  { change (re_search_a ("/a/" +:+ token +:+ tail))
      with (if negb (String.eqb (segment (token +:+ tail)) EmptyString)
            then Some (segment (token +:+ tail))
            else re_search_a ("a/" +:+ token +:+ tail)).
    rewrite (segment_append_tail _ _ Htoken Htail).
    destruct (String.eqb_spec token EmptyString); [contradiction | reflexivity]. }
  assert (Hfirst :
    startswith ("/" +:+ lang +:+ "/a/" +:+ token +:+ tail) "/a/"
    && negb (String.eqb
               (segment (str_drop 3 ("/" +:+ lang +:+ "/a/" +:+ token +:+ tail)))
               EmptyString) = false).
  { destruct lang as [|c [|c' lang']].
    - reflexivity.
    - cbn -[Ascii.eqb segment]. rewrite Ascii.eqb_refl.
      destruct (Ascii.eqb_spec "a" c) as [<- | Hc]; [contradiction|].
      reflexivity.
    - cbn -[Ascii.eqb] in Hlang. apply orb_false_elim in Hlang as [_ Hlang].
      apply orb_false_elim in Hlang as [Hc' _].
      cbn -[Ascii.eqb segment]. rewrite Ascii.eqb_refl.
      rewrite (Ascii.eqb_sym "/" c'), Hc'.
      destruct (Ascii.eqb "a" c); reflexivity. }
  change ("/" +:+ lang +:+ "/a/" +:+ token +:+ tail)
    with (String "/" (lang +:+ "/a/" +:+ token +:+ tail)) in *.
  cbn [re_search_a]. rewrite Hfirst.
  rewrite re_search_a_skip by assumption. exact Hfound.
Qed.

(** ** Parsing a share link *)

Lemma all_chars_has_char p c s :
  all_chars p s = true -> p c = false -> has_char c s = false.
Proof.
  intros Hall Hc. induction s as [|x s IH]; [reflexivity|].
  cbn -[Ascii.eqb] in *. apply andb_prop in Hall as [Hx Hs].
  rewrite (IH Hs), orb_false_r.
  destruct (Ascii.eqb_spec x c) as [-> | _]; [congruence | reflexivity].
Qed.

Lemma all_chars_weaken (p q : ascii -> bool) s :
  (forall c, p c = true -> q c = true) ->
  all_chars p s = true -> all_chars q s = true.
Proof.
  intros Hpq. induction s as [|x s IH]; [reflexivity|].
  cbn. intros [Hx Hs]%andb_prop. rewrite (Hpq _ Hx), (IH Hs). reflexivity.
Qed.

Lemma token_char_segment_char c : token_char c = true -> segment_char c = true.
Proof. unfold token_char. intros [Hc _]%andb_prop. exact Hc. Qed.

Lemma remove_unsafe_append a b :
  urllib.remove_unsafe (a +:+ b)
  = urllib.remove_unsafe a +:+ urllib.remove_unsafe b.
Proof.
  induction a as [|x a IH]; cbn -[urllib.unsafe_byte]; [reflexivity|].
  rewrite IH. destruct (urllib.unsafe_byte x); reflexivity.
Qed.

Lemma remove_unsafe_segment s :
  all_chars segment_char s = true -> urllib.remove_unsafe s = s.
Proof.
  induction s as [|x s IH]; [reflexivity|].
  cbn -[urllib.unsafe_byte Ascii.eqb]. intros [Hx Hs]%andb_prop.
  unfold segment_char in Hx. apply negb_true_iff in Hx.
  repeat (apply orb_false_elim in Hx as [Hx ?]).
  replace (urllib.unsafe_byte x) with false by congruence.
  rewrite (IH Hs). reflexivity.
Qed.

Lemma link_rest_remove_unsafe s :
  link_rest s = true -> link_rest (urllib.remove_unsafe s) = true.
Proof.
  destruct s as [|c s]; [reflexivity|].
  cbn -[Ascii.eqb urllib.unsafe_byte]. intros Hc.
  assert (Hsafe : urllib.unsafe_byte c = false).
  { repeat (apply orb_prop in Hc as [Hc | Hc]);
      apply Ascii.eqb_eq in Hc; subst c; reflexivity. }
  rewrite Hsafe. exact Hc.
Qed.

Lemma split_once_at_head c s :
  fst (split_once c (String c s)) = EmptyString.
Proof. unfold split_once. cbn -[Ascii.eqb]. rewrite Ascii.eqb_refl. reflexivity. Qed.

Lemma split_once_after_head c x s :
  Ascii.eqb x c = false ->
  exists t, fst (split_once c (String x s)) = String x t.
Proof.
  intros Hx. unfold split_once. cbn -[Ascii.eqb]. rewrite Hx.
  destruct (find_char c s) as [i|]; cbn; eauto.
Qed.

(** Cutting the fragment and then the query off what follows the token
    leaves nothing or further path segments. *)
Lemma path_tail_of_rest rest :
  link_rest rest = true ->
  opens_segment (fst (split_once "?" (fst (split_once "#" rest)))) = true.
Proof.
  destruct rest as [|c rest]; [reflexivity|].
  cbn -[Ascii.eqb split_once]. intros Hc.
  destruct (Ascii.eqb_spec c "#") as [-> | Hhash].
  { rewrite split_once_at_head. reflexivity. }
  apply Ascii.eqb_neq in Hhash.
  destruct (split_once_after_head "#" c rest Hhash) as [t ->].
  destruct (Ascii.eqb_spec c "?") as [-> | Hquery].
  { rewrite split_once_at_head. reflexivity. }
  apply Ascii.eqb_neq in Hquery.
  destruct (split_once_after_head "?" c t Hquery) as [t' ->].
  rewrite !orb_false_r in Hc. exact Hc.
Qed.

Lemma find_char_from_spec c j s i :
  find_char_from c j s = Some i ->
  exists k, i = (j + k)%nat /\ find_char c (str_drop j s) = Some k.
Proof.
  unfold find_char_from.
  destruct (find_char c (str_drop j s)) as [k|]; cbn; [|discriminate].
  intros [= <-]. eauto.
Qed.

(** The parameters are cut after the token: a semicolon found at or after
    the last slash lies beyond a token that has none. *)
Lemma splitparams_keeps_token pre token tail :
  has_char ";" token = false ->
  exists k,
    fst (urllib._splitparams (pre +:+ "/" +:+ token +:+ tail))
    = pre +:+ "/" +:+ token +:+ str_take k tail
    \/ fst (urllib._splitparams (pre +:+ "/" +:+ token +:+ tail))
       = pre +:+ "/" +:+ token +:+ tail.
Proof.
  intros Htoken. unfold urllib._splitparams.
  change (pre +:+ "/" +:+ token +:+ tail)
    with (pre +:+ String "/" (token +:+ tail)).
  destruct (rfind_char_append "/" pre (token +:+ tail)) as [j [-> Hj]].
  destruct (find_char_from ";" j (pre +:+ String "/" (token +:+ tail)))
    as [i|] eqn:Hfind; cbn [fst]; [|exists O; right; reflexivity].
  apply find_char_from_spec in Hfind as [k [-> Hk]].
  rewrite str_drop_append_ge in Hk by exact Hj.
  set (j' := (j - String.length pre)%nat) in *.
  set (w := String "/" token).
  change (String "/" (token +:+ tail)) with (w +:+ tail) in *.
  assert (Hw : has_char ";" w = false) by (unfold w; cbn; exact Htoken).
  assert (Hlen : (String.length pre + String.length w <= j + k)%nat).
  { destruct (Nat.le_gt_cases j' (String.length w)) as [Hle | Hgt]; [|lia].
    rewrite str_drop_append_le in Hk by exact Hle.
    rewrite find_char_append in Hk by (apply has_char_str_drop; exact Hw).
    rewrite length_str_drop in Hk.
    destruct (find_char ";" tail) as [i|]; cbn in Hk; [|discriminate].
    injection Hk as <-.
    assert (String.length w = S (String.length token)) by reflexivity.
    lia. }
  exists (j + k - (String.length pre + String.length w))%nat. left.
  rewrite <- append_assoc.
  rewrite str_take_append_ge by (rewrite length_append; exact Hlen).
  rewrite length_append, append_assoc. reflexivity.
Qed.

Lemma splitnetloc_rider_live rest :
  urllib._splitnetloc ("//rider.live/" +:+ rest) 2
  = ("rider.live"%string, "/" +:+ rest).
Proof.
  unfold urllib._splitnetloc. cbn [fold_left]. unfold find_char_from.
  change (str_drop 2 ("//rider.live/" +:+ rest))
    with ("rider.live" +:+ String "/" rest).
  rewrite !find_char_append by reflexivity.
  change (find_char "/" (String "/" rest)) with (Some 0%nat).
  destruct (find_char "#" (String "/" rest)) as [a|];
    destruct (find_char "?" (String "/" rest)) as [b|];
    cbn [fmap option_fmap option_map];
    match goal with
    | |- context [str_take ?d _] =>
        replace d with 12%nat by (cbn [String.length String.append]; lia)
    end;
    reflexivity.
Qed.

Lemma segment_text_chars s c :
  all_chars segment_char s = true ->
  Ascii.eqb c "/" || Ascii.eqb c "?" || Ascii.eqb c "#" = true ->
  has_char c s = false.
Proof.
  intros Hs Hc. apply (all_chars_has_char _ _ _ Hs).
  unfold segment_char. apply negb_false_iff.
  rewrite Hc. reflexivity.
Qed.

(** The path prefix [/<lang>/a/<token>] of a share link holds no
    character [c] that neither segment holds. *)
Lemma link_prefix_free c lang token :
  has_char c "/a/" = false ->
  has_char c lang = false ->
  has_char c token = false ->
  has_char c ("/" +:+ lang +:+ "/a/" +:+ token) = false.
Proof.
  intros Hsep Hlang Htoken.
  rewrite !has_char_append, Hlang, Htoken, Hsep.
  cbn -[Ascii.eqb] in *.
  apply orb_false_elim in Hsep as [-> _]. reflexivity.
Qed.

(** ** Texts without [/a/] *)





Section ShareLinks.
Context `{Builtins}.

(** A share link on the base domain parses to a path that starts with
    [/<lang>/a/<token>] and goes on, if at all, with a new segment. *)
Lemma urlparse_share_link lang token rest :
  all_chars segment_char lang = true ->
  all_chars token_char token = true ->
  link_rest rest = true ->
  exists parsed tail,
    urllib.urlparse ("https://rider.live/" +:+ lang +:+ "/a/" +:+ token +:+ rest)
    = Ret parsed
    /\ urllib.path parsed = "/" +:+ lang +:+ "/a/" +:+ token +:+ tail
    /\ opens_segment tail = true.
Proof.
  intros Hlang Htoken Hrest.
  assert (Htoken' : all_chars segment_char token = true)
    by (eapply all_chars_weaken; [apply token_char_segment_char | exact Htoken]).
  assert (Hsemi : has_char ";" token = false).
  { apply (all_chars_has_char _ _ _ Htoken). reflexivity. }
  unfold urllib.urlparse, urllib.urlsplit.
  change (urllib.lstrip_c0 ("https://rider.live/" +:+ lang +:+ "/a/" +:+ token +:+ rest))
    with ("https://rider.live/" +:+ lang +:+ "/a/" +:+ token +:+ rest).
  rewrite !remove_unsafe_append.
  rewrite (remove_unsafe_segment _ Hlang), (remove_unsafe_segment _ Htoken').
  change (urllib.remove_unsafe "https://rider.live/") with "https://rider.live/"%string.
  change (urllib.remove_unsafe "/a/") with "/a/"%string.
  set (rest' := urllib.remove_unsafe rest).
  assert (Hrest' : link_rest rest' = true) by (apply link_rest_remove_unsafe, Hrest).
set (after := lang +:+ "/a/" +:+ token +:+ rest').
  change (urllib.split_scheme ("https://rider.live/" +:+ after))
    with ("https"%string, "//rider.live/" +:+ after).
  cbv iota beta.
  change (startswith ("//rider.live/" +:+ after) "//") with true. cbv iota.
  rewrite splitnetloc_rider_live.
  change (urllib.check_netloc "rider.live") with (Ret tt).
  rewrite bind_Ret. cbv beta.
  set (prefix := "/" +:+ lang +:+ "/a/" +:+ token).
  assert (Hsplit : "/" +:+ after = prefix +:+ rest').
  { unfold prefix, after. cbn [String.append]. rewrite !append_assoc.
    reflexivity. }
  rewrite Hsplit.
  assert (Hfree : forall c,
            Ascii.eqb c "?" || Ascii.eqb c "#" = true -> has_char c prefix = false).
  { intros c Hc. apply link_prefix_free.
    - apply orb_prop in Hc as [Hc | Hc]; apply Ascii.eqb_eq in Hc; subst c;
        reflexivity.
    - apply (segment_text_chars _ _ Hlang).
      apply orb_prop in Hc as [-> | ->]; rewrite ?orb_true_r; reflexivity.
    - apply (segment_text_chars _ _ Htoken').
      apply orb_prop in Hc as [-> | ->]; rewrite ?orb_true_r; reflexivity. }
  rewrite (split_once_append "#" prefix rest') by (apply Hfree; reflexivity).
  rewrite (split_once_append "?" prefix) by (apply Hfree; reflexivity).
  set (tail := fst (split_once "?" (fst (split_once "#" rest')))).
  assert (Htail : opens_segment tail = true) by (apply path_tail_of_rest, Hrest').
  rewrite bind_Ret. cbv beta iota.
  change (existsb (String.eqb "https") urllib.uses_params) with true.
  cbn [andb].
assert (Hshape : forall t,
            ("/" +:+ lang +:+ "/a") +:+ "/" +:+ token +:+ t
            = "/" +:+ lang +:+ "/a/" +:+ token +:+ t).
  { intros t. cbn [String.append]. rewrite !append_assoc. reflexivity. }
  assert (Hprefix : prefix +:+ tail
                    = ("/" +:+ lang +:+ "/a") +:+ "/" +:+ token +:+ tail).
  { rewrite Hshape. unfold prefix. cbn [String.append].
    rewrite !append_assoc. reflexivity. }
  destruct (has_char ";" (prefix +:+ tail)).
  - destruct (splitparams_keeps_token ("/" +:+ lang +:+ "/a") token tail Hsemi)
      as [k Hk].
    rewrite Hprefix.
    destruct (urllib._splitparams
                (("/" +:+ lang +:+ "/a") +:+ "/" +:+ token +:+ tail))
      as [url params].
    cbn [fst] in Hk. rewrite !Hshape in Hk.
    destruct Hk as [-> | ->].
    + eexists _, (str_take k tail).
      split; [reflexivity|]. split; [reflexivity|].
      apply opens_segment_take, Htail.
    + eexists _, tail. split; [reflexivity|]. split; [reflexivity | exact Htail].
  - eexists _, tail. split; [reflexivity|].
    split; [|exact Htail].
    cbn [urllib.path]. rewrite Hprefix. apply Hshape.
Qed.

(** The interval goes first: out of the range of [timedelta] nothing
    else is looked at. *)
Lemma timedelta_minutes_fits n :
  timedelta_fits n -> timedelta_minutes n = Ret n.
Proof.
  unfold timedelta_fits, timedelta_minutes. intros Hn.
  assert (Hdays : - 999999999 <= n / 1440 <= 999999999).
  { split.
    - apply Z.div_le_lower_bound; lia.
    - pose proof (Z.div_lt_upper_bound n 1440 1000000000
                    ltac:(lia) ltac:(lia)).
      lia. }
  destruct (Z.leb_spec (- 999999999) (n / 1440)); [|lia].
  destruct (Z.leb_spec (n / 1440) 999999999); [|lia].
  reflexivity.
Qed.

Lemma timedelta_minutes_overflow n :
  ~ timedelta_fits n -> timedelta_minutes n = Raise OverflowError.
Proof.
  unfold timedelta_fits, timedelta_minutes. intros Hn.
  destruct (Z.leb_spec (- 999999999) (n / 1440)) as [Hlow|]; [|reflexivity].
  destruct (Z.leb_spec (n / 1440) 999999999) as [Hhigh|]; [|reflexivity].
  exfalso. apply Hn.
  pose proof (Z.mul_div_le n 1440 ltac:(lia)).
  pose proof (Z.mul_succ_div_gt n 1440 ltac:(lia)).
  lia.
Qed.

Lemma timedelta_minutes_returns n m :
  timedelta_minutes n = Ret m -> timedelta_fits n /\ m = n.
Proof.
  intros Hn.
  destruct (Z_le_dec (- 1439999998560) n) as [Hlow|Hlow];
    [destruct (Z_lt_dec n 1440000000000) as [Hhigh|Hhigh]|].
  - rewrite timedelta_minutes_fits in Hn by (split; assumption).
    injection Hn as <-. split; [split; assumption | reflexivity].
  - rewrite timedelta_minutes_overflow in Hn
      by (unfold timedelta_fits; lia).
    discriminate.
  - rewrite timedelta_minutes_overflow in Hn
      by (unfold timedelta_fits; lia).
    discriminate.
Qed.

(** What [__init__] does, with an interval in range, once the leading
    [@] is gone: it succeeds exactly when the pattern matches the parsed
    path, whatever the domain. *)
Lemma init_by_path config_entry :
  timedelta_fits (scan_interval_of config_entry) ->
  let url := entry_share_url config_entry in
  let clean := if startswith url "@" then str_drop 1 url else url in
  LibertyRiderCoordinator.__init__ config_entry =
    match urllib.urlparse clean with
    | Raise e => Raise e
    | Ret parsed =>
        match re_search_a (urllib.path parsed) with
        | None => Raise (ValueError "Invalid share URL format")
        | Some token =>
            Ret {| LibertyRiderCoordinator.share_url := clean;
                   LibertyRiderCoordinator.share_id := token;
                   LibertyRiderCoordinator.update_interval :=
                     default const.DEFAULT_SCAN_INTERVAL
                       (entry_scan_interval config_entry);
                   LibertyRiderCoordinator.data := PNone;
                   LibertyRiderCoordinator.last_update_success := true |}
        end
    end.
Proof.
  intros Hfits. unfold LibertyRiderCoordinator.__init__.
  fold (scan_interval_of config_entry).
  rewrite (timedelta_minutes_fits _ Hfits), bind_Ret. cbv beta.
  destruct (urllib.urlparse _) as [parsed | e]; reflexivity.
Qed.


Lemma init_returns_fits config_entry coordinator :
  LibertyRiderCoordinator.__init__ config_entry = Ret coordinator ->
  timedelta_fits (scan_interval_of config_entry).
Proof.
  unfold LibertyRiderCoordinator.__init__.
  fold (scan_interval_of config_entry).
  destruct (timedelta_minutes (scan_interval_of config_entry)) as [m|]
    eqn:Hinterval; [|discriminate].
  intros _. apply (timedelta_minutes_returns _ _ Hinterval).
Qed.



(** C5 (as amended). For every share link
    [[@]https://rider.live/<lang>/a/<TOKEN><rest>] in which [<lang>] is one
    path segment other than [a], [TOKEN] is a non-empty segment without a
    semicolon (neither holds [/], [?], [#], tab, CR or LF), and [<rest>] is
    empty or starts further path segments, a query or a fragment,
    constructing the coordinator with an interval that [timedelta] takes
    succeeds with exactly [TOKEN] as share id; one leading [@] is
    stripped, and the query, the fragment and the trailing segments play
    no part. *)
Theorem share_id_is_token config_entry at_sign lang token rest :
  entry_share_url config_entry
  = at_sign +:+ "https://rider.live/" +:+ lang +:+ "/a/" +:+ token +:+ rest ->
  at_sign = EmptyString \/ at_sign = "@"%string ->
  all_chars segment_char lang = true ->
  lang <> "a"%string ->
  all_chars token_char token = true ->
  token <> EmptyString ->
  link_rest rest = true ->
  timedelta_fits (scan_interval_of config_entry) ->
  exists coordinator,
    LibertyRiderCoordinator.__init__ config_entry = Ret coordinator
    /\ LibertyRiderCoordinator.share_id coordinator = token
    /\ LibertyRiderCoordinator.share_url coordinator
       = "https://rider.live/" +:+ lang +:+ "/a/" +:+ token +:+ rest.
Proof.
  intros Hurl Hat Hlang Hna Htoken Hne Hrest Hfits.
  pose proof (init_by_path config_entry Hfits) as Hinit. cbv zeta in Hinit.
  rewrite Hurl in Hinit.
  assert (Hclean :
    (if startswith
          (at_sign +:+ "https://rider.live/" +:+ lang +:+ "/a/" +:+ token +:+ rest)
          "@"
     then str_drop 1
            (at_sign +:+ "https://rider.live/" +:+ lang +:+ "/a/" +:+ token +:+ rest)
     else at_sign +:+ "https://rider.live/" +:+ lang +:+ "/a/" +:+ token +:+ rest)
    = "https://rider.live/" +:+ lang +:+ "/a/" +:+ token +:+ rest)
    by (destruct Hat; subst at_sign; reflexivity).
  rewrite Hclean in Hinit.
  destruct (urlparse_share_link lang token rest Hlang Htoken Hrest)
    as (parsed & tail & Hparse & Hpath & Htail).
  rewrite Hparse, Hpath in Hinit.
  rewrite re_search_a_token in Hinit; try assumption.
  - eexists. split; [exact Hinit|]. split; reflexivity.
  - apply (segment_text_chars _ _ Hlang). reflexivity.
  - apply (all_chars_has_char _ _ _ Htoken). reflexivity.
Qed.


End ShareLinks.

(** ** Exceptions across the reader interface *)

Lemma may_raise_Ret {A} (P : exn -> Prop) (a : A) : may_raise P (Ret a).
Proof. intros e. discriminate. Qed.

Lemma may_raise_bind {A B} (P : exn -> Prop) (c : res A) (k : A -> res B) :
  may_raise P c ->
  (forall a, c = Ret a -> may_raise P (k a)) ->
  may_raise P (c ≫= k).
Proof.
  intros Hc Hk e. destruct c as [a | e']; cbn.
  - apply (Hk a eq_refl).
  - intros [= <-]. apply Hc. reflexivity.
Qed.

Lemma may_raise_fmap {A B} (P : exn -> Prop) (f : A -> B) (c : res A) :
  may_raise P c -> may_raise P (f <$> c).
Proof.
  intros Hc e. destruct c as [a | e']; cbn; [discriminate|].
  intros [= <-]. apply Hc. reflexivity.
Qed.

Lemma dict_get_raises v k dflt : may_raise coordinate_error (dict_get v k dflt).
Proof. intros e. destruct v; cbn; intros [= <-]; left; reflexivity. Qed.

Lemma getitem_raises v k : may_raise coordinate_error (getitem v k).
Proof.
  intros e. destruct v; cbn; try (intros [= <-]; left; reflexivity).
  destruct (_ !! _); intros [= <-]. left. reflexivity.
Qed.

Lemma str_last_cons c s : exists x, str_last (String c s) = Some x.
Proof.
  revert c. induction s as [|c' s IH]; intros c; cbn; [eauto | apply IH].
Qed.

(** [pauses[-1]] sits under [if pauses:], so the sequence is not empty and
    no [IndexError] arises. *)
Lemma getitem_last_raises v :
  truthy v = true -> may_raise coordinate_error (getitem_last v).
Proof.
  intros Hv e. destruct v as [| | | | s | l | |]; cbn;
    try (intros [= <-]; left; reflexivity).
  - destruct s as [|c s]; [discriminate|].
    destruct (str_last_cons c s) as [x ->]. discriminate.
  - destruct (last l) eqn:Hlast; [discriminate|].
    apply last_None in Hlast. subst l. discriminate.
Qed.

Section ReaderExceptions.
Context `{Builtins}.

Lemma py_float_raises v : may_raise coordinate_error (py_float v).
Proof.
  intros e. destruct v; cbn; try (intros [= <-]; left; reflexivity).
  - unfold float_of_Z. destruct (is_infinity _); [|discriminate].
    intros [= <-]. right. reflexivity.
  - destruct (float_of_text s); [discriminate|].
    intros [= <-]. left. reflexivity.
Qed.

Lemma read_coordinate_raises location axis :
  may_raise coordinate_error
    (if truthy location then
       present ← dict_get location axis PNone;
       if truthy present then
         raw ← getitem location axis;
         Some <$> (PFloat <$> py_float raw)
       else Ret None
     else Ret None).
Proof.
  destruct (truthy location); [|apply may_raise_Ret].
  apply may_raise_bind; [apply dict_get_raises|]. intros present _.
  destruct (truthy present); [|apply may_raise_Ret].
  apply may_raise_bind; [apply getitem_raises|]. intros raw _.
  apply may_raise_fmap, may_raise_fmap, py_float_raises.
Qed.

Lemma coordinate_body_raises axis data :
  may_raise coordinate_error (LibertyRiderGPSTracker.coordinate_body axis data).
Proof.
  unfold LibertyRiderGPSTracker.coordinate_body.
  apply may_raise_bind; [apply dict_get_raises|]. intros state _.
  unfold LibertyRiderGPSTracker.or_continue.
  apply may_raise_bind.
  { destruct (py_eq_str state "RIDE_ACTIVE"); [|apply may_raise_Ret].
    apply may_raise_bind; [apply dict_get_raises|]. intros location _.
    apply read_coordinate_raises. }
  intros [v|] _; [apply may_raise_Ret|].
  apply may_raise_bind.
  { destruct (py_eq_str state "RIDE_PAUSED" || py_eq_str state "RIDE_STOPPED");
      [|apply may_raise_Ret].
    apply may_raise_bind; [apply dict_get_raises|]. intros pauses _.
    destruct (truthy pauses) eqn:Hpauses; [|apply may_raise_Ret].
    apply may_raise_bind; [apply getitem_last_raises, Hpauses|].
    intros last_pause _.
    apply may_raise_bind; [apply dict_get_raises|]. intros location _.
    apply read_coordinate_raises. }
  intros [v|] _; apply may_raise_Ret.
Qed.

(** Of everything the block can raise, only [OverflowError] gets past the
    handler of [latitude] and [longitude]. *)
Lemma coordinate_escape axis self e :
  LibertyRiderGPSTracker.coordinate axis self = Raise e -> e = OverflowError.
Proof.
  unfold LibertyRiderGPSTracker.coordinate.
  destruct (truthy _); cbn [negb]; [|discriminate].
  unfold try_except.
  destruct (LibertyRiderGPSTracker.coordinate_body axis _) as [v | e'] eqn:Hbody;
    [discriminate|].
  destruct (coordinate_body_raises _ _ _ Hbody) as [Hlisted | ->].
  - rewrite Hlisted. discriminate.
  - cbn. intros [= <-]. reflexivity.
Qed.

(** The sensors swallow every exception. *)
Lemma state_returns self : exists v, LibertyRiderSensor.state self = Ret v.
Proof.
  unfold LibertyRiderSensor.state.
  destruct (truthy _); cbn [negb]; [|eauto].
  rewrite try_except_any.
  destruct (LibertyRiderSensor.state_body self); eauto.
Qed.

End ReaderExceptions.

(** So does the attribute dictionary of the tracker. *)
Lemma extra_state_attributes_returns self :
  exists attrs, LibertyRiderGPSTracker.extra_state_attributes self = Ret attrs.
Proof.
  unfold LibertyRiderGPSTracker.extra_state_attributes.
  destruct (truthy _); cbn [negb]; [|eauto].
  rewrite try_except_any.
  destruct (LibertyRiderGPSTracker.attributes_body _); eauto.
Qed.

(** * Worked examples *)

(** ** Evaluations that hold whatever the three built-ins answer *)

Section AnyBuiltins.
Context `{Builtins}.

Lemma half_location_any_builtins :
  LibertyRiderGPSTracker.latitude (tracker_with (PDict riding_on_meridian))
  = Ret (PFloat 48.1)
  /\ LibertyRiderGPSTracker.longitude (tracker_with (PDict riding_on_meridian))
     = Ret PNone.
Proof. split; vm_compute; reflexivity. Qed.

Lemma half_pause_any_builtins :
  LibertyRiderGPSTracker.latitude (tracker_with (PDict stopped_half_located))
  = Ret (PFloat 2)
  /\ LibertyRiderGPSTracker.longitude (tracker_with (PDict stopped_half_located))
     = Ret PNone.
Proof. split; vm_compute; reflexivity. Qed.


Lemma semicolon_token_any_builtins :
  LibertyRiderCoordinator.share_id
    <$> LibertyRiderCoordinator.__init__
          (entry_for "https://rider.live/fr/a/ab;cd")
  = Ret "ab"%string.
Proof. vm_compute. reflexivity. Qed.

Lemma flat_battery_any_builtins :
  LibertyRiderSensor.state
    (sensor_with "battery" (PDict (measured_snapshot (PFloat 0))))
  = Ret (PFloat 0)
  /\ (fun attrs : gmap string pyval => attrs !! "battery_level")
       <$> LibertyRiderGPSTracker.extra_state_attributes
             (tracker_with (PDict (measured_snapshot (PFloat 0))))
     = Ret None
  /\ (fun attrs : gmap string pyval => attrs !! "distance_km")
       <$> LibertyRiderGPSTracker.extra_state_attributes
             (tracker_with (PDict (measured_snapshot (PFloat 0))))
     = Ret (Some (PFloat 12.35)).
Proof. repeat split; vm_compute; reflexivity. Qed.

Lemma overflow_any_builtins :
  LibertyRiderGPSTracker.latitude (tracker_with (PDict overflowing_snapshot))
  = Raise OverflowError.
Proof. vm_compute. reflexivity. Qed.

End AnyBuiltins.

(** ** The poll cycle *)

(** C1, at a concrete poll: status 500 after a successful poll.  The
    cached snapshot stays and availability turns false. *)
Lemma poll_failure_witness :
  LibertyRiderCoordinator.data
    (LibertyRiderCoordinator.refresh
       (coordinator_with (PDict riding_snapshot))
       (Responded 500 (Ret "Internal Server Error")
          (Raise (LibraryError "ContentTypeError"))))
  = PDict riding_snapshot
  /\ LibertyRiderCoordinator.last_update_success
       (LibertyRiderCoordinator.refresh
          (coordinator_with (PDict riding_snapshot))
          (Responded 500 (Ret "Internal Server Error")
             (Raise (LibraryError "ContentTypeError"))))
     = false.
Proof.
  destruct (poll_failure_is_reported
              (coordinator_with (PDict riding_snapshot))
              (Responded 500 (Ret "Internal Server Error")
                 (Raise (LibraryError "ContentTypeError"))))
    as (_ & _ & Hdata & _ & Hflag).
  - apply failure_status. lia.
  - split; [exact Hdata | exact Hflag].
Defined.

(** ** The tracker's coordinates *)

(** C2, as stated, fails: with [state = RIDE_ACTIVE], a truthy latitude
    and a longitude of [0], the statement promises no location at all, but
    [latitude] still returns 48.1 while [longitude] returns [None]. *)
Lemma active_location_counterexample :
  @LibertyRiderGPSTracker.latitude plain_builtins
    (tracker_with (PDict riding_on_meridian))
  = Ret (PFloat 48.1)
  /\ @LibertyRiderGPSTracker.longitude plain_builtins
       (tracker_with (PDict riding_on_meridian))
     = Ret PNone.
Proof. apply half_location_any_builtins. Qed.

(** C2 as amended, at the spec's example: both coordinates truthy, the
    pair (48.1, 2.3) is reported. *)
Lemma active_location_witness :
  @LibertyRiderGPSTracker.latitude plain_builtins
    (tracker_with (PDict riding_snapshot))
  = Ret (PFloat 48.1)
  /\ @LibertyRiderGPSTracker.longitude plain_builtins
       (tracker_with (PDict riding_snapshot))
     = Ret (PFloat 2.3).
Proof.
  destruct (@active_location_per_coordinate plain_builtins
              (tracker_with (PDict riding_snapshot)) riding_snapshot
              (list_to_map [("latitude"%string, PFloat 48.1);
                            ("longitude"%string, PFloat 2.3)]))
    as [Hlat Hlon]; try reflexivity.
  split.
  - refine (reports_value _ _ _ (PFloat 48.1) 48.1%float _ _ _ Hlat); reflexivity.
  - refine (reports_value _ _ _ (PFloat 2.3) 2.3%float _ _ _ Hlon); reflexivity.
Defined.

(** C3, as stated, fails: with [state = RIDE_STOPPED] and a last pause
    whose [lastLocation] has a latitude but no longitude, the statement
    promises no location, but [latitude] returns 2 while [longitude]
    returns [None]. *)
Lemma paused_location_counterexample :
  @LibertyRiderGPSTracker.latitude plain_builtins
    (tracker_with (PDict stopped_half_located))
  = Ret (PFloat 2)
  /\ @LibertyRiderGPSTracker.longitude plain_builtins
       (tracker_with (PDict stopped_half_located))
     = Ret PNone.
Proof. apply half_pause_any_builtins. Qed.

(** C3 as amended, at the spec's example: the location is (2, 2), read
    from the last pause and not from the first; and at a last pause whose
    [lastLocation] is [null]: no location, the first pause is not read. *)
Lemma paused_location_witness :
  (@LibertyRiderGPSTracker.latitude plain_builtins
     (tracker_with (PDict stopped_snapshot))
   = Ret (PFloat 2)
   /\ @LibertyRiderGPSTracker.longitude plain_builtins
        (tracker_with (PDict stopped_snapshot))
      = Ret (PFloat 2))
  /\ (@LibertyRiderGPSTracker.latitude plain_builtins
        (tracker_with (PDict stopped_unlocated))
      = Ret PNone
      /\ @LibertyRiderGPSTracker.longitude plain_builtins
           (tracker_with (PDict stopped_unlocated))
         = Ret PNone).
Proof.
  split.
  - destruct (@paused_location_from_last_pause plain_builtins
                (tracker_with (PDict stopped_snapshot)) stopped_snapshot
                [ PDict {[ "lastLocation"%string :=
                             location [("latitude"%string, PInt 1);
                                       ("longitude"%string, PInt 1)] ]} ]
                (PDict {[ "lastLocation"%string :=
                            location [("latitude"%string, PInt 2);
                                      ("longitude"%string, PInt 2)] ]})
                "RIDE_STOPPED")
      as [Hlat Hlon]; try reflexivity.
    + right. reflexivity.
    + split.
      * refine (reports_value _ _ _ (PInt 2) 2%float _ _ _ Hlat); reflexivity.
      * refine (reports_value _ _ _ (PInt 2) 2%float _ _ _ Hlon); reflexivity.
  - refine (@paused_location_from_last_pause plain_builtins
              (tracker_with (PDict stopped_unlocated)) stopped_unlocated
              [ PDict {[ "lastLocation"%string :=
                           location [("latitude"%string, PInt 1);
                                     ("longitude"%string, PInt 1)] ]} ]
              (PDict {[ "lastLocation"%string := PNone ]})
              "RIDE_STOPPED" _ _ _ _); try reflexivity.
    right. reflexivity.
Defined.

(** ** Share links *)



(** C5, as stated, fails: the token [ab;cd] holds no slash, yet the share
    id extracted from [https://rider.live/fr/a/ab;cd] is [ab]. *)
Lemma semicolon_token_counterexample :
  LibertyRiderCoordinator.share_id
    <$> @LibertyRiderCoordinator.__init__ plain_builtins
          (entry_for "https://rider.live/fr/a/ab;cd")
  = Ret "ab"%string.
Proof. apply semicolon_token_any_builtins. Qed.

(** C5 as amended, at a link with a leading [@], a trailing segment and
    a tracking parameter. *)
Lemma share_id_witness :
  exists coordinator,
    @LibertyRiderCoordinator.__init__ plain_builtins
      (entry_for "@https://rider.live/fr/a/TOKEN123/map?utm_source=share")
    = Ret coordinator
    /\ LibertyRiderCoordinator.share_id coordinator = "TOKEN123"%string
    /\ LibertyRiderCoordinator.share_url coordinator
       = "https://rider.live/fr/a/TOKEN123/map?utm_source=share"%string.
Proof.
  apply (@share_id_is_token plain_builtins
           (entry_for "@https://rider.live/fr/a/TOKEN123/map?utm_source=share")
           "@" "fr" "TOKEN123" "/map?utm_source=share");
    try reflexivity.
  - right. reflexivity.
  - discriminate.
  - discriminate.
  - red. cbn. lia.
Defined.

(** ** Unit conversions *)

(** C6, as stated, fails at a battery level of 0: the sensor reports 0,
    but the tracker's attributes (here with [distance_km]) hold no
    [battery_level] at all, where the statement says [round(0 * 100, 1)]. *)
Lemma flat_battery_counterexample :
  @LibertyRiderSensor.state plain_builtins
    (sensor_with "battery" (PDict (measured_snapshot (PFloat 0))))
  = Ret (PFloat 0)
  /\ (fun attrs : gmap string pyval => attrs !! "battery_level")
       <$> LibertyRiderGPSTracker.extra_state_attributes
             (tracker_with (PDict (measured_snapshot (PFloat 0))))
     = Ret None
  /\ (fun attrs : gmap string pyval => attrs !! "distance_km")
       <$> LibertyRiderGPSTracker.extra_state_attributes
             (tracker_with (PDict (measured_snapshot (PFloat 0))))
     = Ret (Some (PFloat 12.35)).
Proof. apply flat_battery_any_builtins. Qed.

(** C6 as amended, at a battery level of 0.85: the sensor reports 0.85
    under the percent unit, the tracker's attribute is 85.0; and at a
    level of 0: the sensor reports 0, the tracker has no such attribute. *)
Lemma battery_reader_witness :
  (@LibertyRiderSensor.state plain_builtins
     (sensor_with "battery" (PDict (measured_snapshot (PFloat 0.85))))
   = Ret (PFloat 0.85)
   /\ native_unit_of_measurement (registered "battery") = Some "%"%string
   /\ exists attrs,
        LibertyRiderGPSTracker.extra_state_attributes
          (tracker_with (PDict (measured_snapshot (PFloat 0.85))))
        = Ret attrs
        /\ attrs !! "battery_level" = Some (PFloat 85))
  /\ (@LibertyRiderSensor.state plain_builtins
        (sensor_with "battery" (PDict (measured_snapshot (PFloat 0))))
      = Ret (PFloat 0)
      /\ native_unit_of_measurement (registered "battery") = Some "%"%string
      /\ exists attrs,
           LibertyRiderGPSTracker.extra_state_attributes
             (tracker_with (PDict (measured_snapshot (PFloat 0))))
           = Ret attrs
           /\ attrs !! "battery_level" = None).
Proof.
  split.
  - refine (@battery_reader_conventions plain_builtins
              (sensor_with "battery" (PDict (measured_snapshot (PFloat 0.85))))
              (tracker_with (PDict (measured_snapshot (PFloat 0.85))))
              (measured_snapshot (PFloat 0.85)) (PFloat 0.85) 0.85%float
              (PFloat 85) _ _ _ _ _ _ _ _ _);
      try reflexivity.
    + right. left. reflexivity.
    + intros _. eexists. vm_compute. reflexivity.
    + intros _. eexists. vm_compute. reflexivity.
  - refine (@battery_reader_conventions plain_builtins
              (sensor_with "battery" (PDict (measured_snapshot (PFloat 0))))
              (tracker_with (PDict (measured_snapshot (PFloat 0))))
              (measured_snapshot (PFloat 0)) (PFloat 0) 0%float
              PNone _ _ _ _ _ _ _ _ _);
      try reflexivity.
    + right. left. reflexivity.
    + intros Htruthy. discriminate Htruthy.
    + intros _. eexists. vm_compute. reflexivity.
    + intros _. eexists. vm_compute. reflexivity.
Defined.


(** C8, as stated, fails at a duration of [60 * 2 ^ 48 + 59] seconds:
    the quotient by 60 rounds to the float [2 ^ 48 + 1], so the sensor
    reports one minute more than the whole minutes rounded down. *)
Lemma duration_rounding_counterexample :
  @LibertyRiderSensor.state plain_builtins
    (sensor_with "duration" (PDict (timed_snapshot (PInt 16888498602639419))))
  = Ret (PInt 281474976710657)
  /\ 16888498602639419 / 60 = 281474976710656.
Proof. split; vm_compute; reflexivity. Qed.

(** C8 as amended, at the spec's example: 125 seconds are 2 minutes
    (125 / 60 is 2.083..., rounded down); a pause of 59 seconds is
    0 minutes; and a duration of 125.5 seconds, a float, is 2 minutes. *)
Lemma duration_witness :
  (@LibertyRiderSensor.state plain_builtins
     (sensor_with "duration" (PDict (measured_snapshot (PFloat 0.85))))
   = Ret (PInt 2)
   /\ native_unit_of_measurement (registered "duration") = Some "min"%string)
  /\ (@LibertyRiderSensor.state plain_builtins
        (sensor_with "pause_duration" (PDict (measured_snapshot (PFloat 0.85))))
      = Ret (PInt 0)
      /\ native_unit_of_measurement (registered "pause_duration")
         = Some "min"%string)
  /\ @LibertyRiderSensor.state plain_builtins
       (sensor_with "duration" (PDict (timed_snapshot (PFloat 125.5))))
     = Ret (PInt 2).
Proof.
  split; [|split].
  - destruct (@duration_state_is_floor_minutes plain_builtins
                (sensor_with "duration"
                   (PDict (measured_snapshot (PFloat 0.85))))
                (measured_snapshot (PFloat 0.85)) "duration" "duration")
      as (Hint & _ & Hunit).
    + left. split; reflexivity.
    + right. right. right. left. reflexivity.
    + reflexivity.
    + split; [|exact Hunit].
      apply (Hint 125); [reflexivity|]. split; [lia | reflexivity].
  - destruct (@duration_state_is_floor_minutes plain_builtins
                (sensor_with "pause_duration"
                   (PDict (measured_snapshot (PFloat 0.85))))
                (measured_snapshot (PFloat 0.85))
                "pause_duration" "pauseDuration")
      as (Hint & _ & Hunit).
    + right. split; reflexivity.
    + right. right. right. right. left. reflexivity.
    + reflexivity.
    + split; [|exact Hunit].
      apply (Hint 59); [reflexivity|]. split; [lia | reflexivity].
  - destruct (@duration_state_is_floor_minutes plain_builtins
                (sensor_with "duration" (PDict (timed_snapshot (PFloat 125.5))))
                (timed_snapshot (PFloat 125.5)) "duration" "duration")
      as (_ & Hfloat & _).
    + left. split; reflexivity.
    + right. right. right. left. reflexivity.
    + reflexivity.
    + apply (Hfloat 125.5%float 2); [reflexivity | reflexivity | lia].
Defined.

(** ** Exceptions that cross the reader interface *)

(** C10 fails on the code: with a latitude of [10 ^ 400] in the current
    location, [float] raises [OverflowError], which the handler of
    [latitude] does not list, so the exception reaches the caller. *)
Theorem latitude_overflow_escapes :
  @LibertyRiderGPSTracker.latitude plain_builtins
    (tracker_with (PDict overflowing_snapshot))
  = Raise OverflowError.
Proof. apply overflow_any_builtins. Qed.


(** * Further properties of the code *)

(** ** Outcome of a poll *)

(** X1. [_async_update_data] returns a snapshot exactly on the success
    path: status 200, a JSON object without a top-level [errors] key, and
    a truthy value under [data.ride], which is the snapshot returned. *)
Theorem poll_returns_exactly self net snapshot :
  LibertyRiderCoordinator._async_update_data self net = Ret snapshot
  <-> exists text top,
        net = Responded 200 text (Ret (PDict top))
        /\ top !! "errors" = None
        /\ ride_of (PDict top) = Some snapshot
        /\ truthy snapshot = true.
Proof.
  split; [apply update_success_inv|].
  intros (text & top & -> & Herrors & Hride & Htruthy).
  unfold ride_of in Hride.
  destruct (top !! "data") as [inner|] eqn:Hdata; [|discriminate].
  destruct inner as [| | | | | | inner |]; try discriminate.
  unfold LibertyRiderCoordinator._async_update_data.
  rewrite try_except_any. cbn [Z.eqb Pos.eqb negb].
  rewrite bind_Ret. cbv beta.
  unfold py_contains. rewrite Herrors.
  rewrite bool_decide_eq_false_2 by (intros [? ?]; discriminate).
  rewrite bind_Ret. cbv beta iota.
  step_get Hdata. step_get Hride. rewrite Htruthy. cbn [negb].
  cbn [getitem]. rewrite Hdata, bind_Ret. cbv beta.
  cbn [getitem]. rewrite Hride. reflexivity.
Qed.

Lemma refresh_keeps_identity self net :
  LibertyRiderCoordinator.share_id (LibertyRiderCoordinator.refresh self net)
  = LibertyRiderCoordinator.share_id self
  /\ LibertyRiderCoordinator.share_url (LibertyRiderCoordinator.refresh self net)
     = LibertyRiderCoordinator.share_url self
  /\ LibertyRiderCoordinator.update_interval
       (LibertyRiderCoordinator.refresh self net)
     = LibertyRiderCoordinator.update_interval self.
Proof.
  unfold LibertyRiderCoordinator.refresh.
  destruct (LibertyRiderCoordinator._async_update_data self net); auto.
Qed.

Lemma refresh_data self net :
  LibertyRiderCoordinator.data (LibertyRiderCoordinator.refresh self net)
  = default (LibertyRiderCoordinator.data self) (polled self net)
  /\ LibertyRiderCoordinator.last_update_success
       (LibertyRiderCoordinator.refresh self net)
     = bool_decide (is_Some (polled self net)).
Proof.
  unfold LibertyRiderCoordinator.refresh, polled.
  destruct (LibertyRiderCoordinator._async_update_data self net).
  - split; [reflexivity|]. symmetry. apply bool_decide_eq_true_2. eauto.
  - split; [reflexivity|]. symmetry. apply bool_decide_eq_false_2.
    intros [? ?]. discriminate.
Qed.

(** X2. After any sequence of polls the coordinator holds the snapshot of
    the last poll that returned one (its initial data when none did), is
    available exactly when the last poll returned, and has the share id,
    the share URL and the interval it started with. *)
Theorem poll_sequence_outcome self nets :
  LibertyRiderCoordinator.data (poll_all self nets)
  = default (LibertyRiderCoordinator.data self) (last_snapshot self nets)
  /\ LibertyRiderCoordinator.last_update_success (poll_all self nets)
     = match last nets with
       | Some net => bool_decide (is_Some (polled self net))
       | None => LibertyRiderCoordinator.last_update_success self
       end
  /\ LibertyRiderCoordinator.share_id (poll_all self nets)
     = LibertyRiderCoordinator.share_id self
  /\ LibertyRiderCoordinator.share_url (poll_all self nets)
     = LibertyRiderCoordinator.share_url self
  /\ LibertyRiderCoordinator.update_interval (poll_all self nets)
     = LibertyRiderCoordinator.update_interval self.
Proof.
  unfold poll_all, last_snapshot.
  induction nets as [|net nets IH] using rev_ind.
  - cbn. auto.
  - rewrite fold_left_app. cbn [fold_left].
    destruct IH as (Hdata & _ & Hid & Hurl & Hint).
    destruct (refresh_keeps_identity (fold_left LibertyRiderCoordinator.refresh nets self) net)
      as (Hid' & Hurl' & Hint').
    destruct (refresh_data (fold_left LibertyRiderCoordinator.refresh nets self) net)
      as (Hdata' & Hflag').
    rewrite Hid', Hurl', Hint', Hdata', Hflag', Hdata, last_snoc.
    change (polled (fold_left LibertyRiderCoordinator.refresh nets self) net)
      with (polled self net).  (* a poll does not read the coordinator's data *)
    repeat split; try assumption.
    rewrite omap_app.
    change (omap (polled self) [net])
      with (match polled self net with Some y => [y] | None => [] end).
    generalize (polled self net). intros [snapshot|].
    + rewrite last_snoc. reflexivity.
    + rewrite app_nil_r. reflexivity.
Qed.


(** ** States of the sensors *)

Lemma replace_char_append c by_ a b :
  replace_char c by_ (a +:+ b) = replace_char c by_ a +:+ replace_char c by_ b.
Proof.
  induction a as [|x a IH]; cbn -[Ascii.eqb]; [reflexivity|].
  rewrite IH. destruct (Ascii.eqb x c); cbn; [|reflexivity].
  rewrite append_assoc. reflexivity.
Qed.

Lemma replace_char_absent c by_ s :
  has_char c s = false -> replace_char c by_ s = s.
Proof.
  induction s as [|x s IH]; cbn -[Ascii.eqb]; [reflexivity|].
  intros [Hx Hs]%orb_false_elim. rewrite Hx, (IH Hs). reflexivity.
Qed.

Lemma sensor_type_keys k description :
  In (k, description) SENSOR_TYPES ->
  k = "status"%string \/ k = "battery"%string \/ k = "distance"%string
  \/ k = "duration"%string \/ k = "pause_duration"%string
  \/ k = "start_time"%string.
Proof.
  unfold SENSOR_TYPES. cbn [In].
  intros Hin.
  repeat (destruct Hin as [[= <- _] | Hin]; [auto 10|]).
  destruct Hin.
Qed.

Section SensorEdges.
Context `{Builtins}.

(** X3. A sensor whose field is missing from the snapshot, or is [null]
    there, has the state [None], whichever of the six registered sensors
    it is. *)
Theorem state_none_without_field self (snap : gmap string pyval) k :
  In (k, LibertyRiderSensor.entity_description self) SENSOR_TYPES ->
  LibertyRiderCoordinator.data (LibertyRiderSensor.coordinator self)
    = PDict snap ->
  snap !! sensor_field k = None \/ snap !! sensor_field k = Some PNone ->
  LibertyRiderSensor.state self = Ret PNone.
Proof.
  intros Hin Hdata Hfield.
  assert (Hdefault : default PNone (snap !! sensor_field k) = PNone)
    by (destruct Hfield as [-> | ->]; reflexivity).
  unfold LibertyRiderSensor.state. rewrite Hdata.
  destruct (truthy (PDict snap)); cbn [negb]; [|reflexivity].
  rewrite try_except_any. unfold LibertyRiderSensor.state_body.
  rewrite (sensor_type_key _ _ Hin), Hdata.
  destruct (sensor_type_keys _ _ Hin) as [-> | [-> | [-> | [-> | [-> | ->]]]]];
    cbv [sensor_field String.eqb Ascii.eqb Bool.eqb] in Hdefault;
    cbn [String.eqb Ascii.eqb Bool.eqb];
    rewrite dict_get_lookup, Hdefault; reflexivity.
Qed.

(** X4. The start-time sensor replaces every [Z] of the timestamp by
    [+00:00] before parsing: a timestamp [t] followed by [Z] and the same
    [t] followed by [+00:00] give the same state, namely the datetime of
    [t+00:00] when the parser accepts it and [None] otherwise. *)
Theorem start_time_utc_suffix self (snap : gmap string pyval) t text :
  In ("start_time"%string, LibertyRiderSensor.entity_description self)
    SENSOR_TYPES ->
  LibertyRiderCoordinator.data (LibertyRiderSensor.coordinator self)
    = PDict snap ->
  snap !! "startTime" = Some (PStr text) ->
  has_char "Z" t = false ->
  text = t +:+ "Z" \/ text = t +:+ "+00:00" ->
  LibertyRiderSensor.state self =
    if fromisoformat_accepts (t +:+ "+00:00")
    then Ret (PDatetime (t +:+ "+00:00"))
    else Ret PNone.
Proof.
  intros Hin Hdata Hstart Ht Htext.
  rewrite (state_over_snapshot _ _ _ _ Hdata Hstart).
  unfold LibertyRiderSensor.state_body.
  rewrite (sensor_type_key _ _ Hin), Hdata.
  cbn [String.eqb Ascii.eqb Bool.eqb].
  step_get Hstart. cbn [is_none py_replace]. rewrite bind_Ret. cbv beta.
  assert (Hreplaced : replace_char "Z" "+00:00" text = t +:+ "+00:00").
  { destruct Htext as [-> | ->]; rewrite replace_char_append,
      (replace_char_absent _ _ _ Ht); reflexivity. }
  rewrite Hreplaced. unfold fromisoformat.
  destruct (fromisoformat_accepts (t +:+ "+00:00")); reflexivity.
Qed.

End SensorEdges.


(** ** Attributes of the tracker *)

(** X5. The attributes of the tracker are all or nothing: a dictionary
    that is not empty holds [ride_status], [distance_km],
    [duration_minutes] and [battery_level] exactly for the truthy ones
    among the fields [state], [distance], [duration] and
    [currentBatteryLevel] of the snapshot, and no other key. *)
Theorem attributes_follow_truthiness self (snap : gmap string pyval) attrs :
  LibertyRiderCoordinator.data (LibertyRiderGPSTracker.coordinator self)
    = PDict snap ->
  LibertyRiderGPSTracker.extra_state_attributes self = Ret attrs ->
  attrs <> ∅ ->
  (is_Some (attrs !! "ride_status")
   <-> truthy (default PNone (snap !! "state")) = true)
  /\ (is_Some (attrs !! "distance_km")
      <-> truthy (default PNone (snap !! "distance")) = true)
  /\ (is_Some (attrs !! "duration_minutes")
      <-> truthy (default PNone (snap !! "duration")) = true)
  /\ (is_Some (attrs !! "battery_level")
      <-> truthy (default PNone (snap !! "currentBatteryLevel")) = true)
  /\ forall k, is_Some (attrs !! k) ->
       In k ["ride_status"; "distance_km"; "duration_minutes";
             "battery_level"]%string.
Proof.
  intros Hdata Hattrs Hne.
  destruct (extra_state_attributes_cases _ _ _ Hdata Hattrs) as [-> | Hbody];
    [contradiction|].
  destruct (attributes_body_inv _ _ Hbody) as (_ & Hs & Hd & Hm & Hb).
  destruct (attributes_lookup _ _ Hbody) as (-> & -> & -> & -> & Hkeys).
  repeat split; try (apply attempt_is_Some; assumption);
    try (apply attempt_is_Some; assumption).
  exact Hkeys.
Qed.

(** X6. One malformed field empties the whole attribute dictionary: when
    [distance], [duration] or [currentBatteryLevel] holds a truthy value
    that is not a number, the tracker has no attribute at all, whatever
    the other fields hold. *)
Theorem malformed_field_empties_attributes self (snap : gmap string pyval) k v :
  LibertyRiderCoordinator.data (LibertyRiderGPSTracker.coordinator self)
    = PDict snap ->
  In k ["distance"; "duration"; "currentBatteryLevel"]%string ->
  snap !! k = Some v ->
  truthy v = true ->
  is_number v = false ->
  LibertyRiderGPSTracker.extra_state_attributes self = Ret ∅.
Proof.
  intros Hdata Hk Hfield Htruthy Hkind.
  destruct (extra_state_attributes_returns self) as [attrs Hattrs].
  rewrite Hattrs. f_equal.
  destruct (extra_state_attributes_cases _ _ _ Hdata Hattrs) as [-> | Hbody];
    [reflexivity|].
  exfalso.
  destruct (attributes_body_inv _ _ Hbody) as (_ & _ & Hd & Hm & Hb).
  unfold completes, distance_km_of, duration_minutes_of, battery_level_of
    in Hd, Hm, Hb.
  cbn [In] in Hk.
  destruct Hk as [<- | [<- | [<- | []]]]; rewrite Hfield in *;
    cbn [default from_option id] in *.
  - destruct (Hd Htruthy) as [r Hr].
    destruct v; try discriminate Hkind; discriminate Hr.
  - destruct (Hm Htruthy) as [r Hr].
    destruct v; try discriminate Hkind; discriminate Hr.
  - destruct (Hb Htruthy) as [r Hr].
    destruct v; try discriminate Hkind; discriminate Hr.
Qed.

(** ** The three readers of the ride status *)

Lemma truthy_string s : s <> EmptyString -> truthy (PStr s) = true.
Proof.
  intros Hne. cbn [truthy].
  destruct (String.eqb_spec s EmptyString); [contradiction | reflexivity].
Qed.

Section StatusReaders.
Context `{Builtins}.

(** X7. Over a snapshot whose [state] is a non-empty string, the status
    sensor, the state of the tracker and the [ride_status] attribute of a
    non-empty attribute dictionary all carry the same text: the prefix
    [entity.sensor.status.state.] followed by the state in lower case. *)
Theorem status_readers_agree sensor tracker (snap : gmap string pyval) s :
  In ("status"%string, LibertyRiderSensor.entity_description sensor)
    SENSOR_TYPES ->
  LibertyRiderCoordinator.data (LibertyRiderSensor.coordinator sensor)
    = PDict snap ->
  LibertyRiderCoordinator.data (LibertyRiderGPSTracker.coordinator tracker)
    = PDict snap ->
  snap !! "state" = Some (PStr s) ->
  s <> EmptyString ->
  LibertyRiderSensor.state sensor
  = Ret (PStr ("entity.sensor.status.state." +:+ lower s))
  /\ TrackerEntity.state tracker
     = Ret ("entity.sensor.status.state." +:+ lower s)
  /\ forall attrs,
       LibertyRiderGPSTracker.extra_state_attributes tracker = Ret attrs ->
       attrs <> ∅ ->
       attrs !! "ride_status"
       = Some (PStr ("entity.sensor.status.state." +:+ lower s)).
Proof.
  intros Hin Hsensor Htracker Hstate Hne.
  pose proof (truthy_string s Hne) as Htruthy.
  split; [|split].
  - rewrite (state_over_snapshot _ _ _ _ Hsensor Hstate).
    unfold LibertyRiderSensor.state_body.
    rewrite (sensor_type_key _ _ Hin), Hsensor.
    cbn [String.eqb Ascii.eqb Bool.eqb].
    step_get Hstate. reflexivity.
  - unfold TrackerEntity.state.
    rewrite Htracker, (truthy_dict_lookup _ _ _ Hstate). cbn [negb].
    step_get Hstate. rewrite Htruthy. reflexivity.
  - intros attrs Hattrs Hnonempty.
    destruct (extra_state_attributes_cases _ _ _ Htracker Hattrs)
      as [-> | Hbody]; [contradiction|].
    destruct (attributes_lookup _ _ Hbody) as (-> & _).
    unfold attempt, ride_status_of. rewrite Hstate.
    cbn [default from_option id]. rewrite Htruthy. reflexivity.
Qed.

(** X8. An empty [state] string separates the readers: the status sensor
    answers the bare prefix, the tracker answers [not_home], and the
    attributes have no [ride_status]. *)
Theorem empty_state_separates_readers sensor tracker (snap : gmap string pyval) :
  In ("status"%string, LibertyRiderSensor.entity_description sensor)
    SENSOR_TYPES ->
  LibertyRiderCoordinator.data (LibertyRiderSensor.coordinator sensor)
    = PDict snap ->
  LibertyRiderCoordinator.data (LibertyRiderGPSTracker.coordinator tracker)
    = PDict snap ->
  snap !! "state" = Some (PStr EmptyString) ->
  LibertyRiderSensor.state sensor = Ret (PStr "entity.sensor.status.state.")
  /\ TrackerEntity.state tracker = Ret STATE_NOT_HOME
  /\ forall attrs,
       LibertyRiderGPSTracker.extra_state_attributes tracker = Ret attrs ->
       attrs !! "ride_status" = None.
Proof.
  intros Hin Hsensor Htracker Hstate.
  split; [|split].
  - rewrite (state_over_snapshot _ _ _ _ Hsensor Hstate).
    unfold LibertyRiderSensor.state_body.
    rewrite (sensor_type_key _ _ Hin), Hsensor.
    cbn [String.eqb Ascii.eqb Bool.eqb].
    step_get Hstate. reflexivity.
  - unfold TrackerEntity.state.
    rewrite Htracker, (truthy_dict_lookup _ _ _ Hstate). cbn [negb].
    step_get Hstate. reflexivity.
  - intros attrs Hattrs.
    destruct (extra_state_attributes_cases _ _ _ Htracker Hattrs)
      as [-> | Hbody]; [apply lookup_empty|].
    destruct (attributes_lookup _ _ Hbody) as (-> & _).
    unfold attempt. rewrite Hstate. reflexivity.
Qed.

(** X9. A truthy [state] that is not a string is absorbed by the status
    sensor and by the attributes, which answer [None] and the empty
    dictionary, but not by the state of the tracker, which has no [try]
    block and raises [AttributeError]. *)
Theorem non_string_state_escapes_tracker sensor tracker
    (snap : gmap string pyval) v :
  In ("status"%string, LibertyRiderSensor.entity_description sensor)
    SENSOR_TYPES ->
  LibertyRiderCoordinator.data (LibertyRiderSensor.coordinator sensor)
    = PDict snap ->
  LibertyRiderCoordinator.data (LibertyRiderGPSTracker.coordinator tracker)
    = PDict snap ->
  snap !! "state" = Some v ->
  truthy v = true ->
  is_string v = false ->
  LibertyRiderSensor.state sensor = Ret PNone
  /\ LibertyRiderGPSTracker.extra_state_attributes tracker = Ret ∅
  /\ TrackerEntity.state tracker = Raise AttributeError.
Proof.
  intros Hin Hsensor Htracker Hstate Htruthy Hkind.
  split; [|split].
  - rewrite (state_over_snapshot _ _ _ _ Hsensor Hstate).
    unfold LibertyRiderSensor.state_body.
    rewrite (sensor_type_key _ _ Hin), Hsensor.
    cbn [String.eqb Ascii.eqb Bool.eqb].
    step_get Hstate.
    destruct v; try discriminate Hkind; try discriminate Htruthy; reflexivity.
  - destruct (extra_state_attributes_returns tracker) as [attrs Hattrs].
    rewrite Hattrs. f_equal.
    destruct (extra_state_attributes_cases _ _ _ Htracker Hattrs)
      as [-> | Hbody]; [reflexivity|].
    exfalso.
    destruct (attributes_body_inv _ _ Hbody) as (_ & Hs & _).
    unfold completes, ride_status_of in Hs. rewrite Hstate in Hs.
    cbn [default from_option id] in Hs.
    destruct (Hs Htruthy) as [r Hr].
    destruct v; try discriminate Hkind; discriminate Hr.
  - unfold TrackerEntity.state.
    rewrite Htracker, (truthy_dict_lookup _ _ _ Hstate). cbn [negb].
    step_get Hstate. rewrite Htruthy.
    destruct v; try discriminate Hkind; reflexivity.
Qed.

End StatusReaders.


(** ** Setting up the platform *)

Lemma first_refresh_cases self net :
  platform.async_config_entry_first_refresh self net =
    match LibertyRiderCoordinator._async_update_data self net with
    | Ret _ => Ret (LibertyRiderCoordinator.refresh self net)
    | Raise _ => Raise ConfigEntryNotReady
    end.
Proof.
  unfold platform.async_config_entry_first_refresh,
    LibertyRiderCoordinator.refresh.
  destruct (LibertyRiderCoordinator._async_update_data self net); reflexivity.
Qed.

Lemma refresh_success self net snapshot :
  LibertyRiderCoordinator._async_update_data self net = Ret snapshot ->
  LibertyRiderCoordinator.data (LibertyRiderCoordinator.refresh self net)
  = snapshot
  /\ LibertyRiderCoordinator.last_update_success
       (LibertyRiderCoordinator.refresh self net) = true.
Proof.
  intros Hpoll. unfold LibertyRiderCoordinator.refresh. rewrite Hpoll.
  split; reflexivity.
Qed.

Section PlatformSetup.
Context `{Builtins} `{Formatting}.

Lemma sensor_init coordinator description :
  SensorEntity.__init__ coordinator description =
    match user_firstname (LibertyRiderCoordinator.data coordinator) with
    | Ret firstname =>
        Ret (sensor_named coordinator description (format_value firstname))
    | Raise e => Raise e
    end.
Proof.
  unfold SensorEntity.__init__.
  destruct (user_firstname _); reflexivity.
Qed.

Lemma tracker_init coordinator :
  TrackerEntity.__init__ coordinator =
    match user_firstname (LibertyRiderCoordinator.data coordinator) with
    | Ret firstname => Ret (tracker_named coordinator (format_value firstname))
    | Raise e => Raise e
    end.
Proof.
  unfold TrackerEntity.__init__.
  destruct (user_firstname _); reflexivity.
Qed.

(** The three stages of the setup: the constructor, the first poll, and
    the first name that every entity reads from the polled snapshot. *)
Lemma platform_setup_cases config_entry net :
  platform.async_setup_entry config_entry net =
    match LibertyRiderCoordinator.__init__ config_entry with
    | Raise _ => Raise ConfigEntryNotReady
    | Ret created =>
        match LibertyRiderCoordinator._async_update_data created net with
        | Raise _ => Raise ConfigEntryNotReady
        | Ret snapshot =>
            let coordinator := LibertyRiderCoordinator.refresh created net in
            match user_firstname snapshot with
            | Raise e => Raise e
            | Ret firstname =>
                Ret ((ASensor <$>
                        map (fun kd =>
                               sensor_named coordinator (snd kd)
                                 (format_value firstname))
                          SENSOR_TYPES)
                     ++ [ATracker
                           (tracker_named coordinator (format_value firstname))])
            end
        end
    end.
Proof.
  unfold platform.async_setup_entry. rewrite try_except_any.
  destruct (LibertyRiderCoordinator.__init__ config_entry) as [created|];
    [|reflexivity].
  rewrite bind_Ret, first_refresh_cases.
  destruct (LibertyRiderCoordinator._async_update_data created net)
    as [snapshot|] eqn:Hpoll; [|reflexivity].
  rewrite bind_Ret. cbv zeta.
  destruct (refresh_success _ _ _ Hpoll) as [Hdata _].
  unfold SENSOR_TYPES. cbn [map_res snd].
  rewrite !sensor_init, tracker_init, Hdata.
  destruct (user_firstname snapshot); reflexivity.
Qed.

(** The constructors fail only on the first name: over data that is
    not a dictionary, or whose [user] is truthy without being one. *)
Lemma user_firstname_raises data e :
  user_firstname data = Raise e ->
  e = AttributeError
  /\ truthy data = true
  /\ (is_dict data = false
      \/ exists (snap : gmap string pyval) v,
           data = PDict snap /\ snap !! "user" = Some v
           /\ truthy v = true /\ is_dict v = false).
Proof.
  unfold user_firstname.
  destruct (truthy data) eqn:Htruthy; [|discriminate].
  destruct data as [| | | | | | snap |];
    try (intros [= <-]; repeat split; auto; fail).
  rewrite dict_get_lookup, bind_Ret. cbv beta.
  destruct (snap !! "user") as [v|] eqn:Huser; cbn [default from_option id];
    [|discriminate].
  destruct (truthy v) eqn:Hv; [|discriminate].
  cbn [getitem]. rewrite Huser, bind_Ret. cbv beta.
  destruct v; try discriminate.
  all: intros [= <-]; repeat split; auto; right; eauto 10.
Qed.

(** X10. When the setup of the platform returns, the constructor and the
    first poll have both succeeded, and the list handed over holds seven
    entities: the six sensors in the order of [SENSOR_TYPES], then the
    tracker.  All of them share one coordinator, which holds the polled
    snapshot, is available and has kept the share id. *)
Theorem setup_builds_seven_entities config_entry net entities :
  platform.async_setup_entry config_entry net = Ret entities ->
  exists created snapshot,
    LibertyRiderCoordinator.__init__ config_entry = Ret created
    /\ LibertyRiderCoordinator._async_update_data created net = Ret snapshot
    /\ map entity_key entities
       = map (fun kd => Some (fst kd)) SENSOR_TYPES ++ [None]
    /\ Forall (fun e => entity_coordinator e
                        = LibertyRiderCoordinator.refresh created net)
         entities
    /\ LibertyRiderCoordinator.data (LibertyRiderCoordinator.refresh created net)
       = snapshot
    /\ LibertyRiderCoordinator.last_update_success
         (LibertyRiderCoordinator.refresh created net) = true
    /\ LibertyRiderCoordinator.share_id
         (LibertyRiderCoordinator.refresh created net)
       = LibertyRiderCoordinator.share_id created.
Proof.
  rewrite platform_setup_cases.
  destruct (LibertyRiderCoordinator.__init__ config_entry) as [created|];
    [|discriminate].
  destruct (LibertyRiderCoordinator._async_update_data created net)
    as [snapshot|] eqn:Hpoll; [|discriminate].
  cbv zeta.
  destruct (user_firstname snapshot) as [firstname|]; [|discriminate].
  intros [= <-].
  destruct (refresh_success _ _ _ Hpoll) as [Hdata Hflag].
  destruct (refresh_keeps_identity created net) as (Hid & _).
  exists created, snapshot.
  repeat split; try assumption; try reflexivity.
  repeat constructor.
Qed.

(** X11. The unique ids of the entities of one setup are pairwise
    distinct, whatever the first name is. *)
Theorem setup_unique_ids_distinct config_entry net entities :
  platform.async_setup_entry config_entry net = Ret entities ->
  NoDup (map entity_unique_id entities).
Proof.
  rewrite platform_setup_cases.
  destruct (LibertyRiderCoordinator.__init__ config_entry) as [created|];
    [|discriminate].
  destruct (LibertyRiderCoordinator._async_update_data created net)
    as [snapshot|]; [|discriminate].
  cbv zeta.
  destruct (user_firstname snapshot) as [firstname|]; [|discriminate].
  intros [= <-].
  generalize (format_value firstname). intros text.
  cbn [SENSOR_TYPES map fmap list_fmap app snd entity_unique_id sensor_named
       tracker_named SensorEntity._attr_unique_id
       TrackerEntity._attr_unique_id key].
  repeat (constructor 2;
    [intros Hin; apply list_elem_of_In in Hin; cbn [In] in Hin;
     repeat (destruct Hin as [Heq | Hin];
       [first
          [ discriminate Heq
          | apply (f_equal String.length) in Heq;
            cbn [String.append String.length] in Heq;
            rewrite ?length_append in Heq;
            cbn [String.length] in Heq; lia ]
       |]);
     exact Hin
    |]).
  constructor 1.
Qed.

(** X12. The setup of the platform raises in two ways only.  It raises
    [ConfigEntryNotReady] exactly when the constructor or the first poll
    fails.  Otherwise it raises the [AttributeError] of an entity
    constructor, outside of any [try] block: the polled snapshot is not a
    dictionary, or its [user] is truthy without being one. *)
Theorem setup_failures config_entry net e :
  platform.async_setup_entry config_entry net = Raise e ->
  (e = ConfigEntryNotReady
   /\ forall created snapshot,
        LibertyRiderCoordinator.__init__ config_entry = Ret created ->
        LibertyRiderCoordinator._async_update_data created net
        <> Ret snapshot)
  \/ (e = AttributeError
      /\ exists created snapshot,
           LibertyRiderCoordinator.__init__ config_entry = Ret created
           /\ LibertyRiderCoordinator._async_update_data created net
              = Ret snapshot
           /\ (is_dict snapshot = false
               \/ exists (snap : gmap string pyval) v,
                    snapshot = PDict snap /\ snap !! "user" = Some v
                    /\ truthy v = true /\ is_dict v = false)).
Proof.
  rewrite platform_setup_cases.
  destruct (LibertyRiderCoordinator.__init__ config_entry) as [created|].
  - destruct (LibertyRiderCoordinator._async_update_data created net)
      as [snapshot|] eqn:Hpoll.
    + cbv zeta.
      destruct (user_firstname snapshot) as [firstname|] eqn:Hname;
        [discriminate|].
      intros [= <-]. right.
      destruct (user_firstname_raises _ _ Hname) as (-> & _ & Hshape).
      split; [reflexivity|]. exists created, snapshot. auto.
    + intros [= <-]. left. split; [reflexivity|].
      intros created' snapshot' [= <-]. rewrite Hpoll. discriminate.
  - intros [= <-]. left. split; [reflexivity|].
    intros created snapshot Hinit. discriminate Hinit.
Qed.

End PlatformSetup.

(** ** Device of the entities *)

Section Devices.
Context `{Formatting}.

(** Where the constructors find a first name, [device_info] finds the
    same one, and where they fall back on the empty name there is no
    device. *)
Lemma device_info_of_firstname coordinator firstname :
  user_firstname (LibertyRiderCoordinator.data coordinator) = Ret firstname ->
  device_info coordinator = Ret None /\ firstname = PStr EmptyString
  \/ device_info coordinator
     = Ret (Some {| identifiers :=
                      [(const.DOMAIN,
                        LibertyRiderCoordinator.share_id coordinator)];
                    device_name :=
                      "Liberty Rider - " +:+ format_value firstname;
                    manufacturer := "Liberty Rider";
                    model := "Liberty Rider" |}).
Proof.
  unfold user_firstname, device_info.
  destruct (truthy (LibertyRiderCoordinator.data coordinator));
    cbn [negb]; [|intros [= <-]; left; split; reflexivity].
  destruct (dict_get (LibertyRiderCoordinator.data coordinator) "user" PNone)
    as [present|]; [|discriminate].
  rewrite !bind_Ret. cbv beta.
  destruct (truthy present); cbn [negb];
    [|intros [= <-]; left; split; reflexivity].
  destruct (getitem (LibertyRiderCoordinator.data coordinator) "user")
    as [user|]; [|discriminate].
  rewrite !bind_Ret. cbv beta.
  intros ->. right. reflexivity.
Qed.

(** X13. The sensors and the tracker built over one coordinator belong
    to one device, and reading it does not raise: either there is no
    device and the ids end with an empty first name, or the device is
    identified by the share id and named after the very first name that
    ends the unique id of the sensor and sits inside that of the
    tracker. *)
Theorem built_entities_share_device coordinator description sensor tracker :
  SensorEntity.__init__ coordinator description = Ret sensor ->
  TrackerEntity.__init__ coordinator = Ret tracker ->
  exists firstname info,
    SensorEntity._attr_unique_id sensor
    = "liberty_rider_" +:+ key description +:+ "_" +:+ firstname
    /\ TrackerEntity._attr_unique_id tracker
       = "liberty_rider_" +:+ firstname +:+ "_gps"
    /\ SensorEntity.device_info sensor = Ret info
    /\ TrackerEntity.device_info tracker = Ret info
    /\ match info with
       | None => firstname = EmptyString
       | Some device =>
           identifiers device
           = [(const.DOMAIN, LibertyRiderCoordinator.share_id coordinator)]
           /\ device_name device = "Liberty Rider - " +:+ firstname
       end.
Proof.
  unfold SensorEntity.__init__, TrackerEntity.__init__,
    SensorEntity.device_info, TrackerEntity.device_info.
  destruct (user_firstname (LibertyRiderCoordinator.data coordinator))
    as [firstname|] eqn:Hname; [|discriminate].
  rewrite !bind_Ret. intros [= <-] [= <-].
  cbn [SensorEntity.entity SensorEntity._attr_unique_id
       TrackerEntity.entity TrackerEntity._attr_unique_id
       LibertyRiderSensor.coordinator LibertyRiderGPSTracker.coordinator].
  exists (format_value firstname).
  destruct (device_info_of_firstname _ _ Hname) as [[-> ->] | ->];
    eexists; repeat split; reflexivity.
Qed.

End Devices.

(** ** The registry of configured entries *)

(** X14. Setting up an entry registers its data under its id, also when
    forwarding the setup to the platforms raises afterwards; the other
    entries of the integration and the other domains are left as they
    were, and the answer is [True] unless the forwarding raises. *)
Theorem setup_registers_entry hass_data entry forward :
  let after := fst (integration.async_setup_entry hass_data entry forward) in
  entry_data_of after (integration.entry_id entry)
  = Some (integration.data entry)
  /\ (forall id, id <> integration.entry_id entry ->
        entry_data_of after id = entry_data_of hass_data id)
  /\ (forall domain, domain <> const.DOMAIN ->
        after !! domain = hass_data !! domain)
  /\ snd (integration.async_setup_entry hass_data entry forward)
     = match forward with
       | Ret _ => Ret true
       | Raise e => Raise e
       end.
Proof.
  unfold integration.async_setup_entry, entry_data_of. cbn [fst snd].
  cbv zeta. split; [|split; [|split]].
  - rewrite lookup_insert_eq. cbn. apply lookup_insert_eq.
  - intros id Hid. rewrite lookup_insert_eq. cbn.
    rewrite lookup_insert_ne by congruence.
    destruct (hass_data !! const.DOMAIN) as [entries|] eqn:Hdomain.
    + rewrite Hdomain. reflexivity.
    + rewrite lookup_insert_eq. cbn. apply lookup_empty.
  - intros domain Hdomain. rewrite lookup_insert_ne by congruence.
    destruct (hass_data !! const.DOMAIN); [reflexivity|].
    apply lookup_insert_ne. congruence.
  - destruct forward; reflexivity.
Qed.

(** X15. Unloading what was just set up gives back the registry of
    before, entry by entry and domain by domain, when the entry was not
    registered yet; the key of the integration itself stays in
    [hass.data], with no entry under it if there was none. *)
Theorem unload_undoes_setup hass_data entry forward :
  entry_data_of hass_data (integration.entry_id entry) = None ->
  exists after,
    integration.async_unload_entry
      (fst (integration.async_setup_entry hass_data entry forward)) entry true
    = Ret (after, true)
    /\ (forall id, entry_data_of after id = entry_data_of hass_data id)
    /\ (forall domain, domain <> const.DOMAIN ->
          after !! domain = hass_data !! domain)
    /\ after !! const.DOMAIN
       = Some (default ∅ (hass_data !! const.DOMAIN)).
Proof.
  unfold integration.async_setup_entry, integration.async_unload_entry,
    entry_data_of. cbn [fst].
  intros Hfresh.
  rewrite lookup_insert_eq, lookup_insert_eq.
  eexists. split; [reflexivity|].
  assert (Hentries :
    delete (integration.entry_id entry)
      (<[integration.entry_id entry := integration.data entry]>
         (default ∅
            (match hass_data !! const.DOMAIN with
             | Some _ => hass_data
             | None => <[const.DOMAIN := ∅]> hass_data
             end !! const.DOMAIN)))
    = default ∅ (hass_data !! const.DOMAIN)).
  { destruct (hass_data !! const.DOMAIN) as [entries|] eqn:Hdomain.
    - rewrite Hdomain. cbn in Hfresh |- *.
      rewrite delete_insert_eq. apply delete_id, Hfresh.
    - rewrite lookup_insert_eq. cbn.
      rewrite delete_insert_eq. apply delete_empty. }
  rewrite Hentries. repeat split.
  - intros id. rewrite lookup_insert_eq. cbn.
    destruct (hass_data !! const.DOMAIN); [reflexivity|]. apply lookup_empty.
  - intros domain Hdomain. rewrite !lookup_insert_ne by congruence.
    destruct (hass_data !! const.DOMAIN); [reflexivity|].
    apply lookup_insert_ne. congruence.
  - apply lookup_insert_eq.
Qed.

(** X16. Unloading never touches the registry when the platforms refuse
    to unload.  When they agree, it raises [KeyError] exactly when the
    entry is not registered, and otherwise removes that entry and no
    other; a second unloading then raises [KeyError]. *)
Theorem unload_outcomes hass_data entry :
  integration.async_unload_entry hass_data entry false = Ret (hass_data, false)
  /\ (integration.async_unload_entry hass_data entry true = Raise KeyError
      <-> entry_data_of hass_data (integration.entry_id entry) = None)
  /\ forall after answer,
       integration.async_unload_entry hass_data entry true
       = Ret (after, answer) ->
       answer = true
       /\ entry_data_of after (integration.entry_id entry) = None
       /\ (forall id, id <> integration.entry_id entry ->
             entry_data_of after id = entry_data_of hass_data id)
       /\ (forall domain, domain <> const.DOMAIN ->
             after !! domain = hass_data !! domain)
       /\ integration.async_unload_entry after entry true = Raise KeyError.
Proof.
  unfold integration.async_unload_entry, entry_data_of.
  split; [reflexivity|].
  destruct (hass_data !! const.DOMAIN) as [entries|] eqn:Hdomain; cbn.
  - destruct (entries !! integration.entry_id entry) eqn:Hentry.
    + split; [split; discriminate|].
      intros after answer [= <- <-].
      rewrite lookup_insert_eq. cbn. rewrite lookup_delete_eq.
      repeat split.
      * intros id Hid. apply lookup_delete_ne. congruence.
      * intros domain Hne. apply lookup_insert_ne. congruence.
    + split; [split; reflexivity|]. discriminate.
  - split; [split; reflexivity|]. discriminate.
Qed.

(** ** What the tracker reads and lets through *)

Section TrackerReaders.
Context `{Builtins}.

(** X17. The tracker has neither latitude nor longitude in three cases:
    the state is none of [RIDE_ACTIVE], [RIDE_PAUSED] and [RIDE_STOPPED];
    the ride is active without a truthy [currentLocation], whatever the
    pauses hold, since there is no falling back on them; the ride is
    paused or stopped without a truthy [pauses] list, whatever
    [currentLocation] holds. *)
Theorem tracker_without_location self (snap : gmap string pyval) :
  LibertyRiderCoordinator.data (LibertyRiderGPSTracker.coordinator self)
    = PDict snap ->
  (py_eq_str (default PNone (snap !! "state")) "RIDE_ACTIVE" = false
   /\ py_eq_str (default PNone (snap !! "state")) "RIDE_PAUSED" = false
   /\ py_eq_str (default PNone (snap !! "state")) "RIDE_STOPPED" = false)
  \/ (snap !! "state" = Some (PStr "RIDE_ACTIVE")
      /\ truthy (default PNone (snap !! "currentLocation")) = false)
  \/ ((snap !! "state" = Some (PStr "RIDE_PAUSED")
       \/ snap !! "state" = Some (PStr "RIDE_STOPPED"))
      /\ truthy (default (PList []) (snap !! "pauses")) = false) ->
  LibertyRiderGPSTracker.latitude self = Ret PNone
  /\ LibertyRiderGPSTracker.longitude self = Ret PNone.
Proof.
  intros Hdata Hcases.
  assert (Haxis : forall axis,
            LibertyRiderGPSTracker.coordinate axis self = Ret PNone).
  { intros axis. unfold LibertyRiderGPSTracker.coordinate. rewrite Hdata.
    destruct (truthy (PDict snap)); cbn [negb]; [|reflexivity].
    unfold LibertyRiderGPSTracker.coordinate_body.
    rewrite !dict_get_lookup, bind_Ret. cbv beta.
    destruct Hcases as [(Ha & Hp & Hs) | [(Hstate & Hloc) | (Hstate & Hpauses)]].
    - rewrite Ha, Hp, Hs. reflexivity.
    - rewrite Hstate. cbn [default from_option id].
      change (py_eq_str (PStr "RIDE_ACTIVE") "RIDE_ACTIVE") with true.
      change (py_eq_str (PStr "RIDE_ACTIVE") "RIDE_PAUSED") with false.
      change (py_eq_str (PStr "RIDE_ACTIVE") "RIDE_STOPPED") with false.
      cbn iota. rewrite bind_Ret. cbv beta. rewrite Hloc. reflexivity.
    - destruct Hstate as [Hstate | Hstate]; rewrite Hstate;
        cbn [default from_option id].
      + change (py_eq_str (PStr "RIDE_PAUSED") "RIDE_ACTIVE") with false.
        change (py_eq_str (PStr "RIDE_PAUSED") "RIDE_PAUSED") with true.
        cbn [orb]. cbn iota. rewrite !bind_Ret. cbv beta. rewrite Hpauses.
        reflexivity.
      + change (py_eq_str (PStr "RIDE_STOPPED") "RIDE_ACTIVE") with false.
        change (py_eq_str (PStr "RIDE_STOPPED") "RIDE_PAUSED") with false.
        change (py_eq_str (PStr "RIDE_STOPPED") "RIDE_STOPPED") with true.
        cbn [orb]. cbn iota. rewrite !bind_Ret. cbv beta. rewrite Hpauses.
        reflexivity. }
  split; apply Haxis.
Qed.

(** X18. What the readers let through.  The state of a sensor and the
    attributes of the tracker always return.  The latitude and the
    longitude raise nothing but [OverflowError].  The state of the
    tracker raises nothing but [AttributeError]. *)
Theorem reader_exceptions :
  (forall sensor, exists v, LibertyRiderSensor.state sensor = Ret v)
  /\ (forall tracker,
        exists attrs,
          LibertyRiderGPSTracker.extra_state_attributes tracker = Ret attrs)
  /\ (forall tracker e,
        LibertyRiderGPSTracker.latitude tracker = Raise e
        \/ LibertyRiderGPSTracker.longitude tracker = Raise e ->
        e = OverflowError)
  /\ (forall tracker e,
        TrackerEntity.state tracker = Raise e -> e = AttributeError).
Proof.
  split; [|split; [|split]].
  - apply state_returns.
  - apply extra_state_attributes_returns.
  - intros tracker e [Hraise | Hraise]; exact (coordinate_escape _ _ _ Hraise).
  - intros tracker e. unfold TrackerEntity.state.
    destruct (truthy _); cbn [negb]; [|discriminate].
    destruct (LibertyRiderCoordinator.data _) as [| | | | | | snap |];
      try (intros [= <-]; reflexivity).
    rewrite dict_get_lookup, bind_Ret. cbv beta.
    destruct (truthy _); [|discriminate].
    destruct (default PNone (snap !! "state")); try discriminate;
      intros [= <-]; reflexivity.
Qed.

End TrackerReaders.

(** ** Shape of the share id *)

Lemma has_char_str_take c n s :
  has_char c s = false -> has_char c (str_take n s) = false.
Proof.
  revert n. induction s as [|x s IH]; intros [|n]; cbn -[Ascii.eqb]; auto.
  intros [Hx Hs]%orb_false_elim. rewrite Hx, (IH _ Hs). reflexivity.
Qed.

Lemma has_char_segment c s :
  has_char c s = false -> has_char c (segment s) = false.
Proof.
  induction s as [|x s IH]; cbn -[Ascii.eqb]; [reflexivity|].
  intros [Hx Hs]%orb_false_elim.
  destruct (Ascii.eqb x "/"); cbn -[Ascii.eqb]; [reflexivity|].
  rewrite Hx, (IH Hs). reflexivity.
Qed.

Lemma segment_no_slash s : has_char "/" (segment s) = false.
Proof.
  induction s as [|x s IH]; cbn -[Ascii.eqb]; [reflexivity|].
  destruct (Ascii.eqb x "/") eqn:Hx; cbn -[Ascii.eqb]; [reflexivity|].
  rewrite Hx, IH. reflexivity.
Qed.

(** A match of the pattern is a non-empty segment cut out of the text. *)
Lemma re_search_a_shape s token :
  re_search_a s = Some token ->
  token <> EmptyString /\ exists j, token = segment (str_drop j s).
Proof.
  revert token. induction s as [|x s IH]; intros token; [discriminate|].
  cbn [re_search_a].
  destruct (startswith (String x s) "/a/"
            && negb (String.eqb (segment (str_drop 3 (String x s))) EmptyString))
    eqn:Hhere.
  - apply andb_prop in Hhere as [_ Hne].
    apply negb_true_iff, String.eqb_neq in Hne.
    intros [= <-]. split; [exact Hne|]. exists 3%nat. reflexivity.
  - intros Hrest. destruct (IH _ Hrest) as [Hne [j ->]].
    split; [exact Hne|]. exists (S j). reflexivity.
Qed.

Lemma find_char_take c s i :
  find_char c s = Some i -> has_char c (str_take i s) = false.
Proof.
  revert i. induction s as [|x s IH]; intros i; cbn -[Ascii.eqb];
    [discriminate|].
  destruct (Ascii.eqb x c) eqn:Hx.
  - intros [= <-]. reflexivity.
  - destruct (find_char c s) as [k|]; cbn; [|discriminate].
    intros [= <-]. cbn -[Ascii.eqb]. rewrite Hx, (IH k eq_refl). reflexivity.
Qed.

Lemma find_char_none c s : find_char c s = None -> has_char c s = false.
Proof.
  induction s as [|x s IH]; cbn -[Ascii.eqb]; [reflexivity|].
  destruct (Ascii.eqb x c); [discriminate|].
  destruct (find_char c s); cbn; [discriminate|]. auto.
Qed.

Lemma split_once_fst_free c s : has_char c (fst (split_once c s)) = false.
Proof.
  unfold split_once.
  destruct (find_char c s) as [i|] eqn:Hfind; cbn [fst].
  - apply find_char_take, Hfind.
  - apply find_char_none, Hfind.
Qed.

Lemma split_once_fst_keeps d c s :
  has_char d s = false -> has_char d (fst (split_once c s)) = false.
Proof.
  intros Hs. unfold split_once.
  destruct (find_char c s); cbn [fst]; [apply has_char_str_take|]; exact Hs.
Qed.

Lemma splitparams_fst_keeps d s :
  has_char d s = false -> has_char d (fst (urllib._splitparams s)) = false.
Proof.
  intros Hs. unfold urllib._splitparams.
  destruct (match rfind_char "/" s with
            | Some j => find_char_from ";" j s
            | None => find_char ";" s
            end); cbn [fst]; [apply has_char_str_take|]; exact Hs.
Qed.

Lemma remove_unsafe_free c s :
  urllib.unsafe_byte c = true -> has_char c (urllib.remove_unsafe s) = false.
Proof.
  intros Hc. induction s as [|x s IH]; [reflexivity|].
  cbn -[Ascii.eqb urllib.unsafe_byte].
  destruct (urllib.unsafe_byte x) eqn:Hx; [exact IH|].
  cbn -[Ascii.eqb]. rewrite IH, orb_false_r.
  destruct (Ascii.eqb_spec x c) as [-> | _]; [congruence | reflexivity].
Qed.

Lemma split_scheme_keeps c url :
  has_char c url = false -> has_char c (snd (urllib.split_scheme url)) = false.
Proof.
  intros Hurl. unfold urllib.split_scheme.
  destruct (find_char ":" url) as [[|i]|]; try exact Hurl;
    destruct url as [|c0 rest]; try exact Hurl.
  destruct ((is_lower c0 || is_upper c0)
            && urllib.all_scheme_chars (str_take (S i) (String c0 rest)));
    cbn [snd]; [apply has_char_str_drop|]; exact Hurl.
Qed.

Section PathShape.
Context `{Builtins}.

(** The parsed path holds neither [?] nor [#], nor any character that
    the link is free of once tabs and line ends are gone. *)
Lemma urlparse_path_free url parsed :
  urllib.urlparse url = Ret parsed ->
  has_char "?" (urllib.path parsed) = false
  /\ has_char "#" (urllib.path parsed) = false
  /\ forall c,
       has_char c (urllib.remove_unsafe (urllib.lstrip_c0 url)) = false ->
       has_char c (urllib.path parsed) = false.
Proof.
  unfold urllib.urlparse, urllib.urlsplit.
  pose proof (fun c => split_scheme_keeps c
                (urllib.remove_unsafe (urllib.lstrip_c0 url))) as Hscheme.
  destruct (urllib.split_scheme (urllib.remove_unsafe (urllib.lstrip_c0 url)))
    as [scheme url1].
  cbn [snd] in Hscheme.
  assert (Hnetloc : forall c, has_char c url1 = false ->
            has_char c
              (snd (if startswith url1 "//" then urllib._splitnetloc url1 2
                    else (EmptyString, url1))) = false).
  { intros c Hc. destruct (startswith url1 "//"); [|exact Hc].
    unfold urllib._splitnetloc. cbn [snd]. apply has_char_str_drop, Hc. }
  destruct (if startswith url1 "//" then urllib._splitnetloc url1 2
            else (EmptyString, url1)) as [netloc url2].
  cbn [snd] in Hnetloc.
  destruct (urllib.check_netloc netloc); [|discriminate].
  rewrite bind_Ret.
  pose proof (split_once_fst_free "#" url2) as Hhash.
  pose proof (fun c => split_once_fst_keeps c "#" url2) as Hkeep2.
  destruct (split_once "#" url2) as [url3 fragment]. cbn [fst] in Hhash, Hkeep2.
  pose proof (split_once_fst_free "?" url3) as Hquery.
  pose proof (fun c => split_once_fst_keeps c "?" url3) as Hkeep3.
  destruct (split_once "?" url3) as [url4 query]. cbn [fst] in Hquery, Hkeep3.
  rewrite bind_Ret.
  assert (Hpath : forall c, has_char c url4 = false ->
            has_char c
              (fst (if existsb (String.eqb scheme) urllib.uses_params
                       && has_char ";" url4
                    then urllib._splitparams url4
                    else (url4, EmptyString))) = false).
  { intros c Hc.
    destruct (existsb (String.eqb scheme) urllib.uses_params
              && has_char ";" url4); [apply splitparams_fst_keeps|]; exact Hc. }
  destruct (if existsb (String.eqb scheme) urllib.uses_params
               && has_char ";" url4
            then urllib._splitparams url4
            else (url4, EmptyString)) as [url5 params].
  cbn [fst] in Hpath.
  intros [= <-]. cbn [urllib.path].
  split; [|split].
  - apply Hpath, Hquery.
  - apply Hpath, Hkeep3, Hhash.
  - intros c Hc. apply Hpath, Hkeep3, Hkeep2, Hnetloc, Hscheme, Hc.
Qed.

(** X19. A coordinator that has been constructed has a share id that can
    stand as one path segment of a request: it is not empty and holds no
    slash, question mark, hash sign, tab, carriage return or line feed.
    It starts without data, as available, with the configured interval
    or five minutes when none is configured. *)
Theorem constructed_share_id_is_segment config_entry coordinator :
  LibertyRiderCoordinator.__init__ config_entry = Ret coordinator ->
  LibertyRiderCoordinator.share_id coordinator <> EmptyString
  /\ (forall c, In c ["/"; "?"; "#"; "009"; "010"; "013"]%char ->
        has_char c (LibertyRiderCoordinator.share_id coordinator) = false)
  /\ LibertyRiderCoordinator.data coordinator = PNone
  /\ LibertyRiderCoordinator.last_update_success coordinator = true
  /\ LibertyRiderCoordinator.update_interval coordinator
     = default 5 (entry_scan_interval config_entry).
Proof.
  intros Hinit. generalize Hinit.
  rewrite (init_by_path _ (init_returns_fits _ _ Hinit)). cbv zeta.
  clear Hinit.
  set (clean := if startswith (entry_share_url config_entry) "@"
                then str_drop 1 (entry_share_url config_entry)
                else entry_share_url config_entry).
  destruct (urllib.urlparse clean) as [parsed|] eqn:Hparse; [|discriminate].
  destruct (re_search_a (urllib.path parsed)) as [token|] eqn:Hmatch;
    [|discriminate].
  intros [= <-].
  cbn [LibertyRiderCoordinator.share_id LibertyRiderCoordinator.data
       LibertyRiderCoordinator.last_update_success
       LibertyRiderCoordinator.update_interval].
  destruct (re_search_a_shape _ _ Hmatch) as [Hne [j ->]].
  destruct (urlparse_path_free _ _ Hparse) as (Hquery & Hhash & Hkeep).
  repeat split; try reflexivity; try exact Hne.
  intros c Hc. cbn [In] in Hc.
  destruct Hc as [<- | [<- | [<- | Hc]]].
  - apply segment_no_slash.
  - apply has_char_segment, has_char_str_drop, Hquery.
  - apply has_char_segment, has_char_str_drop, Hhash.
  - apply has_char_segment, has_char_str_drop, Hkeep, remove_unsafe_free.
    destruct Hc as [<- | [<- | [<- | []]]]; reflexivity.
Qed.

End PathShape.

(** ** Entries that the configuration step creates *)

Lemma base_url_not_at url :
  startswith url const.BASE_URL = true -> startswith url "@" = false.
Proof.
  destruct url as [|c rest]; [discriminate|].
  unfold const.BASE_URL. cbn -[Ascii.eqb].
  intros [Hc _]%andb_prop. apply Ascii.eqb_eq in Hc. subst c. reflexivity.
Qed.

Section CreatedEntries.
Context `{Builtins}.

(** X20. An entry is created under the title [Liberty Rider] with the
    three inputs unchanged, and only for a URL that starts with the base
    domain and on which the pattern matches.  Such a URL does not start
    with [@], so a coordinator constructed from a created entry keeps the
    URL as it was entered: the stripping of [@] never applies to it. *)
Theorem created_entry_keeps_input input title data :
  config_flow.async_step_user (Some input) = config_flow.CreateEntry title data ->
  title = "Liberty Rider"%string
  /\ data = input
  /\ startswith (entry_share_url input) const.BASE_URL = true
  /\ (exists token, re_search_a (entry_share_url input) = Some token)
  /\ forall coordinator,
       LibertyRiderCoordinator.__init__ data = Ret coordinator ->
       LibertyRiderCoordinator.share_url coordinator = entry_share_url input.
Proof.
  unfold config_flow.async_step_user.
  destruct (startswith (entry_share_url input) const.BASE_URL) eqn:Hbase;
    cbn [negb]; [|discriminate].
  destruct (re_search_a (entry_share_url input)) as [token|] eqn:Hmatch;
    [|discriminate].
  intros [= <- <-].
  split; [reflexivity|].
  split; [destruct input; reflexivity|].
  split; [reflexivity|].
  split; [eauto|].
  intros coordinator Hinit. generalize Hinit.
  rewrite (init_by_path _ (init_returns_fits _ _ Hinit)). cbv zeta.
  clear Hinit.
  cbn [entry_share_url]. rewrite (base_url_not_at _ Hbase).
  destruct (urllib.urlparse (entry_share_url input)); [|discriminate].
  destruct (re_search_a (urllib.path _)); [|discriminate].
  intros [= <-]. reflexivity.
Qed.

End CreatedEntries.

(** ** Links that pass one check and fail the other *)

Lemma append_empty_r s : s +:+ EmptyString = s.
Proof. induction s as [|x s IH]; cbn; [|rewrite IH]; reflexivity. Qed.

Lemma find_char_absent c s : has_char c s = false -> find_char c s = None.
Proof.
  induction s as [|x s IH]; cbn -[Ascii.eqb]; [reflexivity|].
  intros [Hx Hs]%orb_false_elim. rewrite Hx, (IH Hs). reflexivity.
Qed.

Lemma split_once_absent c s :
  has_char c s = false -> split_once c s = (s, EmptyString).
Proof.
  intros Hs. unfold split_once. rewrite (find_char_absent _ _ Hs). reflexivity.
Qed.

(** A match that lies further on in the text is not lost: the pattern
    matches the longer text too, there or before. *)
Lemma re_search_a_suffix a b token :
  re_search_a b = Some token -> exists found, re_search_a (a +:+ b) = Some found.
Proof.
  intros Hb. induction a as [|x a IH]; [eauto|].
  change (String x a +:+ b) with (String x (a +:+ b)).
  cbn [re_search_a].
  destruct (startswith (String x (a +:+ b)) "/a/"
            && negb (String.eqb (segment (str_drop 3 (String x (a +:+ b))))
                       EmptyString)); eauto.
Qed.

(** The pattern needs two slashes. *)
Lemma re_search_a_one_slash p :
  has_char "/" p = false -> re_search_a ("/" +:+ p) = None.
Proof.
  intros Hp.
  assert (Hrest : re_search_a p = None).
  { rewrite <- (append_empty_r p). rewrite (re_search_a_skip _ _ Hp).
    reflexivity. }
  change ("/" +:+ p) with (String "/" p). cbn [re_search_a].
  replace (startswith (String "/" p) "/a/") with false; [exact Hrest|].
  destruct p as [|a [|b p]]; cbn -[Ascii.eqb] in *; try reflexivity.
  - rewrite andb_false_r. reflexivity.
  - apply orb_false_elim in Hp as [_ Hp].
    apply orb_false_elim in Hp as [Hb _].
    rewrite (Ascii.eqb_sym "/" b), Hb, !andb_false_r. reflexivity.
Qed.

Section DivergingChecks.
Context `{Builtins} `{Formatting}.

(** A link whose path is the single segment [p] and that goes on with a
    query or a fragment parses to the path [/p]. *)
Lemma urlparse_one_segment p sep q :
  all_chars token_char p = true ->
  sep = "?"%char \/ sep = "#"%char ->
  exists parsed,
    urllib.urlparse ("https://rider.live/" +:+ p +:+ String sep q) = Ret parsed
    /\ urllib.path parsed = "/" +:+ p.
Proof.
  intros Hp Hsep.
  assert (Hp' : all_chars segment_char p = true)
    by (eapply all_chars_weaken; [apply token_char_segment_char | exact Hp]).
  unfold urllib.urlparse, urllib.urlsplit.
  change (urllib.lstrip_c0 ("https://rider.live/" +:+ p +:+ String sep q))
    with ("https://rider.live/" +:+ p +:+ String sep q).
  rewrite !remove_unsafe_append, (remove_unsafe_segment _ Hp').
  change (urllib.remove_unsafe "https://rider.live/") with "https://rider.live/"%string.
  assert (Hq : urllib.remove_unsafe (String sep q)
               = String sep (urllib.remove_unsafe q))
    by (destruct Hsep; subst sep; reflexivity).
  rewrite Hq.
  set (q' := urllib.remove_unsafe q).
  set (after := p +:+ String sep q').
  change (urllib.split_scheme ("https://rider.live/" +:+ after))
    with ("https"%string, "//rider.live/" +:+ after).
  cbv iota beta.
  change (startswith ("//rider.live/" +:+ after) "//") with true. cbv iota.
  rewrite splitnetloc_rider_live.
  change (urllib.check_netloc "rider.live") with (Ret tt).
  rewrite bind_Ret. cbv beta.
  assert (Hsplit : "/" +:+ after = ("/" +:+ p) +:+ String sep q')
    by reflexivity.
  rewrite Hsplit. clear Hsplit.
  assert (Hhash : has_char "#" ("/" +:+ p) = false)
    by (apply (all_chars_has_char _ _ _ Hp'); reflexivity).
  assert (Hquery : has_char "?" ("/" +:+ p) = false)
    by (apply (all_chars_has_char _ _ _ Hp'); reflexivity).
  assert (Hsemi : has_char ";" ("/" +:+ p) = false)
    by (apply (all_chars_has_char _ _ _ Hp); reflexivity).
  assert (Hpath : split_once "?"
                    (fst (split_once "#" (("/" +:+ p) +:+ String sep q')))
                  = ("/" +:+ p,
                     snd (split_once "?"
                            (fst (split_once "#"
                                    (("/" +:+ p) +:+ String sep q')))))).
  { rewrite (split_once_append "#" _ _ Hhash). cbn [fst].
    destruct Hsep as [-> | ->].
    - destruct (split_once_after_head "#" "?" q' eq_refl) as [t ->].
      rewrite (split_once_append "?" _ _ Hquery). cbn [fst snd].
      rewrite split_once_at_head, append_empty_r. reflexivity.
    - rewrite split_once_at_head, append_empty_r.
      rewrite (split_once_absent _ _ Hquery). reflexivity. }
  destruct (split_once "#" (("/" +:+ p) +:+ String sep q'))
    as [url fragment].
  cbn [fst] in Hpath. rewrite Hpath.
  rewrite bind_Ret.
  change (existsb (String.eqb "https") urllib.uses_params) with true.
  rewrite Hsemi. cbn [andb].
  eexists. split; reflexivity.
Qed.

(** X21. The two checks of a share link disagree on links whose only
    match of the pattern lies in the query or in the fragment.  The
    configuration step searches the whole URL and creates the entry; the
    coordinator searches the parsed path and, with an interval that
    [timedelta] takes, raises [ValueError]; the setup of the platform
    answers [ConfigEntryNotReady] whatever the network does and whatever
    the interval is. *)
Theorem flow_accepts_what_setup_rejects config_entry p sep q token :
  entry_share_url config_entry
  = "https://rider.live/" +:+ p +:+ String sep q ->
  all_chars token_char p = true ->
  sep = "?"%char \/ sep = "#"%char ->
  re_search_a q = Some token ->
  config_flow.async_step_user (Some config_entry)
  = config_flow.CreateEntry "Liberty Rider" config_entry
  /\ (timedelta_fits (scan_interval_of config_entry) ->
      LibertyRiderCoordinator.__init__ config_entry
      = Raise (ValueError "Invalid share URL format"))
  /\ forall net,
       platform.async_setup_entry config_entry net = Raise ConfigEntryNotReady.
Proof.
  intros Hurl Hp Hsep Hmatch.
  assert (Hinit : timedelta_fits (scan_interval_of config_entry) ->
                  LibertyRiderCoordinator.__init__ config_entry
                  = Raise (ValueError "Invalid share URL format")).
  { intros Hfits. rewrite (init_by_path _ Hfits). cbv zeta. rewrite Hurl.
    change (startswith ("https://rider.live/" +:+ p +:+ String sep q) "@")
      with false. cbv iota.
    destruct (urlparse_one_segment p sep q Hp Hsep) as (parsed & -> & ->).
    rewrite re_search_a_one_slash; [reflexivity|].
    apply (all_chars_has_char _ _ _ Hp). reflexivity. }
  split; [|split].
  - unfold config_flow.async_step_user. rewrite Hurl.
    change (startswith ("https://rider.live/" +:+ p +:+ String sep q)
              const.BASE_URL) with true.
    cbn [negb].
    destruct (re_search_a_suffix ("https://rider.live/" +:+ p +:+ String sep EmptyString)
                q token Hmatch) as [found Hfound].
    replace (("https://rider.live/" +:+ p +:+ String sep EmptyString) +:+ q)
      with ("https://rider.live/" +:+ p +:+ String sep q) in Hfound.
    + rewrite Hfound, <- Hurl. destruct config_entry; reflexivity.
    + cbn [String.append]. rewrite !append_assoc. reflexivity.
  - exact Hinit.
  - intros net. rewrite platform_setup_cases.
    destruct (LibertyRiderCoordinator.__init__ config_entry)
      as [created|] eqn:Hcreated; [|reflexivity].
    discriminate (Hinit (init_returns_fits _ _ Hcreated)).
Qed.

End DivergingChecks.

(** ** Links that pass both checks *)

Section AgreeingChecks.
Context `{Builtins} `{Formatting}.

(** X22. A share link [https://rider.live/<lang>/a/<TOKEN><rest>] of the
    documented shape, entered with an interval that [timedelta] takes,
    passes both checks: the configuration step creates the entry with the
    inputs as they are, the coordinator is constructed from it with
    [TOKEN] as share id, and the setup of the platform answers
    [ConfigEntryNotReady] only when the first poll fails. *)
Theorem share_link_passes_both_checks config_entry lang token rest :
  entry_share_url config_entry
  = "https://rider.live/" +:+ lang +:+ "/a/" +:+ token +:+ rest ->
  all_chars segment_char lang = true ->
  lang <> "a"%string ->
  all_chars token_char token = true ->
  token <> EmptyString ->
  link_rest rest = true ->
  timedelta_fits (scan_interval_of config_entry) ->
  config_flow.async_step_user (Some config_entry)
  = config_flow.CreateEntry "Liberty Rider" config_entry
  /\ exists coordinator,
       LibertyRiderCoordinator.__init__ config_entry = Ret coordinator
       /\ LibertyRiderCoordinator.share_id coordinator = token
       /\ forall net,
            platform.async_setup_entry config_entry net
            = Raise ConfigEntryNotReady
            <-> forall snapshot,
                  LibertyRiderCoordinator._async_update_data coordinator net
                  <> Ret snapshot.
Proof.
  intros Hurl Hlang Hna Htoken Hne Hrest Hfits.
  split.
  - unfold config_flow.async_step_user. rewrite Hurl.
    change (startswith
              ("https://rider.live/" +:+ lang +:+ "/a/" +:+ token +:+ rest)
              const.BASE_URL) with true.
    cbn [negb].
    assert (Hhere : exists found,
              re_search_a ("/a/" +:+ token +:+ rest) = Some found).
    { destruct token as [|c token]; [contradiction|].
      cbn -[Ascii.eqb] in Htoken. apply andb_prop in Htoken as [Hc _].
      apply token_char_segment_char in Hc. unfold segment_char in Hc.
      apply negb_true_iff in Hc.
      repeat (apply orb_false_elim in Hc as [Hc _]).
      change (re_search_a ("/a/" +:+ String c token +:+ rest))
        with (if negb (String.eqb
                         (segment (String c (token +:+ rest))) EmptyString)
              then Some (segment (String c (token +:+ rest)))
              else re_search_a ("a/" +:+ String c token +:+ rest)).
      cbn -[Ascii.eqb re_search_a]. rewrite Hc. cbn. eauto. }
    destruct Hhere as [found Hfound].
    destruct (re_search_a_suffix ("https://rider.live/" +:+ lang) _ _ Hfound)
      as [found' Hfound'].
    replace (("https://rider.live/" +:+ lang) +:+ "/a/" +:+ token +:+ rest)
      with ("https://rider.live/" +:+ lang +:+ "/a/" +:+ token +:+ rest)
      in Hfound' by reflexivity.
    rewrite Hfound', <- Hurl. destruct config_entry; reflexivity.
  - pose proof (init_by_path config_entry Hfits) as Hinit. cbv zeta in Hinit.
    rewrite Hurl in Hinit.
    change (startswith
              ("https://rider.live/" +:+ lang +:+ "/a/" +:+ token +:+ rest) "@")
      with false in Hinit. cbv iota in Hinit.
    destruct (urlparse_share_link lang token rest Hlang Htoken Hrest)
      as (parsed & tail & Hparse & Hpath & Htail).
    rewrite Hparse, Hpath in Hinit.
    rewrite re_search_a_token in Hinit; try assumption.
    2: apply (segment_text_chars _ _ Hlang); reflexivity.
    2: apply (all_chars_has_char _ _ _ Htoken); reflexivity.
    eexists. split; [exact Hinit|]. split; [reflexivity|].
    intros net. rewrite platform_setup_cases, Hinit.
    match goal with
    | |- context [LibertyRiderCoordinator._async_update_data ?c net] =>
        destruct (LibertyRiderCoordinator._async_update_data c net)
          as [snapshot|] eqn:Hpoll
    end.
    + cbv zeta. split.
      * destruct (user_firstname snapshot) as [firstname|] eqn:Hname;
          [discriminate|].
        destruct (user_firstname_raises _ _ Hname) as (-> & _).
        discriminate.
      * intros Hnever. destruct (Hnever snapshot eq_refl).
    + split; [discriminate | reflexivity].
Qed.

End AgreeingChecks.

(** ** Attributes over a complete snapshot *)

(** X23. Over a snapshot whose [state] is a non-empty string and whose
    [distance], [duration] and [currentBatteryLevel] are truthy numbers
    in the range of the floats, the attributes are exactly four: the
    prefixed lower-case state, the distance over 1000 rounded to two
    decimals, the duration over 60 rounded to one decimal, and the
    battery level times 100 rounded to one decimal. *)
Theorem attributes_of_full_snapshot self (snap : gmap string pyval)
    s distance km duration minutes battery level :
  LibertyRiderCoordinator.data (LibertyRiderGPSTracker.coordinator self)
    = PDict snap ->
  snap !! "state" = Some (PStr s) ->
  s <> EmptyString ->
  snap !! "distance" = Some distance ->
  truthy distance = true ->
  py_truediv distance 1000 = Ret km ->
  snap !! "duration" = Some duration ->
  truthy duration = true ->
  py_truediv duration 60 = Ret minutes ->
  snap !! "currentBatteryLevel" = Some battery ->
  truthy battery = true ->
  (scaled ← py_mul battery 100; py_round scaled 1) = Ret level ->
  LibertyRiderGPSTracker.extra_state_attributes self
  = Ret (<["battery_level" := level]>
           (<["duration_minutes" := PFloat (round_float minutes 1)]>
              (<["distance_km" := PFloat (round_float km 2)]>
                 {["ride_status" :=
                     PStr ("entity.sensor.status.state." +:+ lower s)]}))).
Proof.
  intros Hdata Hstate Hne Hdistance Htd Hkm Hduration Htm Hminutes
    Hbattery Htb Hlevel.
  unfold LibertyRiderGPSTracker.extra_state_attributes.
  rewrite Hdata, (truthy_dict_lookup _ _ _ Hstate). cbn [negb].
  rewrite try_except_any.
  unfold LibertyRiderGPSTracker.attributes_body.
  cbn [getitem].
  step_get Hstate. rewrite (truthy_string _ Hne), !bind_Ret. cbv beta.
  cbn [py_lower]. rewrite !bind_Ret. cbv beta.
  step_get Hdistance. rewrite Htd, !bind_Ret. cbv beta.
  rewrite Hkm, !bind_Ret. cbv beta.
  step_get Hduration. rewrite Htm, !bind_Ret. cbv beta.
  rewrite Hminutes, !bind_Ret. cbv beta.
  step_get Hbattery. rewrite Htb, !bind_Ret. cbv beta.
  destruct (py_mul battery 100) as [scaled|]; [|discriminate].
  rewrite bind_Ret in Hlevel. rewrite bind_Ret. cbv beta in Hlevel |- *.
  rewrite Hlevel. reflexivity.
Qed.

(** ** Zero measures *)

Section ZeroMeasures.
Context `{Builtins}.

(** X24. A measure of zero is a value for the sensors and an absence for
    the attributes: with [currentBatteryLevel], [distance] or [duration]
    equal to the integer [0] or to the float [0.0], the sensor of that
    field reports zero, not [None], while the attribute of that field is
    never set.  The sensors test [is None], the attributes test
    truthiness. *)
Theorem zero_is_reported_by_sensors_only sensor tracker
    (snap : gmap string pyval) k field attribute zero reported :
  (k = "battery"%string /\ field = "currentBatteryLevel"%string
   /\ attribute = "battery_level"%string /\ reported = PFloat 0)
  \/ (k = "distance"%string /\ field = "distance"%string
      /\ attribute = "distance_km"%string /\ reported = PFloat 0)
  \/ (k = "duration"%string /\ field = "duration"%string
      /\ attribute = "duration_minutes"%string /\ reported = PInt 0) ->
  In (k, LibertyRiderSensor.entity_description sensor) SENSOR_TYPES ->
  LibertyRiderCoordinator.data (LibertyRiderSensor.coordinator sensor)
    = PDict snap ->
  LibertyRiderCoordinator.data (LibertyRiderGPSTracker.coordinator tracker)
    = PDict snap ->
  snap !! field = Some zero ->
  zero = PInt 0 \/ zero = PFloat 0 ->
  LibertyRiderSensor.state sensor = Ret reported
  /\ forall attrs,
       LibertyRiderGPSTracker.extra_state_attributes tracker = Ret attrs ->
       attrs !! attribute = None.
Proof.
  intros Hk Hin Hsensor Htracker Hfield Hzero.
  split.
  - rewrite (state_over_snapshot _ _ _ _ Hsensor Hfield).
    unfold LibertyRiderSensor.state_body.
    rewrite (sensor_type_key _ _ Hin), Hsensor.
    destruct Hk as [(-> & -> & _ & ->) | [(-> & -> & _ & ->) | (-> & -> & _ & ->)]];
      cbn [String.eqb Ascii.eqb Bool.eqb];
      step_get Hfield;
      destruct Hzero as [-> | ->]; vm_compute; reflexivity.
  - intros attrs Hattrs.
    destruct (extra_state_attributes_cases _ _ _ Htracker Hattrs)
      as [-> | Hbody]; [apply lookup_empty|].
    destruct (attributes_lookup _ _ Hbody) as (_ & Hd & Hm & Hb & _).
    destruct Hk as [(_ & -> & -> & _) | [(_ & -> & -> & _) | (_ & -> & -> & _)]];
      rewrite ?Hd, ?Hm, ?Hb; unfold attempt; rewrite Hfield;
      destruct Hzero as [-> | ->]; reflexivity.
Qed.

End ZeroMeasures.

(** ** Causes of a failed poll *)

(** X25. Every failure of a poll is reported as a communication error
    that wraps its cause.  The three failures that the block raises
    itself ([Error <status>: <text>] on a status other than 200, also
    another 2xx; [GraphQL error]; [No ride data found]) are wrapped a
    second time by the handler of the same block, and a [data] that is
    not an object is reported with the [AttributeError] of its lookup,
    not as a missing ride. *)
Theorem poll_failure_causes self :
  (forall status t json,
     status <> 200 ->
     LibertyRiderCoordinator._async_update_data self
       (Responded status (Ret t) json)
     = Raise (UpdateFailed
                (MsgCommunicating (UpdateFailed (MsgStatus status t)))))
  /\ (forall text (top : gmap string pyval) errors,
        top !! "errors" = Some errors ->
        LibertyRiderCoordinator._async_update_data self
          (Responded 200 text (Ret (PDict top)))
        = Raise (UpdateFailed
                   (MsgCommunicating (UpdateFailed (MsgGraphQL errors)))))
  /\ (forall text (top : gmap string pyval),
        top !! "errors" = None ->
        top !! "data" = None
        \/ (exists inner : gmap string pyval,
              top !! "data" = Some (PDict inner)
              /\ truthy (default PNone (inner !! "ride")) = false) ->
        LibertyRiderCoordinator._async_update_data self
          (Responded 200 text (Ret (PDict top)))
        = Raise (UpdateFailed (MsgCommunicating (UpdateFailed MsgNoRide))))
  /\ (forall text (top : gmap string pyval) v,
        top !! "errors" = None ->
        top !! "data" = Some v ->
        is_dict v = false ->
        LibertyRiderCoordinator._async_update_data self
          (Responded 200 text (Ret (PDict top)))
        = Raise (UpdateFailed (MsgCommunicating AttributeError)))
  /\ (forall e,
        LibertyRiderCoordinator._async_update_data self (PostRaises e)
        = Raise (UpdateFailed (MsgCommunicating e)))
  /\ (forall text e,
        LibertyRiderCoordinator._async_update_data self
          (Responded 200 text (Raise e))
        = Raise (UpdateFailed (MsgCommunicating e))).
Proof.
  unfold LibertyRiderCoordinator._async_update_data.
  repeat apply conj.
  - intros status t json Hstatus. rewrite try_except_any.
    destruct (Z.eqb_spec status 200); [contradiction | reflexivity].
  - intros text top errors Herrors. rewrite try_except_any.
    cbn [Z.eqb Pos.eqb negb]. rewrite bind_Ret. cbv beta.
    unfold py_contains. rewrite Herrors.
    rewrite bool_decide_eq_true_2 by eauto.
    rewrite bind_Ret. cbv beta iota. cbn [getitem]. rewrite Herrors.
    reflexivity.
  - intros text top Herrors Hride. rewrite try_except_any.
    cbn [Z.eqb Pos.eqb negb]. rewrite bind_Ret. cbv beta.
    unfold py_contains. rewrite Herrors.
    rewrite bool_decide_eq_false_2 by (intros [? ?]; discriminate).
    rewrite bind_Ret. cbv beta iota.
    destruct Hride as [Hdata | (inner & Hdata & Hride)]; step_get Hdata.
    + rewrite dict_get_lookup, lookup_empty. reflexivity.
    + rewrite dict_get_lookup, bind_Ret. cbv beta. rewrite Hride. reflexivity.
  - intros text top v Herrors Hdata Hkind. rewrite try_except_any.
    cbn [Z.eqb Pos.eqb negb]. rewrite bind_Ret. cbv beta.
    unfold py_contains. rewrite Herrors.
    rewrite bool_decide_eq_false_2 by (intros [? ?]; discriminate).
    rewrite bind_Ret. cbv beta iota.
    step_get Hdata. destruct v; try discriminate Hkind; reflexivity.
  - intros e. reflexivity.
  - intros text e. reflexivity.
Qed.

(** * Worked examples of the further properties *)

(** X3, at the start-time sensor of a snapshot without [startTime]. *)
Lemma state_none_without_field_witness :
  @LibertyRiderSensor.state plain_builtins
    (sensor_with "start_time" (PDict riding_snapshot))
  = Ret PNone.
Proof.
  apply (@state_none_without_field plain_builtins
           (sensor_with "start_time" (PDict riding_snapshot))
           riding_snapshot "start_time").
  - do 5 right. left. reflexivity.
  - reflexivity.
  - left. reflexivity.
Defined.

(** X4, at [2024-05-01T10:00:00Z] with a parser that accepts the
    timestamp once its suffix is [+00:00]. *)
Lemma start_time_utc_suffix_witness :
  @LibertyRiderSensor.state utc_builtins
    (sensor_with "start_time" (PDict rider_snapshot))
  = Ret (PDatetime "2024-05-01T10:00:00+00:00").
Proof.
  refine (@start_time_utc_suffix utc_builtins
            (sensor_with "start_time" (PDict rider_snapshot))
            rider_snapshot "2024-05-01T10:00:00" "2024-05-01T10:00:00Z"
            _ _ _ _ _).
  - do 5 right. left. reflexivity.
  - reflexivity.
  - reflexivity.
  - reflexivity.
  - left. reflexivity.
Defined.

(** X5, at a ride that has not moved: the state is there, the distance
    of zero is not. *)
Lemma attributes_follow_truthiness_witness :
  (is_Some (({[ "ride_status"%string :=
                  PStr "entity.sensor.status.state.ride_active" ]}
             : gmap string pyval) !! "ride_status")
   <-> truthy (default PNone (starting_snapshot !! "state")) = true)
  /\ (is_Some (({[ "ride_status"%string :=
                     PStr "entity.sensor.status.state.ride_active" ]}
                : gmap string pyval) !! "distance_km")
      <-> truthy (default PNone (starting_snapshot !! "distance")) = true).
Proof.
  destruct (attributes_follow_truthiness
              (tracker_with (PDict starting_snapshot)) starting_snapshot
              {[ "ride_status"%string :=
                   PStr "entity.sensor.status.state.ride_active" ]})
    as (Hstatus & Hdistance & _).
  - reflexivity.
  - vm_compute. reflexivity.
  - intros Hempty. apply (f_equal (fun m => m !! "ride_status")) in Hempty.
    vm_compute in Hempty. discriminate Hempty.
  - split; [exact Hstatus | exact Hdistance].
Defined.

(** X6, at a distance sent as text: the state is lost with it. *)
Lemma malformed_field_witness :
  LibertyRiderGPSTracker.extra_state_attributes
    (tracker_with (PDict textual_snapshot))
  = Ret ∅.
Proof.
  apply (malformed_field_empties_attributes
           (tracker_with (PDict textual_snapshot)) textual_snapshot
           "distance" (PStr "12345")).
  - reflexivity.
  - left. reflexivity.
  - reflexivity.
  - reflexivity.
  - reflexivity.
Defined.

(** X7, at an active ride. *)
Lemma status_readers_agree_witness :
  @LibertyRiderSensor.state plain_builtins
    (sensor_with "status" (PDict riding_snapshot))
  = Ret (PStr "entity.sensor.status.state.ride_active")
  /\ TrackerEntity.state (tracker_with (PDict riding_snapshot))
     = Ret "entity.sensor.status.state.ride_active"%string.
Proof.
  destruct (@status_readers_agree plain_builtins
              (sensor_with "status" (PDict riding_snapshot))
              (tracker_with (PDict riding_snapshot))
              riding_snapshot "RIDE_ACTIVE")
    as (Hsensor & Htracker & _).
  - left. reflexivity.
  - reflexivity.
  - reflexivity.
  - reflexivity.
  - discriminate.
  - split; [exact Hsensor | exact Htracker].
Defined.

(** X8, at an empty state. *)
Lemma empty_state_witness :
  @LibertyRiderSensor.state plain_builtins
    (sensor_with "status" (PDict stateless_snapshot))
  = Ret (PStr "entity.sensor.status.state.")
  /\ TrackerEntity.state (tracker_with (PDict stateless_snapshot))
     = Ret "not_home"%string.
Proof.
  destruct (@empty_state_separates_readers plain_builtins
              (sensor_with "status" (PDict stateless_snapshot))
              (tracker_with (PDict stateless_snapshot))
              stateless_snapshot)
    as (Hsensor & Htracker & _).
  - left. reflexivity.
  - reflexivity.
  - reflexivity.
  - reflexivity.
  - split; [exact Hsensor | exact Htracker].
Defined.

(** X9, at the state [7]. *)
Lemma non_string_state_witness :
  @LibertyRiderSensor.state plain_builtins
    (sensor_with "status" (PDict numbered_snapshot))
  = Ret PNone
  /\ LibertyRiderGPSTracker.extra_state_attributes
       (tracker_with (PDict numbered_snapshot)) = Ret ∅
  /\ TrackerEntity.state (tracker_with (PDict numbered_snapshot))
     = Raise AttributeError.
Proof.
  apply (@non_string_state_escapes_tracker plain_builtins
           (sensor_with "status" (PDict numbered_snapshot))
           (tracker_with (PDict numbered_snapshot))
           numbered_snapshot (PInt 7)).
  - left. reflexivity.
  - reflexivity.
  - reflexivity.
  - reflexivity.
  - reflexivity.
  - reflexivity.
Defined.

(** X10, X11: the setup of a rider named [Ana]. *)
Lemma setup_builds_seven_entities_witness :
  exists created snapshot,
    @LibertyRiderCoordinator.__init__ plain_builtins
      (entry_for "https://rider.live/fr/a/TOKEN") = Ret created
    /\ LibertyRiderCoordinator._async_update_data created
         (answer_with (PDict rider_snapshot)) = Ret snapshot
    /\ map entity_key rider_entities
       = map (fun kd => Some (fst kd)) SENSOR_TYPES ++ [None]
    /\ Forall (fun e => entity_coordinator e
                        = LibertyRiderCoordinator.refresh created
                            (answer_with (PDict rider_snapshot)))
         rider_entities
    /\ LibertyRiderCoordinator.data
         (LibertyRiderCoordinator.refresh created
            (answer_with (PDict rider_snapshot)))
       = snapshot
    /\ LibertyRiderCoordinator.last_update_success
         (LibertyRiderCoordinator.refresh created
            (answer_with (PDict rider_snapshot))) = true
    /\ LibertyRiderCoordinator.share_id
         (LibertyRiderCoordinator.refresh created
            (answer_with (PDict rider_snapshot)))
       = LibertyRiderCoordinator.share_id created.
Proof.
  apply (@setup_builds_seven_entities plain_builtins plain_formatting
           (entry_for "https://rider.live/fr/a/TOKEN")
           (answer_with (PDict rider_snapshot)) rider_entities).
  vm_compute. reflexivity.
Defined.

Lemma setup_unique_ids_witness :
  NoDup (map entity_unique_id rider_entities).
Proof.
  apply (@setup_unique_ids_distinct plain_builtins plain_formatting
           (entry_for "https://rider.live/fr/a/TOKEN")
           (answer_with (PDict rider_snapshot)) rider_entities).
  vm_compute. reflexivity.
Defined.

(** X12, at a ride that is a text: the first poll returns it and the
    constructor of the first sensor raises. *)
Lemma setup_failures_witness :
  (AttributeError = ConfigEntryNotReady
   /\ forall created snapshot,
        @LibertyRiderCoordinator.__init__ plain_builtins
          (entry_for "https://rider.live/fr/a/TOKEN") = Ret created ->
        LibertyRiderCoordinator._async_update_data created
          (answer_with (PStr "offline"))
        <> Ret snapshot)
  \/ (AttributeError = AttributeError
      /\ exists created snapshot,
           @LibertyRiderCoordinator.__init__ plain_builtins
             (entry_for "https://rider.live/fr/a/TOKEN") = Ret created
           /\ LibertyRiderCoordinator._async_update_data created
                (answer_with (PStr "offline"))
              = Ret snapshot
           /\ (is_dict snapshot = false
               \/ exists (snap : gmap string pyval) v,
                    snapshot = PDict snap /\ snap !! "user" = Some v
                    /\ truthy v = true /\ is_dict v = false)).
Proof.
  apply (@setup_failures plain_builtins plain_formatting
           (entry_for "https://rider.live/fr/a/TOKEN")
           (answer_with (PStr "offline")) AttributeError).
  vm_compute. reflexivity.
Defined.

(** X13, at the status sensor and the tracker of the same rider. *)
Lemma built_entities_share_device_witness :
  exists firstname info,
    SensorEntity._attr_unique_id
      (sensor_named (coordinator_with (PDict rider_snapshot))
         (registered "status") "Ana")
    = "liberty_rider_" +:+ key (registered "status") +:+ "_" +:+ firstname
    /\ TrackerEntity._attr_unique_id
         (tracker_named (coordinator_with (PDict rider_snapshot)) "Ana")
       = "liberty_rider_" +:+ firstname +:+ "_gps"
    /\ @SensorEntity.device_info plain_formatting
         (sensor_named (coordinator_with (PDict rider_snapshot))
            (registered "status") "Ana") = Ret info
    /\ @TrackerEntity.device_info plain_formatting
         (tracker_named (coordinator_with (PDict rider_snapshot)) "Ana")
       = Ret info
    /\ match info with
       | None => firstname = EmptyString
       | Some device =>
           identifiers device
           = [(const.DOMAIN,
               LibertyRiderCoordinator.share_id
                 (coordinator_with (PDict rider_snapshot)))]
           /\ device_name device = "Liberty Rider - " +:+ firstname
       end.
Proof.
  apply (@built_entities_share_device plain_formatting
           (coordinator_with (PDict rider_snapshot)) (registered "status")).
  - vm_compute. reflexivity.
  - vm_compute. reflexivity.
Defined.

(** X15, at the first entry of an empty registry. *)
Lemma unload_undoes_setup_witness :
  exists after,
    integration.async_unload_entry
      (fst (integration.async_setup_entry ∅ first_entry (Ret tt)))
      first_entry true
    = Ret (after, true)
    /\ (forall id, entry_data_of after id = entry_data_of ∅ id)
    /\ (forall domain, domain <> const.DOMAIN ->
          after !! domain
          = (∅ : gmap string (gmap string ConfigEntryData)) !! domain)
    /\ after !! const.DOMAIN
       = Some (default ∅
                 ((∅ : gmap string (gmap string ConfigEntryData))
                    !! const.DOMAIN)).
Proof.
  apply (unload_undoes_setup ∅ first_entry (Ret tt)).
  reflexivity.
Defined.

(** X17, at an active ride without a current location: the located
    pause is not consulted. *)
Lemma tracker_without_location_witness :
  @LibertyRiderGPSTracker.latitude plain_builtins
    (tracker_with (PDict resumed_snapshot)) = Ret PNone
  /\ @LibertyRiderGPSTracker.longitude plain_builtins
       (tracker_with (PDict resumed_snapshot)) = Ret PNone.
Proof.
  apply (@tracker_without_location plain_builtins
           (tracker_with (PDict resumed_snapshot)) resumed_snapshot).
  - reflexivity.
  - right. left. split; reflexivity.
Defined.

(** X19, at a link with a leading [@], a trailing segment and a
    tracking parameter. *)
Lemma constructed_share_id_witness :
  "TOKEN123"%string <> EmptyString
  /\ (forall c, In c ["/"; "?"; "#"; "009"; "010"; "013"]%char ->
        has_char c "TOKEN123" = false)
  /\ PNone = PNone
  /\ true = true
  /\ 5 = default 5
           (entry_scan_interval
              (entry_for "@https://rider.live/fr/a/TOKEN123/map?utm_source=share")).
Proof.
  apply (@constructed_share_id_is_segment plain_builtins
           (entry_for "@https://rider.live/fr/a/TOKEN123/map?utm_source=share")
           {| LibertyRiderCoordinator.share_url :=
                "https://rider.live/fr/a/TOKEN123/map?utm_source=share";
              LibertyRiderCoordinator.share_id := "TOKEN123";
              LibertyRiderCoordinator.update_interval := 5;
              LibertyRiderCoordinator.data := PNone;
              LibertyRiderCoordinator.last_update_success := true |}).
  vm_compute. reflexivity.
Defined.

(** X20, at a plain share link. *)
Lemma created_entry_witness :
  "Liberty Rider"%string = "Liberty Rider"%string
  /\ entry_for "https://rider.live/fr/a/TOKEN"
     = entry_for "https://rider.live/fr/a/TOKEN"
  /\ startswith
       (entry_share_url (entry_for "https://rider.live/fr/a/TOKEN"))
       const.BASE_URL = true
  /\ (exists token,
        re_search_a (entry_share_url (entry_for "https://rider.live/fr/a/TOKEN"))
        = Some token)
  /\ forall coordinator,
       @LibertyRiderCoordinator.__init__ plain_builtins
         (entry_for "https://rider.live/fr/a/TOKEN") = Ret coordinator ->
       LibertyRiderCoordinator.share_url coordinator
       = entry_share_url (entry_for "https://rider.live/fr/a/TOKEN").
Proof.
  apply (@created_entry_keeps_input plain_builtins
           (entry_for "https://rider.live/fr/a/TOKEN")
           "Liberty Rider" (entry_for "https://rider.live/fr/a/TOKEN")).
  vm_compute. reflexivity.
Defined.

(** X21, at a link whose token sits in the query, entered with the
    interval of five minutes. *)
Lemma flow_accepts_what_setup_rejects_witness :
  config_flow.async_step_user
    (Some (entry_for "https://rider.live/fr?next=/a/TOKEN"))
  = config_flow.CreateEntry "Liberty Rider"
      (entry_for "https://rider.live/fr?next=/a/TOKEN")
  /\ @LibertyRiderCoordinator.__init__ plain_builtins
       (entry_for "https://rider.live/fr?next=/a/TOKEN")
     = Raise (ValueError "Invalid share URL format")
  /\ forall net,
       @platform.async_setup_entry plain_builtins plain_formatting
         (entry_for "https://rider.live/fr?next=/a/TOKEN") net
       = Raise ConfigEntryNotReady.
Proof.
  destruct (@flow_accepts_what_setup_rejects plain_builtins plain_formatting
              (entry_for "https://rider.live/fr?next=/a/TOKEN")
              "fr" "?" "next=/a/TOKEN" "TOKEN")
    as (Hflow & Hinit & Hsetup).
  - reflexivity.
  - reflexivity.
  - left. reflexivity.
  - reflexivity.
  - split; [exact Hflow | split; [|exact Hsetup]].
    apply Hinit. red. cbn. lia.
Defined.

(** X22, at a link with a tracking parameter. *)
Lemma share_link_passes_both_checks_witness :
  config_flow.async_step_user
    (Some (entry_for "https://rider.live/fr/a/TOKEN123?utm_source=share"))
  = config_flow.CreateEntry "Liberty Rider"
      (entry_for "https://rider.live/fr/a/TOKEN123?utm_source=share")
  /\ exists coordinator,
       @LibertyRiderCoordinator.__init__ plain_builtins
         (entry_for "https://rider.live/fr/a/TOKEN123?utm_source=share")
       = Ret coordinator
       /\ LibertyRiderCoordinator.share_id coordinator = "TOKEN123"%string
       /\ forall net,
            @platform.async_setup_entry plain_builtins plain_formatting
              (entry_for "https://rider.live/fr/a/TOKEN123?utm_source=share")
              net
            = Raise ConfigEntryNotReady
            <-> forall snapshot,
                  LibertyRiderCoordinator._async_update_data coordinator net
                  <> Ret snapshot.
Proof.
  apply (@share_link_passes_both_checks plain_builtins plain_formatting
           (entry_for "https://rider.live/fr/a/TOKEN123?utm_source=share")
           "fr" "TOKEN123" "?utm_source=share").
  - reflexivity.
  - reflexivity.
  - discriminate.
  - reflexivity.
  - discriminate.
  - reflexivity.
  - red. cbn. lia.
Defined.

(** X23, at the measures 12345 m, 125 s and 0.85. *)
Lemma attributes_of_full_snapshot_witness :
  LibertyRiderGPSTracker.extra_state_attributes
    (tracker_with (PDict rider_snapshot))
  = Ret (<["battery_level" := PFloat 85]>
           (<["duration_minutes" := PFloat 2.1]>
              (<["distance_km" := PFloat 12.35]>
                 {["ride_status" :=
                     PStr "entity.sensor.status.state.ride_active"]}))).
Proof.
  refine (attributes_of_full_snapshot
            (tracker_with (PDict rider_snapshot)) rider_snapshot
            "RIDE_ACTIVE" (PInt 12345) 12.345%float
            (PInt 125) 2.0833333333333335%float
            (PFloat 0.85) (PFloat 85) _ _ _ _ _ _ _ _ _ _ _ _).
  - reflexivity.
  - reflexivity.
  - discriminate.
  - reflexivity.
  - reflexivity.
  - vm_compute. reflexivity.
  - reflexivity.
  - reflexivity.
  - vm_compute. reflexivity.
  - reflexivity.
  - reflexivity.
  - vm_compute. reflexivity.
Defined.

(** X24, at a ride that has not moved. *)
Lemma zero_is_reported_witness :
  @LibertyRiderSensor.state plain_builtins
    (sensor_with "distance" (PDict starting_snapshot))
  = Ret (PFloat 0)
  /\ forall attrs,
       LibertyRiderGPSTracker.extra_state_attributes
         (tracker_with (PDict starting_snapshot)) = Ret attrs ->
       attrs !! "distance_km" = None.
Proof.
  apply (@zero_is_reported_by_sensors_only plain_builtins
           (sensor_with "distance" (PDict starting_snapshot))
           (tracker_with (PDict starting_snapshot))
           starting_snapshot "distance" "distance" "distance_km"
           (PInt 0) (PFloat 0)).
  - right. left. repeat split; reflexivity.
  - do 2 right. left. reflexivity.
  - reflexivity.
  - reflexivity.
  - reflexivity.
  - left. reflexivity.
Defined.
